(** * CAMISIM [scripts/get_genomes.py]: from an abundance profile to a community design

    A shallow embedding of the Python 2 module [scripts/get_genomes.py]
    and the properties of its genome assignment that the specification
    states.

    Conventions of the embedding.
    - A Python [str] is a [string]; the [str] methods the module calls are
      in [Module Str], written after CPython's behaviour.
    - A Python exception is a constructor of [exn]; code that can raise
      returns a [result].
    - A [dict] that is only looked up and updated is a [gmap]; a [dict] the
      code iterates over is given as the list of its items in iteration
      order (Python 2 leaves that order unspecified, so the theorems hold
      for every order).
    - A [float] is an exact rational ([Q]): rounding is outside the model.
    - The collaborators of the module (the NCBI taxonomy of [ete2], numpy's
      random generator, the BIOM table, the file system and the network)
      are records of operations. *)

From Stdlib Require Import ZArith QArith List String Ascii Lia Permutation.
From stdpp Require Import base option list gmap strings pretty.

Open Scope string_scope.
Open Scope list_scope.
Open Scope nat_scope.
Open Scope stdpp_scope.

(** ** Exceptions *)

Inductive exn : Type :=
| NameError (name : string)
| UnboundLocalError (name : string)
| KeyError
| IndexError
| ValueError
| ZeroDivisionError
| TypeError
| IOError
| NoSectionError
| NoOptionError.

Inductive result (A : Type) : Type :=
| Ok (a : A)
| Raise (e : exn).

Arguments Ok {A} a.
Arguments Raise {A} e.

Definition bind {A B : Type} (m : result A) (k : A → result B) : result B :=
  match m with
  | Ok a => k a
  | Raise e => Raise e
  end.

Notation "'let!' x := m 'in' k" := (bind m (λ x, k))
  (at level 10, x name, m at level 100, k at level 200).
Notation "'let!' ' p := m 'in' k" := (bind m (λ x, match x with p => k end))
  (at level 10, p strict pattern, m at level 100, k at level 200).

(** [for x in xs: body], threading the loop state. *)
Fixpoint for_each {A S : Type} (body : A → S → result S) (xs : list A) (s : S)
  : result S :=
  match xs with
  | [] => Ok s
  | x :: xs' => let! s' := body x s in for_each body xs' s'
  end.

(** A subscript [d[k]] on a dict, and [l[i]] on a list. *)
Definition subscript `{Countable K} {V : Type} (d : gmap K V) (k : K) : result V :=
  match d !! k with
  | Some v => Ok v
  | None => Raise KeyError
  end.

Definition item {A : Type} (l : list A) (i : nat) : result A :=
  match l !! i with
  | Some v => Ok v
  | None => Raise IndexError
  end.

(** [l[-1]] *)
Definition last_item {A : Type} (l : list A) : result A :=
  match last l with
  | Some v => Ok v
  | None => Raise IndexError
  end.

(** [l.index(x)]: the position of the first occurrence. *)
Fixpoint index `{EqDecision A} (l : list A) (x : A) : result nat :=
  match l with
  | [] => Raise ValueError
  | y :: l' => if decide (y = x) then Ok 0
               else let! i := index l' x in Ok (S i)
  end.

(** ** The methods of [str] the module uses *)

Module Str.

Definition isspace (c : ascii) : bool :=
  (Ascii.eqb c " " || Ascii.eqb c "009" || Ascii.eqb c "010"
   || Ascii.eqb c "011" || Ascii.eqb c "012" || Ascii.eqb c "013")%char.

Fixpoint lstrip (s : string) : string :=
  match s with
  | String c s' => if isspace c then lstrip s' else s
  | EmptyString => EmptyString
  end.

Fixpoint rstrip (s : string) : string :=
  match s with
  | EmptyString => EmptyString
  | String c s' =>
      match rstrip s' with
      | EmptyString => if isspace c then EmptyString else String c EmptyString
      | r => String c r
      end
  end.

(** [s.strip()] *)
Definition strip (s : string) : string := lstrip (rstrip s).

(** [s.split()]: the maximal runs of characters that are not white space.
    [cur] is the current run, reversed. *)
Fixpoint split_ws_go (cur : string) (s : string) : list string :=
  match s with
  | EmptyString =>
      match cur with EmptyString => [] | _ => [String.rev cur] end
  | String c s' =>
      if isspace c then
        match cur with
        | EmptyString => split_ws_go EmptyString s'
        | _ => String.rev cur :: split_ws_go EmptyString s'
        end
      else split_ws_go (String c cur) s'
  end.

Definition split_ws (s : string) : list string := split_ws_go EmptyString s.

(** [s.startswith(p)] *)
Fixpoint startswith (p s : string) : bool :=
  match p with
  | EmptyString => true
  | String a p' =>
      match s with
      | String b s' => Ascii.eqb a b && startswith p' s'
      | EmptyString => false
      end
  end.

(** [s.split(sep)] for a separator that is not empty: the scan goes left to
    right and the occurrences do not overlap. [skip] counts the characters
    of a separator that was found and is still to be passed; [cur] is the
    current field, reversed. *)
Fixpoint split_go (sep : string) (skip : nat) (cur : string) (s : string)
  : list string :=
  match s with
  | EmptyString => [String.rev cur]
  | String c s' =>
      match skip with
      | S k => split_go sep k cur s'
      | O =>
          if startswith sep s
          then String.rev cur :: split_go sep (String.length sep - 1) EmptyString s'
          else split_go sep 0 (String c cur) s'
      end
  end.

Definition split (sep s : string) : list string :=
  split_go sep 0 EmptyString s.

(** [s.replace(old, new)] for [old] not empty: every occurrence, left to
    right, not overlapping. *)
Fixpoint replace_go (old new : string) (skip : nat) (s : string) : string :=
  match s with
  | EmptyString => EmptyString
  | String c s' =>
      match skip with
      | S k => replace_go old new k s'
      | O =>
          if startswith old s
          then new +:+ replace_go old new (String.length old - 1) s'
          else String c (replace_go old new 0 s')
      end
  end.

Definition replace (old new s : string) : string := replace_go old new 0 s.

End Str.

(** ** The logger and the configuration *)

(** A diagnostic of [map_otus_to_genomes], before it is formatted. *)
Inductive warning : Type :=
| NoMatchingId (otu name : string)
| RankTooHigh (rank otu : string)
| FullLineage (lineage : list Z) (lin : list string)
| NoGenomesOnRank (otu rank : string) (tax_id : Z).

(** What [_log] has received. *)
Inductive log_record : Type :=
| LogWarning (msg : string)
| LogMapping (w : warning)
| LogError (msg : string)
| LogCaught (e : option exn)
| LogInfo (msg : string).

(** A [ConfigParser]: section, then option, then value. The module only
    uses option names in lower case, on which [optionxform] is the
    identity. *)
Abbreviation config := (gmap string (gmap string string)).

(** [config.set(section, option, value)] *)
Definition config_set (section option value : string) (cfg : config) : result config :=
  match cfg !! section with
  | Some opts => Ok (<[section := <[option := value]> opts]> cfg)
  | None => Raise NoSectionError
  end.

(** [config.get(section, option)] *)
Definition config_get (section option : string) (cfg : config) : result string :=
  match cfg !! section with
  | Some opts =>
      match opts !! option with
      | Some v => Ok v
      | None => Raise NoOptionError
      end
  | None => Raise NoSectionError
  end.

(** ** [read_taxonomic_profile] *)

(** What the reader asks of a loaded BIOM table. The [taxonomy] metadata of
    an observation is one string or already a list of strings. *)
Record BiomTable : Type := {
  observation_ids : list string;
  sample_ids : list string;
  taxonomy : string → string + list string;
  get_value_by_ids : string → string → Q
}.

(** [l[:n]] for a Python int [n]. *)
Definition slice_to {A : Type} (n : Z) (l : list A) : list A :=
  if decide (0 ≤ n)%Z then take (Z.to_nat n) l
  else take (Z.to_nat (Z.of_nat (length l) + n)) l.

(** The sample count the reader settles on, and what it logs on the way. *)
Definition effective_samples (samples : list string) (no_samples : option Z)
  : Z * list log_record :=
  let len := Z.of_nat (length samples) in
  let no_samples := default len no_samples in
  if decide (no_samples ≠ len ∧ no_samples ≠ 1%Z) then
    let w1 := LogWarning ("Number of samples (" +:+ pretty no_samples
                +:+ ") does not match number of samples in biom file ("
                +:+ pretty len +:+ ")") in
    let no_samples := if decide (len < no_samples)%Z then len else no_samples in
    (no_samples, [w1; LogWarning ("Using the first " +:+ pretty no_samples +:+ " samples")])
  else (no_samples, []).

(** [lineage.split(";")], or the value as it is when it has no [split]. *)
Definition split_taxonomy (t : string + list string) : list string :=
  match t with
  | inl s => Str.split ";" s
  | inr l => l
  end.

(** The body of [for otu in ids], for the sample count it runs with. *)
Definition add_otu (table : BiomTable) (no_samples : Z)
    (profile : gmap string (list string * list Q)) (otu : string)
  : gmap string (list string * list Q) :=
  let lineage := split_taxonomy (taxonomy table otu) in
  let abundances :=
    get_value_by_ids table otu <$> slice_to no_samples (sample_ids table) in
  <[otu := (lineage, abundances)]> profile.

Definition read_taxonomic_profile (table : BiomTable) (cfg : config)
    (no_samples : option Z)
  : result (gmap string (list string * list Q) * config * list log_record) :=
  let ids := observation_ids table in
  let samples := sample_ids table in
  let '(no_samples, logged) := effective_samples samples no_samples in
  let! cfg := config_set "Main" "number_of_samples" (pretty no_samples) cfg in
  let profile := foldl (add_otu table no_samples) ∅ ids in
  Ok (profile, cfg, logged).

(** ** [read_genomes_list] *)

(** [a, b, c = fields] *)
Definition unpack3 (fields : list string) : result (string * string * string) :=
  match fields with
  | [a; b; c] => Ok (a, b, c)
  | _ => Raise ValueError
  end.

Definition tab : string := String "009" EmptyString.

(** [ncbi_id, sci_name, path = line.strip().split('\t')] *)
Definition catalog_fields (line : string) : result (string * string * string) :=
  unpack3 (Str.split tab (Str.strip line)).

(** The [if ncbi_id in genomes_map: ... else: ...] of both loops. *)
Definition add_location (ncbi_id sci_name location : string)
    (genomes_map : gmap string (string * list string))
  : gmap string (string * list string) :=
  match genomes_map !! ncbi_id with
  | Some entry => <[ncbi_id := (entry.1, entry.2 ++ [location])]> genomes_map
  | None => <[ncbi_id := (sci_name, [location])]> genomes_map
  end.

Definition read_primary_line (line : string)
    (genomes_map : gmap string (string * list string))
  : result (gmap string (string * list string)) :=
  let! '(ncbi_id, sci_name, ftp) := catalog_fields line in
  let http := Str.replace "ftp://" "http://" ftp in
  Ok (add_location ncbi_id sci_name http genomes_map).

Definition read_additional_line (line : string)
    (genomes_map : gmap string (string * list string))
  : result (gmap string (string * list string)) :=
  let! '(ncbi_id, sci_name, path) := catalog_fields line in
  Ok (add_location ncbi_id sci_name path genomes_map).

(** The two files are given by their lines. *)
Definition read_genomes_list (genomes : list string)
    (additional_file : option (list string))
  : result (gmap string (string * list string)) :=
  let! genomes_map := for_each read_primary_line genomes ∅ in
  match additional_file with
  | Some add => for_each read_additional_line add genomes_map
  | None => Ok genomes_map
  end.

(** The locations the catalog holds for an id, and the locations that the
    lines of a file give for it, in the order of the file. *)
Definition stored (genomes_map : gmap string (string * list string))
    (ncbi_id : string) : list string :=
  default [] (snd <$> genomes_map !! ncbi_id).

Definition locations_of (ncbi_id : string)
    (entries : list (string * string * string)) : list string :=
  snd <$> filter (λ e, e.1.1 = ncbi_id) entries.

(** The rewrite in the words of the specification, to compare [Str.replace]
    with: a leading "ftp://" becomes "http://", and the location is
    otherwise as it was read. *)
Definition rewrite_leading_ftp (location : string) : string :=
  match location with
  | String "f" (String "t" (String "p" (String ":" (String "/" (String "/" rest))))) =>
      "http://" +:+ rest
  | _ => location
  end.

(** ** The NCBI taxonomy ([ncbi = NCBITaxa()])

    The three queries of [ete2]'s [NCBITaxa] the module calls. Taxonomic ids
    are integers; the id of a genome is the string read from the catalog. *)

Record NCBITaxa : Type := {
  get_lineage : string → list Z;
  get_rank : list Z → gmap Z string;
  get_name_translator : list string → gmap string (list Z)
}.

(** [ete2] keys the answer of [get_name_translator] by the names it was asked
    for: a name that was not in the query is not in the answer. *)
Definition translator_answers_query (ncbi : NCBITaxa) : Prop :=
  ∀ (names : list string) (n : string),
    is_Some (get_name_translator ncbi names !! n) → n ∈ names.

Definition RANKS : list string :=
  ["species"; "genus"; "family"; "order"; "class"; "phylum"; "superkingdom"].

Definition MAX_RANK : string := "family".

(** The rank index: rank, then taxonomic id, then the bucket of
    (source location, genome id) pairs. *)
Abbreviation rank_index := (gmap string (gmap Z (list (string * string)))).

(** ** [get_genomes_per_rank] *)

(** [rank] is not past [max_rank] in [ranks]:
    not [ranks.index(rank) > ranks.index(max_rank)]. *)
Definition up_to (ranks : list string) (max_rank rank : string) : Prop :=
  ∃ i j, index ranks rank = Ok i ∧ index ranks max_rank = Ok j ∧ i ≤ j.

(** The first loop: one empty map per rank, until a rank lies past [max_rank]. *)
Fixpoint init_per_rank_map (ranks : list string) (max_rank : string)
    (todo : list string) (per_rank_map : rank_index) : result rank_index :=
  match todo with
  | [] => Ok per_rank_map
  | rank :: todo' =>
      let! i := index ranks rank in
      let! j := index ranks max_rank in
      if decide (j < i) then Ok per_rank_map
      else init_per_rank_map ranks max_rank todo' (<[rank := ∅]> per_rank_map)
  end.

(** The body of [for tax_id in lineage]. [id2rank] is the local the source
    calls [ranks] from there on; [entry] is [genomes_map[genome]]. *)
Definition index_genome_at (id2rank : gmap Z string) (genome_id : string)
    (entry : string * list string) (tax_id : Z) (per_rank_map : rank_index)
  : result rank_index :=
  let! rank := subscript id2rank tax_id in
  match per_rank_map !! rank with
  | Some rank_map =>
      let! path := item entry.2 0 in
      match rank_map !! tax_id with
      | Some bucket =>
          Ok (<[rank := <[tax_id := bucket ++ [(path, genome_id)]]> rank_map]> per_rank_map)
      | None =>
          Ok (<[rank := <[tax_id := [(path, genome_id)]]> rank_map]> per_rank_map)
      end
  | None => Ok per_rank_map
  end.

Definition index_genome (ncbi : NCBITaxa) (g : string * (string * list string))
    (per_rank_map : rank_index) : result rank_index :=
  let lineage := get_lineage ncbi g.1 in
  let id2rank := get_rank ncbi lineage in
  for_each (index_genome_at id2rank g.1 g.2) lineage per_rank_map.

Definition get_genomes_per_rank (ncbi : NCBITaxa)
    (genomes_map : list (string * (string * list string)))
    (ranks : list string) (max_rank : string) : result rank_index :=
  let! per_rank_map := init_per_rank_map ranks max_rank ranks ∅ in
  for_each (index_genome ncbi) genomes_map per_rank_map.

(** ** [transform_lineage] *)

(** [if name in mapping: ...], the test the source writes twice. *)
Definition append_if_mapped (ncbi : NCBITaxa) (ranks : list string)
    (mapping : gmap string (list Z)) (name : string) (new_lineage : list Z)
  : result (list Z) :=
  match mapping !! name with
  | Some ids =>
      let! taxid := item ids 0 in
      let! rank := subscript (get_rank ncbi [taxid]) taxid in
      if decide (rank ∈ ranks) then Ok (new_lineage ++ [taxid]) else Ok new_lineage
  | None => Ok new_lineage
  end.

(** The body of [for member in lineage]. *)
Definition transform_member (ncbi : NCBITaxa) (ranks : list string)
    (member : string) (new_lineage : list Z) : result (list Z) :=
  let! name := last_item (Str.split "__" member) in
  if decide (String.length name = 0) then Ok new_lineage
  else
    let mapping := get_name_translator ncbi [name] in
    if decide (is_Some (mapping !! name))
    then append_if_mapped ncbi ranks mapping name new_lineage
    else
      let! name' := item (Str.split_ws name) 0 in
      append_if_mapped ncbi ranks mapping name' new_lineage.

Definition transform_lineage (ncbi : NCBITaxa) (lineage : list string)
    (ranks : list string) (max_rank : string) : result (list Z) :=
  let! new_lineage := for_each (transform_member ncbi ranks) lineage [] in
  Ok (reverse new_lineage).

(** ** numpy's random generator, and the order of a [set]

    [geometric p], [choice n k] (that is [choice(n, k, replace=False)]) and
    [lognormal mu sigma n] read and advance the state of the generator, and
    raise where numpy refuses the arguments. [set_iter l] is the order in
    which Python iterates over [set(l)]. *)

Record Runtime : Type := {
  rng : Type;
  geometric : Q → rng → result (Z * rng);
  choice : nat → nat → rng → result (list nat * rng);
  lognormal : Z → Z → nat → rng → result (list Q * rng);
  set_iter : list (string * string) → list (string * string)
}.

(** What numpy and Python promise of them: the arguments that are accepted,
    and what a draw that returns is like. *)
Record runtime_contract (R : Runtime) : Prop := {
  geometric_accepts : ∀ p g, (0 < p)%Q → (p <= 1)%Q →
    ∃ k g', geometric R p g = Ok (k, g');
  geometric_positive : ∀ p g k g',
    geometric R p g = Ok (k, g') → (1 ≤ k)%Z;
  choice_accepts : ∀ n k g, k ≤ n → ∃ l g', choice R n k g = Ok (l, g');
  choice_distinct : ∀ n k g l g',
    choice R n k g = Ok (l, g') →
    length l = k ∧ NoDup l ∧ Forall (λ i, i < n) l;
  lognormal_accepts : ∀ mu sigma n g, (0 < sigma)%Z →
    ∃ l g', lognormal R mu sigma n g = Ok (l, g');
  lognormal_positive : ∀ mu sigma n g l g',
    lognormal R mu sigma n g = Ok (l, g') →
    length l = n ∧ Forall (λ w, (0 < w)%Q) l;
  set_iter_elements : ∀ l,
    NoDup (set_iter R l) ∧ ∀ x, x ∈ set_iter R l ↔ x ∈ l
}.

(** ** [map_otus_to_genomes] *)

(** A value of [otu_genome_map]:
    [(tax_id, genome_id, path, abundances per sample)]. *)
Record assignment : Type := {
  tax_id : Z;
  genome_id : string;
  path : string;
  abundances : list Q
}.

(** The key of a strain: [otu + "." + str(i)]. *)
Definition strain_id (otu : string) (i : nat) : string :=
  otu +:+ "." +:+ pretty i.

(** A string without a dot, as the decimal text of a number is. *)
Fixpoint no_dot (s : string) : Prop :=
  match s with
  | EmptyString => True
  | String c s' => c ≠ "."%char ∧ no_dot s'
  end.

(** [bucket.remove(x)] where [x in bucket]: the first occurrence goes. *)
Fixpoint remove_first (x : string * string) (bucket : list (string * string))
  : list (string * string) :=
  match bucket with
  | [] => []
  | y :: bucket' => if decide (y = x) then bucket' else y :: remove_first x bucket'
  end.

(** The two loops over [per_rank_map] that take a genome out of every bucket
    it is in. *)
Definition remove_genome (x : string * string) (per_rank_map : rank_index)
  : rank_index :=
  (λ rank_map : gmap Z (list (string * string)), remove_first x <$> rank_map)
    <$> per_rank_map.

(** [sum(values)] *)
Definition sum (values : list Q) : Q := foldl Qplus 0%Q values.

(** [[f(x) for x in l]] *)
Fixpoint comprehension {A B : Type} (f : A → result B) (l : list A)
  : result (list B) :=
  match l with
  | [] => Ok []
  | x :: l' => let! y := f x in let! ys := comprehension f l' in Ok (y :: ys)
  end.

(** [max((np_rand.geometric(2./max_strains) % max_strains), 1)] *)
Definition strains_to_draw (R : Runtime) (max_strains : Z) (g : rng R)
  : result (Z * rng R) :=
  if decide (max_strains = 0)%Z then Raise ZeroDivisionError
  else
    let! '(k, g) := geometric R (2 / inject_Z max_strains)%Q g in
    Ok (Z.max (k mod max_strains) 1, g).

(** [used_genomes], in the order the loop over the set visits them. *)
Definition pick_genomes (R : Runtime) (available_genomes : list (string * string))
    (strains_to_draw : Z) (g : rng R)
  : result (list (string * string) * rng R) :=
  if decide (strains_to_draw ≤ Z.of_nat (length available_genomes))%Z then
    let! '(used_indices, g) :=
      choice R (length available_genomes) (Z.to_nat strains_to_draw) g in
    let! picked := comprehension (item available_genomes) used_indices in
    Ok (set_iter R picked, g)
  else Ok (set_iter R available_genomes, g).

(** [for path, genome_id in used_genomes: ...], with the counter [i]. *)
Fixpoint assign_strains (otu : string) (taxid : Z) (otu_abundances : list Q)
    (log_normal_vals : list Q) (sum_log_normal : Q) (replace : bool)
    (used_genomes : list (string * string)) (i : nat)
    (per_rank_map : rank_index) (otu_genome_map : gmap string assignment)
  : result (rank_index * gmap string assignment) :=
  match used_genomes with
  | [] => Ok (per_rank_map, otu_genome_map)
  | (p, genome) :: rest =>
      let otu_id := strain_id otu i in
      let! w := item log_normal_vals i in
      let relative_abundance := (w / sum_log_normal)%Q in
      let record := {| tax_id := taxid; genome_id := genome; path := p;
                       abundances := Qmult relative_abundance <$> otu_abundances |} in
      let otu_genome_map := <[otu_id := record]> otu_genome_map in
      let per_rank_map :=
        if replace then per_rank_map else remove_genome (p, genome) per_rank_map in
      assign_strains otu taxid otu_abundances log_normal_vals sum_log_normal
        replace rest (S i) per_rank_map otu_genome_map
  end.

(** The record of a strain: the genome [x], with the share [w / total] of
    the abundances of its OTU. *)
Definition strain_record (taxid : Z) (otu_abundances : list Q) (w total : Q)
    (x : string * string) : assignment :=
  {| tax_id := taxid; genome_id := x.2; path := x.1;
     abundances := Qmult (w / total) <$> otu_abundances |}.

(** [m'] is [m] with the strains [used] of [otu] added, under the keys
    [otu.0], [otu.1], ..., the strain [j] with the weight [ws[j]]. *)
Definition assigned (otu : string) (taxid : Z) (otu_abundances : list Q)
    (used : list (string * string)) (ws : list Q)
    (m m' : gmap string assignment) : Prop :=
  length ws = length used
  ∧ Forall (λ w, (0 < w)%Q) ws
  ∧ (∀ j x, used !! j = Some x →
       ∃ w, ws !! j = Some w
            ∧ m' !! strain_id otu j
              = Some (strain_record taxid otu_abundances w (sum ws) x))
  ∧ (∀ key, (∀ j, j < length used → key ≠ strain_id otu j) → m' !! key = m !! key).

(** The genome of a record, as the rank index holds it. *)
Definition genome_of (r : assignment) : string * string := (path r, genome_id r).

(** [x] is in a bucket of the index. *)
Definition in_index (x : string * string) (per_rank_map : rank_index) : Prop :=
  ∃ rank rank_map taxid bucket,
    per_rank_map !! rank = Some rank_map ∧ rank_map !! taxid = Some bucket
    ∧ x ∈ bucket.

(** No bucket holds a genome twice. *)
Definition buckets_nodup (per_rank_map : rank_index) : Prop :=
  ∀ rank rank_map taxid bucket,
    per_rank_map !! rank = Some rank_map → rank_map !! taxid = Some bucket →
    NoDup bucket.

(** The genomes of the buckets come from the genomes [visited], or are the
    genome [g] in the bucket of an id that was [seen]. *)
Definition indexed_from (visited : list string) (g : string) (seen : list Z)
    (m : rank_index) : Prop :=
  buckets_nodup m
  ∧ ∀ rank rank_map t bucket x,
      m !! rank = Some rank_map → rank_map !! t = Some bucket → x ∈ bucket →
      x.2 ∈ visited ∨ (x.2 = g ∧ t ∈ seen).

(** No genome of a record is left in the index, and no two records have the
    same genome. *)
Definition consumed_once (per_rank_map : rank_index)
    (otu_genome_map : gmap string assignment) : Prop :=
  buckets_nodup per_rank_map
  ∧ (∀ key r, otu_genome_map !! key = Some r → ¬ in_index (genome_of r) per_rank_map)
  ∧ (∀ k1 k2 r1 r2, k1 ≠ k2 →
       otu_genome_map !! k1 = Some r1 → otu_genome_map !! k2 = Some r2 →
       genome_of r1 ≠ genome_of r2).

(** The abundance of the strain [i] of [otu] at a sample, and the total over
    the strains [0 .. n-1] of [otu] there. *)
Definition strain_abundance (otu_genome_map : gmap string assignment)
    (otu : string) (sample i : nat) : Q :=
  default 0%Q (otu_genome_map !! strain_id otu i ≫= λ r, abundances r !! sample).

Definition otu_total (otu_genome_map : gmap string assignment) (otu : string)
    (n sample : nat) : Q :=
  sum (strain_abundance otu_genome_map otu sample <$> seq 0 n).

(** The records of [otu] in [m] are those of some genomes [used] with some
    positive weights, and [otu] has no further record. *)
Definition otu_done (m : gmap string assignment) (otu : string)
    (otu_abundances : list Q) (used : list (string * string)) (ws : list Q) : Prop :=
  length ws = length used
  ∧ Forall (λ w, (0 < w)%Q) ws
  ∧ (∀ j x, used !! j = Some x →
       ∃ taxid w, ws !! j = Some w
         ∧ m !! strain_id otu j
           = Some (strain_record taxid otu_abundances w (sum ws) x))
  ∧ (∀ j, length used ≤ j → m !! strain_id otu j = None).

(** The invariant of the loop over the profile: the OTUs that were visited
    have their records, and every key is a strain of one of them. *)
Definition visited_done (visited : list (string * (list string * list Q)))
    (m : gmap string assignment) : Prop :=
  (∀ e, e ∈ visited → ∃ used ws, otu_done m e.1 e.2.2 used ws)
  ∧ (∀ key, is_Some (m !! key) → ∃ e i, e ∈ visited ∧ key = strain_id e.1 i).

(** The state the loop over the profile threads. *)
Record state (R : Runtime) : Type := {
  st_rng : rng R;
  st_index : rank_index;
  st_map : gmap string assignment;
  st_warnings : list warning
}.

Arguments st_rng {R} s.
Arguments st_index {R} s.
Arguments st_map {R} s.
Arguments st_warnings {R} s.

Definition warn {R : Runtime} (ws : list warning) (st : state R) : state R :=
  {| st_rng := st_rng st; st_index := st_index st; st_map := st_map st;
     st_warnings := st_warnings st ++ ws |}.

(** From [available_genomes = genomes[tax_id]] to the [break]. *)
Definition assign_genomes (R : Runtime) (otu : string) (taxid : Z)
    (otu_abundances : list Q) (available_genomes : list (string * string))
    (mu sigma max_strains : Z) (replace : bool) (st : state R)
  : result (state R) :=
  let! '(n, g) := strains_to_draw R max_strains (st_rng st) in
  let! '(used_genomes, g) := pick_genomes R available_genomes n g in
  let! '(log_normal_vals, g) := lognormal R mu sigma (length used_genomes) g in
  let sum_log_normal := sum log_normal_vals in
  let! '(per_rank_map, otu_genome_map) :=
    assign_strains otu taxid otu_abundances log_normal_vals sum_log_normal
      replace used_genomes 0 (st_index st) (st_map st) in
  Ok {| st_rng := g; st_index := per_rank_map; st_map := otu_genome_map;
        st_warnings := st_warnings st |}.

(** [for tax_id in lineage: ...] *)
Fixpoint walk_lineage (R : Runtime) (ranks : list string) (max_rank : string)
    (mu sigma max_strains : Z) (replace : bool)
    (otu : string) (lin : list string) (otu_abundances : list Q)
    (lineage : list Z) (lineage_ranks : gmap Z string)
    (todo : list Z) (st : state R) : result (state R) :=
  match todo with
  | [] => Ok st
  | taxid :: todo' =>
      let! rank := subscript lineage_ranks taxid in
      let! i := index ranks rank in
      let! j := index ranks max_rank in
      if decide (j < i) then
        Ok (warn [RankTooHigh rank otu; FullLineage lineage lin] st)
      else
        let! genomes := subscript (st_index st) rank in
        match genomes !! taxid with
        | None =>
            walk_lineage R ranks max_rank mu sigma max_strains replace otu lin
              otu_abundances lineage lineage_ranks todo'
              (warn [NoGenomesOnRank otu rank taxid] st)
        | Some available_genomes =>
            assign_genomes R otu taxid otu_abundances available_genomes
              mu sigma max_strains replace st
        end
  end.

(** The body of [for otu in profile]. *)
Definition map_otu (ncbi : NCBITaxa) (R : Runtime) (ranks : list string)
    (max_rank : string) (mu sigma max_strains : Z) (replace : bool)
    (entry : string * (list string * list Q)) (st : state R)
  : result (state R) :=
  let otu := entry.1 in
  let lin := entry.2.1 in
  let otu_abundances := entry.2.2 in
  let! lineage := transform_lineage ncbi lin ranks max_rank in
  let! st :=
    if decide (length lineage = 0) then
      let! member := last_item lin in
      let! name := last_item (Str.split "__" member) in
      Ok (warn [NoMatchingId otu name] st)
    else Ok st in
  let lineage_ranks := get_rank ncbi lineage in
  walk_lineage R ranks max_rank mu sigma max_strains replace otu lin
    otu_abundances lineage lineage_ranks lineage st.

(** [profile] is the dict as the list of its items in iteration order. The
    result is [otu_genome_map], with the rank index and the generator as the
    call leaves them and what was logged. *)
Definition map_otus_to_genomes (ncbi : NCBITaxa) (R : Runtime)
    (profile : list (string * (list string * list Q)))
    (per_rank_map : rank_index) (ranks : list string) (max_rank : string)
    (mu sigma max_strains : Z) (debug replace fillup : bool) (g : rng R)
  : result (gmap string assignment * rank_index * rng R * list log_record) :=
  let! st :=
    for_each (map_otu ncbi R ranks max_rank mu sigma max_strains replace) profile
      {| st_rng := g; st_index := per_rank_map; st_map := ∅; st_warnings := [] |} in
  let logged :=
    if decide (0 < length (st_warnings st)) then
      LogWarning "Some OTUs could not be mapped"
        :: (if debug then LogMapping <$> st_warnings st else [])
    else [] in
  Ok (st_map st, st_index st, st_rng st, logged).

(** ** Names

    A name that no statement of a function binds is looked up among the
    globals of the module (none of the names below is a builtin). These are
    the globals of [get_genomes.py] once it is imported. *)

Inductive global_value : Type :=
| GModule
| GCallable
| GObject
| GStr (s : string)
| GStrList (l : list string).

Definition module_globals : gmap string global_value :=
  list_to_map
    [("sys", GModule); ("os", GModule); ("urllib2", GModule); ("gzip", GModule);
     ("biom", GModule); ("shutil", GModule); ("np_rand", GModule);
     ("NCBITaxa", GCallable); ("logger", GCallable); ("ConfigParser", GCallable);
     ("ncbi", GObject); ("RANKS", GStrList RANKS); ("MAX_RANK", GStr MAX_RANK);
     ("_log", GObject);
     ("read_taxonomic_profile", GCallable); ("read_genomes_list", GCallable);
     ("get_genomes_per_rank", GCallable); ("transform_lineage", GCallable);
     ("map_otus_to_genomes", GCallable); ("split_by_N", GCallable);
     ("download_genome", GCallable); ("write_config", GCallable);
     ("fill_up", GCallable); ("generate_input", GCallable)].

Definition load_global (name : string) : result global_value :=
  match module_globals !! name with
  | Some v => Ok v
  | None => Raise (NameError name)
  end.

(** A local that is read before it is bound. *)
Definition load_local {A : Type} (name : string) (v : option A) : result A :=
  match v with
  | Some a => Ok a
  | None => Raise (UnboundLocalError name)
  end.

(** A value used where a [str] is needed. *)
Definition as_str (v : global_value) : result string :=
  match v with
  | GStr s => Ok s
  | _ => Raise TypeError
  end.

(** ["%s" % v]; only the text of a [str] is modelled. *)
Definition text_of (v : global_value) : string :=
  match v with
  | GStr s => s
  | _ => "<object>"
  end.

(** ** [int(s)] and [os.path.join(a, b)] *)

Fixpoint digits_value (acc : Z) (s : string) : option Z :=
  match s with
  | EmptyString => Some acc
  | String c s' =>
      match Ascii.is_nat c with
      | Some d => digits_value (10 * acc + Z.of_nat d) s'
      | None => None
      end
  end.

Definition parse_digits (s : string) : option Z :=
  match s with
  | EmptyString => None
  | _ => digits_value 0 s
  end.

(** [int(s)] on a [str]: white space around, a sign, decimal digits. *)
Definition int_of_str (s : string) : result Z :=
  let r :=
    match Str.strip s with
    | String "-" ds => Z.opp <$> parse_digits ds
    | String "+" ds => parse_digits ds
    | ds => parse_digits ds
    end in
  match r with
  | Some z => Ok z
  | None => Raise ValueError
  end.

Fixpoint ends_with_slash (s : string) : bool :=
  match s with
  | EmptyString => false
  | String c EmptyString => Ascii.eqb c "/"
  | String _ s' => ends_with_slash s'
  end.

Definition path_join (a b : string) : string :=
  if Str.startswith "/" b then b
  else if decide (a = "") then b
  else if ends_with_slash a then a +:+ b
  else a +:+ "/" +:+ b.

(** ** [write_config] *)

(** The network and the disk. [fetch address out] is what [download_genome]
    does with them: it opens [address], writes what it reads, unpacks it and
    splits it at the Ns into the file [out]. [copy2 src dst] is
    [shutil.copy2]. Each returns or raises, and leaves a new state. *)
Record Retrieval : Type := {
  world : Type;
  fetch : string → string → world → result () * world;
  copy2 : string → string → world → result () * world
}.

(** [download_genome(genome, out_path)] *)
Definition download_genome (IO : Retrieval) (genome out_path : string)
    (w : world IO) : result string * world IO :=
  let genome_path := path_join out_path "genomes" in
  match last_item (Str.split "/" (Str.rstrip genome)) with
  | Ok out_name =>
      let http_address := path_join genome (out_name +:+ "_genomic.fna.gz") in
      let out := path_join genome_path (out_name +:+ ".fa") in
      match fetch IO http_address out w with
      | (Ok _, w') => (Ok out, w')
      | (Raise e, w') => (Raise e, w')
      end
  | Raise e => (Raise e, w)
  end.

(** What [write_config] has written and logged, at the point where it returns
    or raises. A row [(i, otu, a)] of [w_abundance] is a line of
    [abundance<i>.tsv]; the header of the metadata table is not a row. *)
Record written (IO : Retrieval) : Type := {
  w_world : world IO;
  w_genome_to_id : list (string * string);
  w_metadata : list (string * Z * string * string);
  w_abundance : list (nat * string * Q);
  w_log : list log_record
}.

Arguments w_world {IO} w.
Arguments w_genome_to_id {IO} w.
Arguments w_metadata {IO} w.
Arguments w_abundance {IO} w.
Arguments w_log {IO} w.

(** One pass through the [try] block. The second component is the local
    [genome_path] afterwards: the copy branch binds it before it copies. *)
Definition attempt (IO : Retrieval) (p out_path create_path : string)
    (genome_path : option string) (w : world IO)
  : result () * option string * world IO :=
  if Str.startswith "http" p || Str.startswith "ftp" p then
    match download_genome IO p out_path w with
    | (Ok gp, w') => (Ok (), Some gp, w')
    | (Raise e, w') => (Raise e, genome_path, w')
    end
  else
    match last_item (Str.split "/" (Str.rstrip p)) with
    | Ok out_name =>
        let gp := path_join create_path out_name in
        match copy2 IO p gp w with
        | (r, w') => (r, Some gp, w')
        end
    | Raise e => (Raise e, genome_path, w)
    end.

(** [while counter < 10: try: ...; break; except Exception as e: counter += 1].
    The recursion is on [10 - counter]. The result is [counter], [genome_path]
    and [e] after the loop. *)
Fixpoint retry (IO : Retrieval) (p out_path create_path : string)
    (remaining counter : nat) (genome_path : option string) (e : option exn)
    (w : world IO) : nat * option string * option exn * world IO :=
  match remaining with
  | 0 => (counter, genome_path, e, w)
  | S remaining' =>
      match attempt IO p out_path create_path genome_path w with
      | (Ok _, gp, w') => (counter, gp, e, w')
      | (Raise e', gp, w') =>
          retry IO p out_path create_path remaining' (S counter) gp (Some e') w'
      end
  end.

(** [for abundance in abundances: ... curr_abundances[i] ...] *)
Fixpoint write_abundances (otu : string) (curr_abundances : list Q)
    (samples : list nat) (rows : list (nat * string * Q))
  : list (nat * string * Q) * result () :=
  match samples with
  | [] => (rows, Ok ())
  | i :: samples' =>
      match curr_abundances !! i with
      | Some a => write_abundances otu curr_abundances samples' (rows ++ [(i, otu, a)])
      | None => (rows, Raise IndexError)
      end
  end.

Definition log_more {IO : Retrieval} (records : list log_record) (s : written IO)
  : written IO :=
  {| w_world := w_world s; w_genome_to_id := w_genome_to_id s;
     w_metadata := w_metadata s; w_abundance := w_abundance s;
     w_log := w_log s ++ records |}.

(** The body of [for otu in otu_genome_map]. The local [genome_path] lives on
    from one OTU to the next; the result is its value after this OTU. *)
Definition write_record (IO : Retrieval) (out_path create_path : string)
    (no_samples : nat) (entry : string * assignment)
    (genome_path : option string) (s : written IO)
  : written IO * result (option string) :=
  let otu := entry.1 in
  let '(counter, genome_path, e, w) :=
    retry IO (path entry.2) out_path create_path 10 0 genome_path None (w_world s) in
  let s := {| w_world := w; w_genome_to_id := w_genome_to_id s;
              w_metadata := w_metadata s; w_abundance := w_abundance s;
              w_log := w_log s |} in
  let after_errors : written IO * result () :=
    if decide (counter = 10) then
      let s := log_more [LogCaught e] s in
      match load_global "genome" with
      | Ok genome =>
          (log_more [LogError ("Genome " +:+ otu +:+ " (from " +:+ text_of genome
                       +:+ ") could not be downloaded after 10 tries, check your connection settings")] s,
           Ok ())
      | Raise x => (s, Raise x)
      end
    else (s, Ok ()) in
  match after_errors with
  | (s, Raise x) => (s, Raise x)
  | (s, Ok _) =>
      match load_local "genome_path" genome_path with
      | Raise x => (s, Raise x)
      | Ok gp =>
          let '(rows, r) :=
            write_abundances otu (abundances entry.2) (seq 0 no_samples)
              (w_abundance s) in
          ({| w_world := w_world s;
              w_genome_to_id := w_genome_to_id s ++ [(otu, gp)];
              w_metadata := w_metadata s
                ++ [(otu, tax_id entry.2, genome_id entry.2, "new_strain")];
              w_abundance := rows;
              w_log := w_log s |},
           let! _ := r in Ok genome_path)
      end
  end.

Fixpoint write_records (IO : Retrieval) (out_path create_path : string)
    (no_samples : nat) (entries : list (string * assignment))
    (genome_path : option string) (s : written IO)
  : written IO * result () :=
  match entries with
  | [] => (s, Ok ())
  | entry :: entries' =>
      match write_record IO out_path create_path no_samples entry genome_path s with
      | (s', Ok gp) => write_records IO out_path create_path no_samples entries' gp s'
      | (s', Raise x) => (s', Raise x)
      end
  end.

(** The comma separated list of the abundance files. *)
Definition join_commas (files : list string) : result string :=
  let! final := last_item files in
  Ok (foldl (λ acc f, acc +:+ f +:+ ",") "" (take (length files - 1) files) +:+ final).

(** [otu_genome_map] is the dict as the list of its items in iteration
    order. The result is what was written and logged, and the path of the new
    configuration with the configuration, or the exception. *)
Definition write_config (IO : Retrieval)
    (otu_genome_map : list (string * assignment)) (out_path : string)
    (cfg : config) (w : world IO)
  : written IO * result (string * config) :=
  let s0 := {| w_world := w; w_genome_to_id := []; w_metadata := [];
               w_abundance := []; w_log := [] |} in
  let genome_to_id := path_join out_path "genome_to_id.tsv" in
  let metadata := path_join out_path "metadata.tsv" in
  let before :=
    let! cfg := config_set "community0" "id_to_genome_file" genome_to_id cfg in
    let! cfg := config_set "community0" "metadata" metadata cfg in
    let! n := config_get "Main" "number_of_samples" cfg in
    let! no_samples := int_of_str n in
    Ok (cfg, Z.to_nat no_samples) in
  match before with
  | Raise x => (s0, Raise x)
  | Ok (cfg, no_samples) =>
      let files :=
        (λ i : nat, path_join out_path ("abundance" +:+ pretty i +:+ ".tsv"))
          <$> seq 0 no_samples in
      let s1 := {| w_world := w; w_genome_to_id := []; w_metadata := [];
                   w_abundance := [];
                   w_log := [LogInfo ("Downloading "
                               +:+ pretty (length otu_genome_map) +:+ " genomes")] |} in
      let create_path := path_join out_path "genomes" in
      match write_records IO out_path create_path no_samples otu_genome_map None s1 with
      | (s, Raise x) => (s, Raise x)
      | (s, Ok _) =>
          (s,
           let! abundance_files := join_commas files in
           let! cfg := config_set "Main" "distribution_file_paths" abundance_files cfg in
           let! cfg := config_set "community0" "num_real_genomes"
                         (pretty (length otu_genome_map)) cfg in
           let! cfg := config_set "community0" "genomes_total"
                         (pretty (length otu_genome_map)) cfg in
           Ok (path_join out_path "config.ini", cfg))
      end
  end.

(** ** [fill_up] *)

(** [a, b = l] *)
Definition unpack2 {A : Type} (l : list A) : result (A * A) :=
  match l with
  | [a; b] => Ok (a, b)
  | _ => Raise ValueError
  end.

(** [sum(l)/len(l)] *)
Definition mean (l : list Q) : result Q :=
  if decide (length l = 0) then Raise ZeroDivisionError
  else Ok (sum l / inject_Z (Z.of_nat (length l)))%Q.

(** The order of the key [(l[1], l[0])] on the items [(otu, mean)]. *)
Definition key_le (x y : string * Q) : bool :=
  match (x.2 ?= y.2)%Q with
  | Lt => true
  | Gt => false
  | Eq => String.leb x.1 y.1
  end.

Fixpoint insert_sorted (x : string * Q) (l : list (string * Q)) : list (string * Q) :=
  match l with
  | [] => [x]
  | y :: l' => if key_le x y then x :: l else y :: insert_sorted x l'
  end.

(** [sorted(items, key = lambda l: (l[1], l[0]))] *)
Definition sorted (items : list (string * Q)) : list (string * Q) :=
  foldr insert_sorted [] items.

(** Lines 268 to 272: every bucket is unpacked into exactly two names. *)
Definition all_genomes_of (per_rank_map : rank_index)
  : result (list (Z * (string * string) * (string * string))) :=
  comprehension
    (λ b : Z * list (string * string),
       let! '(p, genome) := unpack2 b.2 in Ok (b.1, genome, p))
    (mjoin ((λ r : string * gmap Z (list (string * string)), map_to_list r.2)
              <$> map_to_list per_rank_map)).

(** Lines 273 to 275. *)
Definition mean_abundances (tax_profile : list (string * (list string * list Q)))
  : result (list (string * Q)) :=
  comprehension
    (λ e : string * (list string * list Q), let! m := mean e.2.2 in Ok (e.1, m))
    tax_profile.

(** Lines 268 to 282. In the last loop [otu] is an item [(otu id, mean)] of
    [sorted_ab]: it is no key of [otu_genome_map], whose keys are strings,
    and the subscript [tax_profile[otu]] raises [KeyError]. *)
Definition fill_up_from_268 (otu_genome_map : gmap string assignment)
    (per_rank_map : rank_index)
    (tax_profile : list (string * (list string * list Q)))
  : result (gmap string assignment) :=
  let! all_genomes := all_genomes_of per_rank_map in
  let! abundances := mean_abundances tax_profile in
  let sorted_ab := sorted abundances in
  for_each
    (λ (otu : string * Q) (otu_genome_map : gmap string assignment),
       if decide (1 < length all_genomes) then Raise KeyError
       else Ok otu_genome_map)
    sorted_ab otu_genome_map.

(** [bucket.remove(x)] *)
Definition list_remove_item (x : string * string) (bucket : list (string * string))
  : result (list (string * string)) :=
  if decide (x ∈ bucket) then Ok (remove_first x bucket) else Raise ValueError.

(** Line 267 reads [new_rank], which no statement of [fill_up] binds, and
    [taxid], [path] and [genome_id], which are locals of [fill_up] that are
    bound further down only. *)
Definition fill_up (otu_genome_map : gmap string assignment)
    (per_rank_map : rank_index)
    (tax_profile : list (string * (list string * list Q)))
  : result (gmap string assignment) :=
  let! new_rank := load_global "new_rank" in
  let! new_rank := as_str new_rank in
  let! rank_map := subscript per_rank_map new_rank in
  let! taxid := load_local "taxid" (None : option Z) in
  let! bucket := subscript rank_map taxid in
  let! p := load_local "path" (None : option string) in
  let! genome := load_local "genome_id" (None : option string) in
  let! bucket := list_remove_item (p, genome) bucket in
  let per_rank_map := <[new_rank := <[taxid := bucket]> rank_map]> per_rank_map in
  fill_up_from_268 otu_genome_map per_rank_map tax_profile.

(** ** [generate_input] *)

(** The first [try]: [int(config.get("Main", max_strains_per_otu))], where
    [max_strains_per_otu] is a name, and a bare [except]. *)
Definition configured_max_strains (cfg : config) : Z * list log_record :=
  match (let! name := load_global "max_strains_per_otu" in
         let! option := as_str name in
         let! v := config_get "Main" option cfg in
         int_of_str v) with
  | Ok max_strains => (max_strains, [])
  | Raise _ => (3%Z, [LogWarning "Max strains per OTU not set, using default (3)"])
  end.

(** The second [try]. *)
Definition configured_mu_sigma (cfg : config) : Z * Z * list log_record :=
  match (let! m := config_get "Main" "log_mu" cfg in
         let! mu := int_of_str m in
         let! s := config_get "Main" "log_sigma" cfg in
         let! sigma := int_of_str s in
         Ok (mu, sigma)) with
  | Ok (mu, sigma) => (mu, sigma, [])
  | Raise _ => (1%Z, 2%Z, [LogWarning "Mu and sigma have not been set, using defaults (1,2)"])
  end.

(** The command line, with the files already read. *)
Record arguments : Type := {
  arg_config : config;
  arg_profile : BiomTable;
  arg_samples : option Z;
  arg_reference_genomes : list string;
  arg_additional_references : option (list string)
}.

(** [generate_input] up to its call of [map_otus_to_genomes], which passes
    nine arguments for the ten parameters. *)
Definition generate_input (ncbi : NCBITaxa) (args : arguments) : result string :=
  let cfg := arg_config args in
  let '(max_strains, _) := configured_max_strains cfg in
  let '(mu, sigma, _) := configured_mu_sigma cfg in
  let! '(tax_profile, cfg, _) :=
    read_taxonomic_profile (arg_profile args) cfg (arg_samples args) in
  let! genomes_map :=
    read_genomes_list (arg_reference_genomes args) (arg_additional_references args) in
  let! per_rank_map :=
    get_genomes_per_rank ncbi (map_to_list genomes_map) RANKS MAX_RANK in
  Raise TypeError.

(** ** Notions for the further properties *)

(** The scientific name of the first of the [entries] with the id. *)
Definition first_name (ncbi_id : string)
    (entries : list (string * string * string)) : option string :=
  (λ e, e.1.2) <$> head (filter (λ e, e.1.1 = ncbi_id) entries).

(** [x] is in the bucket of the id [t] under [rank]. *)
Definition in_bucket (m : rank_index) (rank : string) (t : Z) (x : string * string)
  : Prop :=
  ∃ rank_map bucket, m !! rank = Some rank_map ∧ rank_map !! t = Some bucket
                     ∧ x ∈ bucket.

(** The pair the index holds for the genome [g] of the catalog, under the id
    [t] of its lineage whose rank is [rank]: its first location and its id. *)
Definition indexed_as (ncbi : NCBITaxa) (g : string * (string * list string))
    (rank : string) (t : Z) (x : string * string) : Prop :=
  x.2 = g.1 ∧ head g.2.2 = Some x.1
  ∧ t ∈ get_lineage ncbi g.1
  ∧ get_rank ncbi (get_lineage ncbi g.1) !! t = Some rank.

(** The bucket of the id [t] under [rank], when there is one. *)
Definition bucket_of (m : rank_index) (rank : string) (t : Z)
  : option (list (string * string)) :=
  m !! rank ≫= λ rank_map, rank_map !! t.

(** [m'] has the ranks and ids of [m], and each of its buckets is the bucket
    of [m] with some genomes taken out. *)
Definition index_within (m' m : rank_index) : Prop :=
  (∀ rank, is_Some (m' !! rank) ↔ is_Some (m !! rank))
  ∧ ∀ rank t, option_Forall2 sublist (bucket_of m' rank t) (bucket_of m rank t).

(** The lines [write_config] appends for a record of the assignment: the
    row of the metadata table, and the rows of the abundance files of the
    first [no_samples] samples, in the order of the samples. *)
Definition metadata_row (e : string * assignment) : string * Z * string * string :=
  (e.1, tax_id e.2, genome_id e.2, "new_strain").

Definition abundance_rows (no_samples : nat) (e : string * assignment)
  : list (nat * string * Q) :=
  omap (λ i, (λ a, (i, e.1, a)) <$> abundances e.2 !! i) (seq 0 no_samples).

(** ** Small collaborators to run the code on *)

Module Toy.

Definition names : gmap string (list Z) :=
  list_to_map [("Bacteria", [2%Z]); ("Proteobacteria", [1224%Z]);
               ("Enterobacteriaceae", [543%Z]); ("Escherichia", [561%Z]);
               ("Escherichia coli", [562%Z]); ("Salmonella", [590%Z])].

Definition rank_of : gmap Z string :=
  list_to_map [(1%Z, "no rank"); (131567%Z, "no rank"); (2%Z, "superkingdom");
               (1224%Z, "phylum"); (1236%Z, "class"); (91347%Z, "order");
               (543%Z, "family"); (561%Z, "genus"); (562%Z, "species");
               (590%Z, "genus"); (28901%Z, "species")].

Definition lineage_of : gmap string (list Z) :=
  list_to_map [("562", [1; 131567; 2; 1224; 1236; 91347; 543; 561; 562]%Z);
               ("28901", [1; 131567; 2; 1224; 1236; 91347; 543; 590; 28901]%Z)].

Definition ncbi : NCBITaxa := {|
  get_lineage := λ g, default [1%Z] (lineage_of !! g);
  get_rank := λ ids,
    list_to_map (omap (λ i, (λ r, (i, r)) <$> rank_of !! i) ids);
  get_name_translator := λ ns,
    list_to_map (omap (λ n, (λ ids, (n, ids)) <$> names !! n) ns)
|}.

(** A generator whose state counts the draws. *)
Definition runtime : Runtime := {|
  rng := nat;
  geometric := λ p g,
    if Qle_bool 0 p && Qle_bool p 1 then Ok (Z.of_nat (S g), S g)
    else Raise ValueError;
  choice := λ n k g,
    if decide (k ≤ n) then Ok (seq (n - k) k, S g) else Raise ValueError;
  lognormal := λ mu sigma n g,
    if decide (0 < sigma)%Z
    then Ok ((λ i : nat, inject_Z (Z.of_nat (S (i + g)))) <$> seq 0 n, S g)
    else Raise ValueError;
  set_iter := remove_dups
|}.

(** A network that is down and a disk that works; the state is the list of
    the addresses and files that were tried. *)
Definition retrieval : Retrieval := {|
  world := list string;
  fetch := λ address out w, (Raise IOError, w ++ [address]);
  copy2 := λ src dst w, (Ok (), w ++ [src])
|}.

(** A primary catalog of two lines and an additional one of one line. *)
Definition catalog_line (ncbi_id sci_name location : string) : string :=
  ncbi_id +:+ tab +:+ sci_name +:+ tab +:+ location +:+ String "010" "".

Definition genomes_file : list string :=
  [catalog_line "562" "Escherichia coli" "ftp://ftp.ncbi.nih.gov/g1";
   catalog_line "562" "Escherichia coli" "http://host/g2"].

Definition additional_file : list string :=
  [catalog_line "562" "Escherichia coli" "ftp://local/g3"].

(** Two OTUs over three samples. *)
Definition table : BiomTable := {|
  observation_ids := ["otu1"; "otu2"];
  sample_ids := ["s1"; "s2"; "s3"];
  taxonomy := λ otu,
    if decide (otu = "otu1") then inl "family__Enterobacteriaceae;genus__Escherichia"
    else inr ["genus__Salmonella"];
  get_value_by_ids := λ otu sample,
    if decide (sample = "s1") then 10%Q else if decide (otu = "otu1") then 3%Q else 0%Q
|}.

Definition cfg : config := <["Main" := ∅]> ∅.

(** A rank index with two genomes under the genus 561, a profile of two
    OTUs of that genus, and the state before the first OTU. *)
Definition escherichia : list (string * string) :=
  [("http://a", "562"); ("http://b", "83334")].

Definition index : rank_index :=
  <["species" := ∅]> (<["genus" := <[561%Z := escherichia]> ∅]> (<["family" := ∅]> ∅)).

Definition otu1 : string * (list string * list Q) :=
  ("otu1", (["genus__Escherichia"; "species__Escherichia coli"], [10%Q; 3%Q])).

Definition otu2 : string * (list string * list Q) :=
  ("otu2", (["genus__Escherichia"], [4%Q; 0%Q])).

Definition start : state runtime :=
  {| st_rng := (0 : rng runtime); st_index := index; st_map := ∅;
     st_warnings := [] |}.

Definition nothing_written : written retrieval :=
  {| w_world := ([] : world retrieval); w_genome_to_id := []; w_metadata := [];
     w_abundance := []; w_log := [] |}.

(** A catalog of two genomes, as the list of its items. *)
Definition catalog : list (string * (string * list string)) :=
  [("562", ("Escherichia coli", ["http://a"; "http://b"]));
   ("28901", ("Salmonella enterica", ["/data/s"]))].

End Toy.

(** * Part II: properties *)

(** ** The [str] methods and the taxonomy on examples *)

Example split_dunder : Str.split "__" "genus__Escherichia" = ["genus"; "Escherichia"].
Proof. reflexivity. Qed.

Example split_dunder3 : Str.split "__" "a___b" = ["a"; "_b"].
Proof. reflexivity. Qed.

Example split_trailing : Str.split "__" "s__" = ["s"; ""].
Proof. reflexivity. Qed.

Example split_none : Str.split "__" "" = [""].
Proof. reflexivity. Qed.

Example split_ws_ex : Str.split_ws "  Escherichia  coli " = ["Escherichia"; "coli"].
Proof. reflexivity. Qed.

Example split_ws_blank : Str.split_ws "   " = [].
Proof. reflexivity. Qed.

Example strip_ex : Str.strip (String "009" " a b " +:+ String "010" "") = "a b".
Proof. reflexivity. Qed.

Example replace_ex :
  Str.replace "ftp://" "http://" "ftp://host/ftp://x" = "http://host/http://x".
Proof. reflexivity. Qed.

Example toy_transform :
  transform_lineage Toy.ncbi
    ["superkingdom__Bacteria"; "phylum__Proteobacteria"; "genus__Escherichia";
     "species__Escherichia coli"] RANKS MAX_RANK
  = Ok [562; 561; 1224; 2]%Z.
Proof. vm_compute. reflexivity. Qed.

Example toy_index :
  (λ m, (m !! "genus", m !! "order")) <$>
    (match get_genomes_per_rank Toy.ncbi
             [("562", ("Escherichia coli", ["http://a"; "http://b"]));
              ("28901", ("Salmonella enterica", ["/data/s"]))] RANKS MAX_RANK with
     | Ok m => Some m | Raise _ => None end)
  = Some (Some (<[561%Z := [("http://a", "562")]]> (<[590%Z := [("/data/s", "28901")]]> ∅)), None).
Proof. vm_compute. reflexivity. Qed.

(** ** Names that are not bound *)

Lemma load_global_unbound (name : string) :
  module_globals !! name = None → load_global name = Raise (NameError name).
Proof. intros H. unfold load_global. by rewrite H. Qed.

Lemma bind_ok {A B : Type} (a : A) (k : A → result B) : bind (Ok a) k = k a.
Proof. reflexivity. Qed.

Lemma bind_ok_inv {A B : Type} (m : result A) (k : A → result B) (b : B) :
  bind m k = Ok b → ∃ a, m = Ok a ∧ k a = Ok b.
Proof. destruct m as [a|e]; simpl; [eauto | discriminate]. Qed.

(** ** [generate_input]: the maximum number of strains *)

Example max_strains_configured :
  config_get "Main" "max_strains_per_otu"
    (<["Main" := <["max_strains_per_otu" := "5"]> ∅]> ∅) = Ok "5".
Proof. reflexivity. Qed.

(** C7. Whatever the configuration holds, also a value for
    [max_strains_per_otu] in [Main], the first [try] of [generate_input] ends
    in its [except]: the maximum number of strains is 3 and the warning is
    logged. The option name is written as a name, not as a string, and the
    lookup of that name raises [NameError]. *)
Theorem configured_max_strains_always_default (cfg : config) :
  configured_max_strains cfg
  = (3%Z, [LogWarning "Max strains per OTU not set, using default (3)"]).
Proof.
  unfold configured_max_strains.
  rewrite (load_global_unbound "max_strains_per_otu") by reflexivity.
  reflexivity.
Qed.

Example max_strains_five_is_ignored :
  (configured_max_strains (<["Main" := <["max_strains_per_otu" := "5"]> ∅]> ∅)).1 = 3%Z.
Proof. reflexivity. Qed.

(** The call of [map_otus_to_genomes] in [generate_input] never succeeds. *)
Lemma generate_input_raises (ncbi : NCBITaxa) (args : arguments) :
  ∃ e, generate_input ncbi args = Raise e.
Proof.
  unfold generate_input.
  destruct (configured_max_strains _) as [max_strains l1].
  destruct (configured_mu_sigma _) as [[mu sigma] l2].
  destruct (read_taxonomic_profile _ _ _) as [[[tp cfg] l3]|e]; simpl; [|eauto].
  destruct (read_genomes_list _ _) as [gm|e]; simpl; [|eauto].
  destruct (get_genomes_per_rank _ _ _ _) as [prm|e]; simpl; eauto.
Qed.

(** ** [fill_up] *)

(** C5. [fill_up] assigns nothing: whatever the assignment, the rank index
    and the profile, its second statement raises [NameError] for [new_rank]
    before any OTU is sorted or served. *)
Theorem fill_up_raises_name_error (otu_genome_map : gmap string assignment)
    (per_rank_map : rank_index)
    (tax_profile : list (string * (list string * list Q))) :
  fill_up otu_genome_map per_rank_map tax_profile = Raise (NameError "new_rank").
Proof.
  unfold fill_up.
  rewrite (load_global_unbound "new_rank") by reflexivity.
  reflexivity.
Qed.

(** The statements after it would not assign either: when they return, the
    assignment is as it was. *)
Lemma fill_up_from_268_assigns_nothing (otu_genome_map m' : gmap string assignment)
    (per_rank_map : rank_index)
    (tax_profile : list (string * (list string * list Q))) :
  fill_up_from_268 otu_genome_map per_rank_map tax_profile = Ok m' →
  m' = otu_genome_map.
Proof.
  unfold fill_up_from_268. intros H.
  apply bind_ok_inv in H as (all_genomes & _ & H).
  apply bind_ok_inv in H as (ab & _ & H).
  revert H. generalize (sorted ab). intros l.
  generalize otu_genome_map. induction l as [|x l IH]; intros m; simpl.
  - congruence.
  - destruct (decide (1 < length all_genomes)); simpl; [discriminate | apply IH].
Qed.

(** The example of the specification: two OTUs without a genome, of mean
    abundance 5 and 2, and one genome left. *)
Example fill_up_two_otus_one_genome :
  let tax_profile := [("otu5", (["species__A"], [5%Q])); ("otu2", (["species__B"], [2%Q]))] in
  let per_rank_map : rank_index :=
    <["species" := <[562%Z := [("http://a", "562")]]> ∅]> ∅ in
  sorted [("otu5", 5%Q); ("otu2", 2%Q)] = [("otu2", 2%Q); ("otu5", 5%Q)]
  ∧ fill_up ∅ per_rank_map tax_profile = Raise (NameError "new_rank")
  ∧ fill_up_from_268 ∅ per_rank_map tax_profile = Raise ValueError.
Proof. vm_compute. auto. Qed.

(** ** [write_config]: retrieval *)

(** The loop leaves [counter] at most at 10. *)
Lemma retry_counter_bound (IO : Retrieval) (p out_path create_path : string)
    (remaining counter : nat) (gp : option string) (e : option exn) (w : world IO) :
  (retry IO p out_path create_path remaining counter gp e w).1.1.1
  ≤ counter + remaining.
Proof.
  revert counter gp e w. induction remaining as [|r IH]; intros counter gp e w; simpl.
  - lia.
  - destruct (attempt IO p out_path create_path gp w) as [[[u|x] gp'] w']; simpl.
    + lia.
    + specialize (IH (S counter) gp' (Some x) w'). lia.
Qed.

(** When every pass through the [try] raises, the loop ends with [counter] at
    its bound and an exception in [e]. *)
Lemma retry_all_fail (IO : Retrieval) (p out_path create_path : string)
    (remaining counter : nat) (gp : option string) (e : option exn) (w : world IO) :
  (∀ gp w, (attempt IO p out_path create_path gp w).1.1 ≠ Ok ()) →
  ∃ gp' e' w',
    retry IO p out_path create_path remaining counter gp e w
    = (counter + remaining, gp', e', w').
Proof.
  intros Hfail. revert counter gp e w.
  induction remaining as [|r IH]; intros counter gp e w; simpl.
  - exists gp, e, w. f_equal. f_equal. f_equal. lia.
  - pose proof (Hfail gp w) as Hne.
    destruct (attempt IO p out_path create_path gp w) as [[[u|x] gp'] w']; simpl in *.
    + destruct u. congruence.
    + destruct (IH (S counter) gp' (Some x) w') as (gp'' & e'' & w'' & ->).
      exists gp'', e'', w''. f_equal. f_equal. f_equal. lia.
Qed.

Lemma write_record_counter_10 (IO : Retrieval) (out_path create_path : string)
    (no_samples : nat) (entry : string * assignment) (gp gp' : option string)
    (e' : option exn) (w' : world IO) (s : written IO) :
  retry IO (path entry.2) out_path create_path 10 0 gp None (w_world s)
  = (10, gp', e', w') →
  write_record IO out_path create_path no_samples entry gp s
  = (log_more [LogCaught e']
       {| w_world := w'; w_genome_to_id := w_genome_to_id s;
          w_metadata := w_metadata s; w_abundance := w_abundance s;
          w_log := w_log s |},
     Raise (NameError "genome")).
Proof.
  intros Hr. unfold write_record. rewrite Hr. cbv beta iota zeta.
  destruct (decide (10 = 10)) as [_|Hne]; [|congruence].
  rewrite (load_global_unbound "genome") by reflexivity.
  reflexivity.
Qed.

Lemma write_records_cons (IO : Retrieval) (out_path create_path : string)
    (no_samples : nat) (entry : string * assignment)
    (rest : list (string * assignment)) (gp : option string) (s : written IO) :
  write_records IO out_path create_path no_samples (entry :: rest) gp s
  = match write_record IO out_path create_path no_samples entry gp s with
    | (s', Ok gp') => write_records IO out_path create_path no_samples rest gp' s'
    | (s', Raise x) => (s', Raise x)
    end.
Proof. reflexivity. Qed.

(** C8. When the ten passes for the genome of an OTU all raise, the first
    error is logged and the second error message reads the name [genome],
    which is not bound: [write_config] raises [NameError] there. No line is
    written for this OTU, and none for the OTUs after it. *)
Theorem write_records_halt_on_failed_retrieval (IO : Retrieval)
    (out_path create_path : string) (no_samples : nat)
    (entry : string * assignment) (rest : list (string * assignment))
    (gp : option string) (s : written IO) :
  (∀ gp w, (attempt IO (path entry.2) out_path create_path gp w).1.1 ≠ Ok ()) →
  ∃ s', write_records IO out_path create_path no_samples (entry :: rest) gp s
        = (s', Raise (NameError "genome"))
        ∧ w_genome_to_id s' = w_genome_to_id s
        ∧ w_metadata s' = w_metadata s
        ∧ w_abundance s' = w_abundance s
        ∧ ∃ e, w_log s' = w_log s ++ [LogCaught e].
Proof.
  intros Hfail.
  destruct (retry_all_fail IO (path entry.2) out_path create_path 10 0 gp None
              (w_world s) Hfail) as (gp' & e' & w' & Hr).
  change (0 + 10) with 10 in Hr.
  rewrite (write_records_cons IO), (write_record_counter_10 IO _ _ _ _ _ _ _ _ _ Hr).
  eexists. split; [reflexivity|]. cbn [w_genome_to_id w_metadata w_abundance w_log log_more].
  eauto 10.
Qed.

Lemma write_records_halt_on_failed_retrieval_witness :
  ∃ s', write_records Toy.retrieval "out" "out/genomes" 1
          [("otu1.0", {| tax_id := 562; genome_id := "562"; path := "http://a";
                         abundances := [1%Q] |});
           ("otu2.0", {| tax_id := 590; genome_id := "28901"; path := "/data/s";
                         abundances := [2%Q] |})]
          None
          Toy.nothing_written
        = (s', Raise (NameError "genome"))
        ∧ w_genome_to_id s' = []
        ∧ w_metadata s' = []
        ∧ w_abundance s' = []
        ∧ ∃ e, w_log s' = [] ++ [LogCaught e].
Proof.
  apply (write_records_halt_on_failed_retrieval Toy.retrieval "out" "out/genomes" 1
           ("otu1.0", {| tax_id := 562; genome_id := "562"; path := "http://a";
                         abundances := [1%Q] |})).
  intros gp w. vm_compute. discriminate.
Defined.

(** The same run through [write_config]: the network is down for the first
    OTU, the second one has a local genome. Ten locations were tried, all for
    the first OTU, and nothing was written. *)
Example write_config_network_down :
  let r := write_config Toy.retrieval
    [("otu1.0", {| tax_id := 562; genome_id := "562"; path := "http://a";
                   abundances := [1%Q] |});
     ("otu2.0", {| tax_id := 590; genome_id := "28901"; path := "/data/s";
                   abundances := [2%Q] |})]
    "out"
    (<["Main" := <["number_of_samples" := "1"]> ∅]> (<["community0" := ∅]> ∅))
    ([] : world Toy.retrieval) in
  r.2 = Raise (NameError "genome")
  ∧ w_world r.1 = replicate 10 "http://a/a_genomic.fna.gz"
  ∧ w_genome_to_id r.1 = []
  ∧ w_metadata r.1 = []
  ∧ w_log r.1 = [LogInfo "Downloading 2 genomes"; LogCaught (Some IOError)].
Proof. vm_compute. auto 10. Qed.

(** With the disk alone the writer goes through. *)
Example write_config_local :
  let r := write_config Toy.retrieval
    [("otu2.0", {| tax_id := 590; genome_id := "28901"; path := "/data/s";
                   abundances := [2%Q] |})]
    "out"
    (<["Main" := <["number_of_samples" := "1"]> ∅]> (<["community0" := ∅]> ∅))
    ([] : world Toy.retrieval) in
  fst <$> (match r.2 with Ok x => Some x | Raise _ => None end) = Some "out/config.ini"
  ∧ w_genome_to_id r.1 = [("otu2.0", "out/genomes/s")]
  ∧ w_abundance r.1 = [(0, "otu2.0", 2%Q)].
Proof. vm_compute. auto. Qed.

(** ** [transform_lineage]: the retry with the first word *)

Lemma toy_translator_answers_query : translator_answers_query Toy.ncbi.
Proof.
  intros names n [ids H]. simpl in H.
  apply elem_of_list_to_map_2 in H.
  apply list_elem_of_omap in H as (n' & Hn' & Heq).
  destruct (Toy.names !! n') as [ids'|]; simpl in Heq; [|discriminate].
  by inversion Heq; subst.
Qed.

(** C4. The retry reads the answer the taxonomy gave for the whole name, and
    does not ask again: a token whose name is not resolved adds nothing to
    the lineage (or raises [IndexError], when the name is white space only),
    also when the taxonomy knows its first word. *)
Theorem retry_with_first_word_resolves_nothing (ncbi : NCBITaxa)
    (ranks : list string) (member name : string) (new_lineage : list Z) :
  translator_answers_query ncbi →
  last_item (Str.split "__" member) = Ok name →
  String.length name ≠ 0 →
  get_name_translator ncbi [name] !! name = None →
  transform_member ncbi ranks member new_lineage = Ok new_lineage
  ∨ transform_member ncbi ranks member new_lineage = Raise IndexError.
Proof.
  intros Hkeys Hname Hlen Hnone. unfold transform_member.
  rewrite Hname, bind_ok.
  destruct (decide (String.length name = 0)) as [|_]; [done|].
  destruct (decide (is_Some (get_name_translator ncbi [name] !! name))) as [Hs|_].
  { rewrite Hnone in Hs. by destruct Hs. }
  unfold item. destruct (Str.split_ws name !! 0) as [name'|]; [|by right].
  rewrite bind_ok. left. unfold append_if_mapped.
  destruct (get_name_translator ncbi [name] !! name') as [ids|] eqn:Hm; [|done].
  assert (name' ∈ [name]) as Hin by (apply Hkeys; eauto).
  apply list_elem_of_singleton in Hin. subst name'. congruence.
Qed.

Lemma retry_with_first_word_resolves_nothing_witness :
  transform_member Toy.ncbi RANKS "genus__Escherichia K12" [543%Z] = Ok [543%Z]
  ∨ transform_member Toy.ncbi RANKS "genus__Escherichia K12" [543%Z] = Raise IndexError.
Proof.
  apply (retry_with_first_word_resolves_nothing Toy.ncbi RANKS
           "genus__Escherichia K12" "Escherichia K12" [543%Z]).
  - exact toy_translator_answers_query.
  - reflexivity.
  - simpl. lia.
  - reflexivity.
Defined.

(** The taxonomy resolves the first word to a genus, and the lineage comes
    out without it. *)
Example retry_drops_known_genus :
  Str.split_ws "Escherichia K12" !! 0 = Some "Escherichia"
  ∧ get_name_translator Toy.ncbi ["Escherichia"] !! "Escherichia" = Some [561%Z]
  ∧ get_rank Toy.ncbi [561%Z] !! 561%Z = Some "genus"
  ∧ transform_lineage Toy.ncbi
      ["family__Enterobacteriaceae"; "genus__Escherichia K12"] RANKS MAX_RANK
    = Ok [543%Z].
Proof. vm_compute. auto. Qed.

(** A name of white space only stops the normalizer. *)
Example blank_name_raises :
  transform_lineage Toy.ncbi ["genus__ "] RANKS MAX_RANK = Raise IndexError.
Proof. vm_compute. reflexivity. Qed.

(** ** [get_genomes_per_rank]: the ranks of the index *)

Lemma for_each_invariant {A S : Type} (P : S → Prop) (body : A → S → result S)
    (xs : list A) (s s' : S) :
  (∀ x s s', x ∈ xs → body x s = Ok s' → P s → P s') →
  P s → for_each body xs s = Ok s' → P s'.
Proof.
  revert s. induction xs as [|x xs IH]; intros s Hstep Hs H; simpl in H.
  - congruence.
  - apply bind_ok_inv in H as (s1 & H1 & H2).
    apply (IH s1); [| |done].
    + intros y t t' Hy. apply Hstep. by right.
    + apply (Hstep x s s1); [by left|done|done].
Qed.

Lemma init_per_rank_map_keys (ranks : list string) (max_rank : string)
    (todo : list string) (m m' : rank_index) :
  init_per_rank_map ranks max_rank todo m = Ok m' →
  ∀ rank, is_Some (m' !! rank) → is_Some (m !! rank) ∨ up_to ranks max_rank rank.
Proof.
  revert m. induction todo as [|r todo IH]; intros m H rank Hr; simpl in H.
  - left. congruence.
  - apply bind_ok_inv in H as (i & Hi & H).
    apply bind_ok_inv in H as (j & Hj & H).
    destruct (decide (j < i)) as [|Hle].
    + left. congruence.
    + destruct (IH _ H rank Hr) as [Hs|Hup]; [|by right].
      destruct (decide (r = rank)) as [->|Hne].
      * right. exists i, j. repeat split; [done|done|lia].
      * left. by rewrite lookup_insert_ne in Hs.
Qed.

Lemma index_genome_at_keys (id2rank : gmap Z string) (genome : string)
    (entry : string * list string) (taxid : Z) (m m' : rank_index) :
  index_genome_at id2rank genome entry taxid m = Ok m' →
  ∀ rank, is_Some (m' !! rank) → is_Some (m !! rank).
Proof.
  unfold index_genome_at. intros H rank Hr.
  apply bind_ok_inv in H as (r & _ & H).
  destruct (m !! r) as [rank_map|] eqn:Hm; [|congruence].
  apply bind_ok_inv in H as (p & _ & H).
  destruct (decide (r = rank)) as [->|Hne]; [by rewrite Hm|].
  destruct (rank_map !! taxid); inversion H; subst;
    by rewrite lookup_insert_ne in Hr.
Qed.

Lemma index_genome_keys (ncbi : NCBITaxa) (g : string * (string * list string))
    (m m' : rank_index) :
  index_genome ncbi g m = Ok m' →
  ∀ rank, is_Some (m' !! rank) → is_Some (m !! rank).
Proof.
  unfold index_genome. intros H rank.
  revert H. apply (for_each_invariant (λ m', is_Some (m' !! rank) → is_Some (m !! rank)));
    [|done].
  intros t s s' _ Hs IH Hr. apply IH. by eapply index_genome_at_keys.
Qed.

(** C6. The rank index has a key only for a rank of [ranks] that is not past
    [max_rank]; with the ranks of the module and the maximum rank "family"
    it has no key, and so no bucket and no genome, for "order", "class",
    "phylum" and "superkingdom". *)
Theorem rank_index_keys_up_to_max_rank (ncbi : NCBITaxa)
    (genomes_map : list (string * (string * list string)))
    (ranks : list string) (max_rank : string) (m : rank_index) :
  get_genomes_per_rank ncbi genomes_map ranks max_rank = Ok m →
  (∀ rank, is_Some (m !! rank) → up_to ranks max_rank rank)
  ∧ (ranks = RANKS → max_rank = "family" →
     ∀ rank, rank ∈ ["order"; "class"; "phylum"; "superkingdom"] → m !! rank = None).
Proof.
  intros H. unfold get_genomes_per_rank in H.
  apply bind_ok_inv in H as (m0 & H0 & H).
  assert (∀ rank, is_Some (m !! rank) → up_to ranks max_rank rank) as Hkeys.
  { intros rank Hr.
    assert (is_Some (m0 !! rank)) as Hr0.
    { revert H Hr.
      apply (for_each_invariant (λ m', is_Some (m' !! rank) → is_Some (m0 !! rank)));
        [|done].
      intros g s s' _ Hs IH Hr. apply IH. by eapply index_genome_keys. }
    destruct (init_per_rank_map_keys _ _ _ _ _ H0 rank Hr0) as [Hs|]; [|done].
    rewrite lookup_empty in Hs. by destruct Hs. }
  split; [done|].
  intros -> -> rank Hin.
  destruct (m !! rank) as [rank_map|] eqn:Hm; [|done].
  destruct (Hkeys rank) as (i & j & Hi & Hj & Hij); [by rewrite Hm|].
  vm_compute in Hj. inversion Hj; subst j.
  repeat (apply elem_of_cons in Hin as [->|Hin];
          [vm_compute in Hi; inversion Hi; subst i; lia|]).
  by apply elem_of_nil in Hin.
Qed.

Lemma rank_index_keys_up_to_max_rank_witness :
  ∃ m, get_genomes_per_rank Toy.ncbi
         [("562", ("Escherichia coli", ["http://a"; "http://b"]));
          ("28901", ("Salmonella enterica", ["/data/s"]))] RANKS "family" = Ok m
       ∧ (∀ rank, is_Some (m !! rank) → up_to RANKS "family" rank)
       ∧ (RANKS = RANKS → "family" = "family" →
          ∀ rank, rank ∈ ["order"; "class"; "phylum"; "superkingdom"] → m !! rank = None).
Proof.
  eexists. split; [vm_compute; reflexivity|].
  apply (rank_index_keys_up_to_max_rank Toy.ncbi
           [("562", ("Escherichia coli", ["http://a"; "http://b"]));
            ("28901", ("Salmonella enterica", ["/data/s"]))] RANKS "family").
  vm_compute. reflexivity.
Defined.

(** ** [read_taxonomic_profile]: the number of samples *)

Lemma slice_to_nonneg {A : Type} (n : Z) (l : list A) :
  (0 ≤ n)%Z → slice_to n l = take (Z.to_nat n) l.
Proof. intros Hn. unfold slice_to. by destruct (decide (0 ≤ n)%Z). Qed.

(** A negative bound counts from the end. *)
Example slice_to_negative : slice_to (-1) ["s1"; "s2"; "s3"] = ["s1"; "s2"].
Proof. reflexivity. Qed.

Lemma effective_samples_override (samples : list string) (n : Z) :
  n ≠ Z.of_nat (length samples) → n ≠ 1%Z →
  (effective_samples samples (Some n)).1 = Z.min n (Z.of_nat (length samples)).
Proof.
  intros Hlen H1. unfold effective_samples. simpl.
  destruct (decide (n ≠ Z.of_nat (length samples) ∧ n ≠ 1%Z)) as [_|Hno].
  - simpl. destruct (decide (Z.of_nat (length samples) < n)%Z); lia.
  - destruct Hno. done.
Qed.

Lemma add_otus_abundances (table : BiomTable) (k : Z) (ids : list string)
    (acc : gmap string (list string * list Q)) :
  (∀ otu lin ab, acc !! otu = Some (lin, ab) →
     ab = get_value_by_ids table otu <$> slice_to k (sample_ids table)) →
  ∀ otu lin ab, foldl (add_otu table k) acc ids !! otu = Some (lin, ab) →
     ab = get_value_by_ids table otu <$> slice_to k (sample_ids table).
Proof.
  revert acc. induction ids as [|id ids IH]; intros acc Hacc; simpl; [done|].
  apply IH. intros otu lin ab. unfold add_otu.
  destruct (decide (id = otu)) as [->|Hne].
  - rewrite lookup_insert_eq. by intros [= <- <-].
  - rewrite lookup_insert_ne by done. apply Hacc.
Qed.

Lemma add_otus_keys (table : BiomTable) (k : Z) (ids : list string)
    (acc : gmap string (list string * list Q)) (otu : string) :
  otu ∈ ids ∨ is_Some (acc !! otu) →
  is_Some (foldl (add_otu table k) acc ids !! otu).
Proof.
  revert acc. induction ids as [|id ids IH]; intros acc H; simpl.
  - destruct H as [H|H]; [by apply elem_of_nil in H|done].
  - apply IH. unfold add_otu. destruct (decide (id = otu)) as [->|Hne].
    + right. rewrite lookup_insert_eq. eauto.
    + rewrite lookup_insert_ne by done.
      destruct H as [H|H]; [|by right].
      apply elem_of_cons in H as [->|H]; [done|by left].
Qed.

(** C10. An override [n] of the sample count that is neither the number of
    samples of the table nor 1 is cut down to the number of samples of the
    table when it is larger; the configuration gets that count, and every OTU
    of the table gets the abundances of the first that many samples, so a
    vector of exactly that length. ([n] is a count: not negative.) *)
Theorem read_taxonomic_profile_sample_count (table : BiomTable) (cfg : config) (n : Z) :
  is_Some (cfg !! "Main") →
  n ≠ Z.of_nat (length (sample_ids table)) → n ≠ 1%Z → (0 ≤ n)%Z →
  let no_samples := Z.min n (Z.of_nat (length (sample_ids table))) in
  ∃ profile cfg' logged,
    read_taxonomic_profile table cfg (Some n) = Ok (profile, cfg', logged)
    ∧ config_get "Main" "number_of_samples" cfg' = Ok (pretty no_samples)
    ∧ (∀ otu, otu ∈ observation_ids table → is_Some (profile !! otu))
    ∧ ∀ otu lin ab, profile !! otu = Some (lin, ab) →
        ab = get_value_by_ids table otu
               <$> take (Z.to_nat no_samples) (sample_ids table)
        ∧ Z.of_nat (length ab) = no_samples.
Proof.
  intros [opts Hmain] Hlen H1 Hn no_samples.
  unfold read_taxonomic_profile.
  pose proof (effective_samples_override (sample_ids table) n Hlen H1) as Heff.
  destruct (effective_samples (sample_ids table) (Some n)) as [k logged].
  simpl in Heff. subst k. fold no_samples.
  unfold config_set. rewrite Hmain, bind_ok.
  eexists _, _, logged. split; [reflexivity|].
  split; [|split].
  - unfold config_get. rewrite lookup_insert_eq, lookup_insert_eq. reflexivity.
  - intros otu Hin.
    apply (add_otus_keys table no_samples (observation_ids table) ∅ otu). by left.
  - intros otu lin ab Hl.
    assert (ab = get_value_by_ids table otu <$> slice_to no_samples (sample_ids table))
      as ->.
    { apply (add_otus_abundances table no_samples (observation_ids table) ∅)
        with (lin := lin); [|exact Hl].
      intros ???. by rewrite lookup_empty. }
    rewrite slice_to_nonneg by (unfold no_samples; lia).
    split; [done|].
    rewrite length_fmap, length_take. unfold no_samples. lia.
Qed.

Lemma read_taxonomic_profile_sample_count_witness :
  ∃ profile cfg' logged,
    read_taxonomic_profile Toy.table Toy.cfg (Some 5%Z)
    = Ok (profile, cfg', logged)
    ∧ config_get "Main" "number_of_samples" cfg' = Ok (pretty 3%Z)
    ∧ (∀ otu, otu ∈ ["otu1"; "otu2"] → is_Some (profile !! otu))
    ∧ ∀ otu lin ab, profile !! otu = Some (lin, ab) →
        ab = get_value_by_ids Toy.table otu <$> take 3 ["s1"; "s2"; "s3"]
        ∧ Z.of_nat (length ab) = 3%Z.
Proof.
  apply (read_taxonomic_profile_sample_count Toy.table Toy.cfg 5).
  - vm_compute. eauto.
  - simpl. lia.
  - lia.
  - lia.
Defined.

Example read_profile_two_of_three :
  (λ r, (r.1.1 !! "otu1", r.1.2 !! "Main")) <$>
    (match read_taxonomic_profile Toy.table Toy.cfg (Some 2%Z) with
     | Ok r => Some r | Raise _ => None end)
  = Some (Some (["family__Enterobacteriaceae"; "genus__Escherichia"], [10%Q; 3%Q]),
          Some (<["number_of_samples" := "2"]> ∅)).
Proof. vm_compute. reflexivity. Qed.

(** An override that is negative is not cut down and is no length: with -1
    for a table of three samples the reader returns, the configuration gets
    -1, and the vector of an OTU has two values, which is neither the count
    the reader settled on nor the number of samples of the table. *)
Lemma read_taxonomic_profile_negative_count :
  (-1 ≠ Z.of_nat (length (sample_ids Toy.table)))%Z ∧ (-1 ≠ 1)%Z
  ∧ ∃ profile cfg' logged lin ab,
      read_taxonomic_profile Toy.table Toy.cfg (Some (-1)%Z)
      = Ok (profile, cfg', logged)
      ∧ config_get "Main" "number_of_samples" cfg' = Ok "-1"
      ∧ profile !! "otu1" = Some (lin, ab)
      ∧ ab = [10%Q; 3%Q]
      ∧ Z.of_nat (length ab) ≠ (-1)%Z
      ∧ Z.of_nat (length ab) ≠ Z.of_nat (length (sample_ids Toy.table))
      ∧ Z.of_nat (length ab)
        ≠ Z.min (-1) (Z.of_nat (length (sample_ids Toy.table))).
Proof.
  split; [simpl; lia|]. split; [lia|].
  eexists _, _, _, _, _. split; [vm_compute; reflexivity|].
  split; [vm_compute; reflexivity|].
  split; [vm_compute; reflexivity|].
  split; [reflexivity|].
  simpl. lia.
Qed.

(** With a negative override the vector is not of that length. *)
Example read_profile_negative_override :
  (λ r, (r.1.1 !! "otu1", r.1.2 !! "Main")) <$>
    (match read_taxonomic_profile Toy.table Toy.cfg (Some (-1)%Z) with
     | Ok r => Some r | Raise _ => None end)
  = Some (Some (["family__Enterobacteriaceae"; "genus__Escherichia"], [10%Q; 3%Q]),
          Some (<["number_of_samples" := "-1"]> ∅)).
Proof. vm_compute. reflexivity. Qed.

(** ** [read_genomes_list]: the locations that are stored *)

Lemma stored_add_location (ncbi_id sci_name location : string)
    (genomes_map : gmap string (string * list string)) (id : string) :
  stored (add_location ncbi_id sci_name location genomes_map) id
  = stored genomes_map id ++ (if decide (ncbi_id = id) then [location] else []).
Proof.
  unfold stored, add_location.
  destruct (decide (ncbi_id = id)) as [->|Hne].
  - destruct (genomes_map !! id) as [[name locs]|] eqn:Hl;
      by rewrite lookup_insert_eq.
  - destruct (genomes_map !! ncbi_id) as [[name locs]|];
      rewrite lookup_insert_ne, app_nil_r; done.
Qed.

Lemma locations_of_cons (id : string) (e : string * string * string)
    (entries : list (string * string * string)) :
  locations_of id (e :: entries)
  = (if decide (e.1.1 = id) then [e.2] else []) ++ locations_of id entries.
Proof.
  unfold locations_of. rewrite filter_cons.
  by destruct (decide (e.1.1 = id)).
Qed.

(** A loop over the lines of a catalog that stores [f location]. *)
Lemma catalog_loop (f : string → string) (lines : list string)
    (gm gm' : gmap string (string * list string)) :
  for_each (λ line gm,
              let! '(ncbi_id, sci_name, location) := catalog_fields line in
              Ok (add_location ncbi_id sci_name (f location) gm)) lines gm = Ok gm' →
  ∃ entries, comprehension catalog_fields lines = Ok entries
    ∧ ∀ id, stored gm' id = stored gm id ++ (f <$> locations_of id entries).
Proof.
  revert gm. induction lines as [|line lines IH]; intros gm H; simpl in H.
  - inversion H; subst. exists []. split; [done|]. intros id. by rewrite app_nil_r.
  - apply bind_ok_inv in H as (gm1 & H1 & H).
    apply bind_ok_inv in H1 as ([[ncbi_id sci_name] location] & Hf & H1).
    inversion H1; subst gm1; clear H1.
    destruct (IH _ H) as (entries & Hc & Hst).
    exists ((ncbi_id, sci_name, location) :: entries). split.
    + simpl. rewrite Hf, bind_ok, Hc. reflexivity.
    + intros id. rewrite Hst, stored_add_location, locations_of_cons. simpl.
      destruct (decide (ncbi_id = id)); simpl; by rewrite <- ?app_assoc.
Qed.

Lemma replace_leading_ftp (rest : string) :
  Str.replace "ftp://" "http://" ("ftp://" +:+ rest)
  = "http://" +:+ Str.replace "ftp://" "http://" rest.
Proof. reflexivity. Qed.

(** C9. The catalog holds, for every id, the locations of the lines of the
    primary file for that id, each with every occurrence of "ftp://" replaced
    by "http://" (a leading "ftp://" becomes "http://", and so does one
    further on), followed by the locations of the lines of the additional
    file for that id, as they are. *)
Theorem read_genomes_list_locations (genomes : list string)
    (additional_file : option (list string))
    (genomes_map : gmap string (string * list string)) :
  read_genomes_list genomes additional_file = Ok genomes_map →
  ∃ primary additional,
    comprehension catalog_fields genomes = Ok primary
    ∧ comprehension catalog_fields (default [] additional_file) = Ok additional
    ∧ (∀ ncbi_id,
         stored genomes_map ncbi_id
         = (Str.replace "ftp://" "http://" <$> locations_of ncbi_id primary)
           ++ locations_of ncbi_id additional)
    ∧ (∀ rest,
         Str.replace "ftp://" "http://" ("ftp://" +:+ rest)
         = "http://" +:+ Str.replace "ftp://" "http://" rest).
Proof.
  unfold read_genomes_list. intros H.
  apply bind_ok_inv in H as (gm1 & H1 & H).
  apply (catalog_loop (Str.replace "ftp://" "http://")) in H1 as (primary & Hp & Hst1).
  exists primary.
  destruct additional_file as [add|]; simpl.
  - apply (catalog_loop id) in H as (additional & Ha & Hst).
    exists additional. split; [done|]. split; [done|].
    split; [|exact replace_leading_ftp].
    intros ncbi_id. rewrite Hst, Hst1. unfold stored at 1.
    rewrite lookup_empty. simpl. by rewrite list_fmap_id.
  - inversion H; subst gm1. exists []. split; [done|]. split; [done|].
    split; [|exact replace_leading_ftp].
    intros ncbi_id. rewrite Hst1. unfold stored at 1.
    rewrite lookup_empty. simpl. by rewrite app_nil_r.
Qed.

Lemma read_genomes_list_locations_witness :
  ∃ genomes_map,
    read_genomes_list Toy.genomes_file (Some Toy.additional_file) = Ok genomes_map
    ∧ ∃ primary additional,
        comprehension catalog_fields Toy.genomes_file = Ok primary
        ∧ comprehension catalog_fields (default [] (Some Toy.additional_file))
          = Ok additional
        ∧ (∀ ncbi_id,
             stored genomes_map ncbi_id
             = (Str.replace "ftp://" "http://" <$> locations_of ncbi_id primary)
               ++ locations_of ncbi_id additional)
        ∧ (∀ rest,
             Str.replace "ftp://" "http://" ("ftp://" +:+ rest)
             = "http://" +:+ Str.replace "ftp://" "http://" rest).
Proof.
  eexists. split; [vm_compute; reflexivity|].
  apply (read_genomes_list_locations Toy.genomes_file (Some Toy.additional_file)).
  vm_compute. reflexivity.
Defined.

(** The rewrite is not one of a leading prefix only: of the two locations of
    this catalog the first has "ftp://" twice and the second has it after an
    "s", and both occurrences that do not lead are rewritten too. *)
Lemma read_genomes_list_rewrites_every_ftp :
  ∃ genomes_map primary,
    read_genomes_list
      [Toy.catalog_line "562" "Escherichia coli" "ftp://h/ftp://g1";
       Toy.catalog_line "562" "Escherichia coli" "sftp://host/g"] None
    = Ok genomes_map
    ∧ comprehension catalog_fields
        [Toy.catalog_line "562" "Escherichia coli" "ftp://h/ftp://g1";
         Toy.catalog_line "562" "Escherichia coli" "sftp://host/g"]
      = Ok primary
    ∧ locations_of "562" primary = ["ftp://h/ftp://g1"; "sftp://host/g"]
    ∧ rewrite_leading_ftp <$> locations_of "562" primary
      = ["http://h/ftp://g1"; "sftp://host/g"]
    ∧ stored genomes_map "562" = ["http://h/http://g1"; "shttp://host/g"]
    ∧ stored genomes_map "562" ≠ rewrite_leading_ftp <$> locations_of "562" primary.
Proof.
  eexists _, _. split; [vm_compute; reflexivity|].
  split; [vm_compute; reflexivity|].
  split; [vm_compute; reflexivity|].
  split; [vm_compute; reflexivity|].
  split; [vm_compute; reflexivity|].
  vm_compute. discriminate.
Qed.

Example read_genomes_list_stored :
  (λ m, stored m "562") <$>
    (match read_genomes_list Toy.genomes_file (Some Toy.additional_file) with
     | Ok m => Some m | Raise _ => None end)
  = Some ["http://ftp.ncbi.nih.gov/g1"; "http://host/g2"; "ftp://local/g3"].
Proof. vm_compute. reflexivity. Qed.

(** A line that does not have three fields stops the reader. *)
Example read_genomes_list_short_line :
  read_genomes_list ["562" +:+ tab +:+ "Escherichia coli"] None = Raise ValueError.
Proof. vm_compute. reflexivity. Qed.

(** ** The toy generator keeps the contract *)

Lemma toy_runtime_contract : runtime_contract Toy.runtime.
Proof.
  split; simpl.
  - intros p g Hp Hp1.
    assert (Qle_bool 0 p = true) as -> by (apply Qle_bool_iff; by apply Qlt_le_weak).
    assert (Qle_bool p 1 = true) as -> by (by apply Qle_bool_iff).
    simpl. eauto.
  - intros p g k g' H. destruct (Qle_bool 0 p && Qle_bool p 1); [|discriminate].
    inversion H; subst. lia.
  - intros n k g Hk. destruct (decide (k ≤ n)); [eauto|lia].
  - intros n k g l g' H. destruct (decide (k ≤ n)); [|discriminate].
    inversion H; subst. split; [by rewrite length_seq|].
    split; [apply NoDup_seq|].
    apply Forall_forall. intros i Hi. apply elem_of_seq in Hi. lia.
  - intros mu sigma n g Hs. destruct (decide (0 < sigma)%Z); [eauto|lia].
  - intros mu sigma n g l g' H. destruct (decide (0 < sigma)%Z); [|discriminate].
    inversion H; subst. split; [by rewrite length_fmap, length_seq|].
    apply Forall_fmap, Forall_forall. intros i _. simpl.
    unfold Qlt. simpl. lia.
  - intros l. split; [apply NoDup_remove_dups|].
    intros x. apply elem_of_remove_dups.
Qed.

(** ** The key of a strain *)

Lemma pretty_N_char_no_dot (x : N) : pretty_N_char x ≠ "."%char.
Proof. unfold pretty_N_char. repeat case_match; discriminate. Qed.

Lemma pretty_N_go_no_dot (x : N) (s : string) : no_dot s → no_dot (pretty_N_go x s).
Proof.
  revert s. induction (N.lt_wf_0 x) as [x _ IH]; intros s Hs.
  destruct (decide (x = 0)%N) as [->|Hx].
  - by rewrite pretty_N_go_0.
  - rewrite pretty_N_go_step by lia. apply IH.
    + apply N.div_lt; lia.
    + split; [apply pretty_N_char_no_dot|done].
Qed.

Lemma pretty_nat_no_dot (n : nat) : no_dot (pretty n).
Proof.
  unfold pretty, pretty_nat, pretty, pretty_N.
  destruct (decide (N.of_nat n = 0)%N).
  - simpl. split; [discriminate|done].
  - by apply pretty_N_go_no_dot.
Qed.

Lemma no_dot_append_dot (s d : string) : ¬ no_dot (s +:+ "." +:+ d).
Proof.
  induction s as [|c s IH]; simpl; intros [H1 H2]; [done|auto].
Qed.

Lemma append_dot_inj (s1 s2 d1 d2 : string) :
  no_dot d1 → no_dot d2 →
  s1 +:+ "." +:+ d1 = s2 +:+ "." +:+ d2 → s1 = s2 ∧ d1 = d2.
Proof.
  intros H1 H2. revert s2. induction s1 as [|c s1 IH]; intros [|c' s2] H; simpl in H.
  - injection H as Hd. done.
  - injection H as Hc Hd. change ("" +:+ d1) with d1 in Hd. rewrite Hd in H1.
    by apply no_dot_append_dot in H1.
  - injection H as Hc Hd. change ("" +:+ d2) with d2 in Hd. rewrite <- Hd in H2.
    by apply no_dot_append_dot in H2.
  - injection H as Hc Hd. destruct (IH s2 Hd) as [-> ->]. by subst.
Qed.

(** Two strains have the same key only when they are the same strain of the
    same OTU. *)
Lemma strain_id_inj (otu otu' : string) (i j : nat) :
  strain_id otu i = strain_id otu' j → otu = otu' ∧ i = j.
Proof.
  unfold strain_id. intros H.
  apply append_dot_inj in H as [-> Hp]; try apply pretty_nat_no_dot.
  split; [done|]. by apply (inj pretty).
Qed.

(** ** The number of strains *)

Lemma two_over_max_strains (max_strains : Z) :
  (2 ≤ max_strains)%Z →
  (0 < 2 / inject_Z max_strains)%Q ∧ (2 / inject_Z max_strains <= 1)%Q.
Proof.
  intros H. destruct max_strains as [|p|p]; try lia.
  unfold Qlt, Qle, Qdiv, Qmult, Qinv, inject_Z. simpl. lia.
Qed.

(** With at least two strains allowed the draw returns, and the count is
    between 1 and [max_strains - 1]. *)
Lemma strains_to_draw_range (R : Runtime) (max_strains : Z) (g : rng R) :
  runtime_contract R → (2 ≤ max_strains)%Z →
  ∃ k g',
    geometric R (2 / inject_Z max_strains)%Q g = Ok (k, g')
    ∧ strains_to_draw R max_strains g = Ok (Z.max (k mod max_strains) 1, g')
    ∧ (1 ≤ Z.max (k mod max_strains) 1 ≤ max_strains - 1)%Z.
Proof.
  intros HR Hm. destruct (two_over_max_strains max_strains Hm) as [Hp0 Hp1].
  destruct (geometric_accepts R HR _ g Hp0 Hp1) as (k & g' & Hg).
  exists k, g'. split; [done|]. split.
  - unfold strains_to_draw. destruct (decide (max_strains = 0)%Z); [lia|].
    by rewrite Hg.
  - pose proof (Z.mod_pos_bound k max_strains). lia.
Qed.

(** ** The genomes that are picked *)

Lemma comprehension_item_ok {A : Type} (l : list A) (idxs : list nat) :
  Forall (λ i, i < length l) idxs →
  ∃ picked, comprehension (item l) idxs = Ok picked.
Proof.
  induction idxs as [|i idxs IH]; intros H; simpl; [eauto|].
  apply Forall_cons in H as [Hi H]. destruct (IH H) as [picked ->].
  unfold item. destruct (lookup_lt_is_Some_2 l i Hi) as [x ->]. simpl. eauto.
Qed.

Lemma comprehension_item_elements {A : Type} (l : list A) (idxs : list nat)
    (picked : list A) :
  comprehension (item l) idxs = Ok picked →
  length picked = length idxs ∧ ∀ x, x ∈ picked → x ∈ l.
Proof.
  revert picked. induction idxs as [|i idxs IH]; intros picked H; simpl in H.
  - inversion H; subst. split; [done|]. intros x Hx. by apply elem_of_nil in Hx.
  - apply bind_ok_inv in H as (y & Hy & H).
    apply bind_ok_inv in H as (ys & Hys & H). inversion H; subst.
    destruct (IH _ Hys) as [Hlen Hin]. split; [simpl; lia|].
    intros x Hx. apply elem_of_cons in Hx as [->|Hx]; [|auto].
    unfold item in Hy. destruct (l !! i) eqn:Hl; inversion Hy; subst.
    by eapply list_elem_of_lookup_2.
Qed.

Lemma NoDup_subset_length {A : Type} (l k : list A) :
  NoDup l → (∀ x, x ∈ l → x ∈ k) → length l ≤ length k.
Proof.
  intros Hl Hsub. apply submseteq_length, NoDup_submseteq; done.
Qed.

(** What is picked, whenever the pick returns: distinct genomes of the
    bucket, at most as many as were to be drawn, and all of the bucket when
    the bucket is too small. *)
Lemma pick_genomes_spec (R : Runtime) (available : list (string * string))
    (n : Z) (g g' : rng R) (used : list (string * string)) :
  runtime_contract R → (1 ≤ n)%Z →
  pick_genomes R available n g = Ok (used, g') →
  NoDup used
  ∧ (∀ x, x ∈ used → x ∈ available)
  ∧ length used ≤ Nat.min (length available) (Z.to_nat n)
  ∧ (available ≠ [] → 1 ≤ length used)
  ∧ ((Z.of_nat (length available) < n)%Z → ∀ x, x ∈ available → x ∈ used).
Proof.
  intros HR Hn H. unfold pick_genomes in H.
  destruct (decide (n ≤ Z.of_nat (length available))%Z) as [Hle|Hgt].
  - apply bind_ok_inv in H as ([idxs g1] & Hc & H).
    apply bind_ok_inv in H as (picked & Hp & H). inversion H; subst; clear H.
    destruct (choice_distinct R HR _ _ _ _ _ Hc) as (Hlen & _ & _).
    destruct (comprehension_item_elements _ _ _ Hp) as [Hplen Hpin].
    destruct (set_iter_elements R HR picked) as [Hnd Hel].
    split; [done|]. split; [intros x Hx; apply Hpin, Hel, Hx|].
    assert (length (set_iter R picked) ≤ length picked) as Hl.
    { apply NoDup_subset_length; [done|]. intros x. apply Hel. }
    split; [lia|]. split; [|lia].
    intros _. destruct picked as [|x picked]; [simpl in *; lia|].
    assert (x ∈ set_iter R (x :: picked)) as Hx by (apply Hel; by left).
    destruct (set_iter R (x :: picked)); [by apply elem_of_nil in Hx|simpl; lia].
  - inversion H; subst; clear H.
    destruct (set_iter_elements R HR available) as [Hnd Hel].
    split; [done|]. split; [intros x; apply Hel|].
    assert (length (set_iter R available) ≤ length available) as Hl.
    { apply NoDup_subset_length; [done|]. intros x. apply Hel. }
    split; [lia|]. split; [|intros _ x; apply Hel].
    intros Hne. destruct available as [|x available]; [done|].
    assert (x ∈ set_iter R (x :: available)) as Hx by (apply Hel; by left).
    destruct (set_iter R (x :: available)); [by apply elem_of_nil in Hx|simpl; lia].
Qed.

Lemma pick_genomes_returns (R : Runtime) (available : list (string * string))
    (n : Z) (g : rng R) :
  runtime_contract R → (1 ≤ n)%Z →
  ∃ used g', pick_genomes R available n g = Ok (used, g').
Proof.
  intros HR Hn. unfold pick_genomes.
  destruct (decide (n ≤ Z.of_nat (length available))%Z) as [Hle|Hgt]; [|eauto].
  destruct (choice_accepts R HR (length available) (Z.to_nat n) g) as (idxs & g1 & Hc);
    [lia|].
  rewrite Hc, bind_ok.
  destruct (choice_distinct R HR _ _ _ _ _ Hc) as (_ & _ & Hlt).
  destruct (comprehension_item_ok available idxs Hlt) as [picked ->].
  simpl. eauto.
Qed.

(** ** The records of one OTU *)

Lemma assign_strains_spec (otu : string) (taxid : Z) (ab ws : list Q) (total : Q)
    (replace : bool) (used : list (string * string)) (i : nat)
    (prm prm' : rank_index) (m m' : gmap string assignment) :
  assign_strains otu taxid ab ws total replace used i prm m = Ok (prm', m') →
  (∀ j x, used !! j = Some x →
     ∃ w, ws !! (i + j) = Some w
          ∧ m' !! strain_id otu (i + j) = Some (strain_record taxid ab w total x))
  ∧ (∀ key, (∀ j, j < length used → key ≠ strain_id otu (i + j)) →
       m' !! key = m !! key).
Proof.
  revert i prm m. induction used as [|[p genome] rest IH]; intros i prm m H; simpl in H.
  - inversion H; subst. split; [|done]. intros j x Hj. by rewrite lookup_nil in Hj.
  - apply bind_ok_inv in H as (w & Hw & H). apply IH in H as [H1 H2]. split.
    + intros [|j] x Hj; simpl in Hj.
      * inversion Hj; subst x. exists w. rewrite Nat.add_0_r. split.
        { unfold item in Hw. by destruct (ws !! i); inversion Hw. }
        rewrite H2; [apply lookup_insert_eq|].
        intros j Hj' Heq. apply strain_id_inj in Heq. lia.
      * destruct (H1 j x Hj) as (w' & Hw' & Hm').
        exists w'. by replace (i + S j) with (S i + j) by lia.
    + intros key Hkey. rewrite H2.
      * apply lookup_insert_ne. intros Heq. apply (Hkey 0); [simpl; lia|].
        by rewrite Nat.add_0_r.
      * intros j Hj. replace (S i + j) with (i + S j) by lia.
        apply Hkey. simpl. lia.
Qed.

Lemma assign_strains_returns (otu : string) (taxid : Z) (ab ws : list Q) (total : Q)
    (replace : bool) (used : list (string * string)) (i : nat)
    (prm : rank_index) (m : gmap string assignment) :
  i + length used ≤ length ws →
  ∃ prm' m', assign_strains otu taxid ab ws total replace used i prm m = Ok (prm', m').
Proof.
  revert i prm m. induction used as [|[p genome] rest IH]; intros i prm m H; simpl.
  - eauto.
  - simpl in H. unfold item.
    destruct (lookup_lt_is_Some_2 ws i) as [w ->]; [lia|].
    rewrite bind_ok. apply IH. lia.
Qed.

(** The rank index after the records of an OTU: as it was when genomes are
    replaced, and without the genomes that were used when they are not. *)
Lemma assign_strains_index (otu : string) (taxid : Z) (ab ws : list Q) (total : Q)
    (replace : bool) (used : list (string * string)) (i : nat)
    (prm prm' : rank_index) (m m' : gmap string assignment) :
  assign_strains otu taxid ab ws total replace used i prm m = Ok (prm', m') →
  prm' = if replace then prm else foldl (λ prm x, remove_genome x prm) prm used.
Proof.
  revert i prm m. induction used as [|[p genome] rest IH]; intros i prm m H; simpl in H.
  - inversion H; subst. by destruct replace.
  - apply bind_ok_inv in H as (w & Hw & H). apply IH in H.
    destruct replace; simpl; done.
Qed.

(** What [assign_genomes] does when it returns. *)
Lemma assign_genomes_spec (R : Runtime) (otu : string) (taxid : Z) (ab : list Q)
    (available : list (string * string)) (mu sigma max_strains : Z)
    (replace : bool) (st st' : state R) :
  runtime_contract R →
  assign_genomes R otu taxid ab available mu sigma max_strains replace st = Ok st' →
  ∃ n g used ws,
    strains_to_draw R max_strains (st_rng st) = Ok (n, g)
    ∧ NoDup used
    ∧ (∀ x, x ∈ used → x ∈ available)
    ∧ length used ≤ Nat.min (length available) (Z.to_nat n)
    ∧ (available ≠ [] → 1 ≤ length used)
    ∧ ((Z.of_nat (length available) < n)%Z → ∀ x, x ∈ available → x ∈ used)
    ∧ assigned otu taxid ab used ws (st_map st) (st_map st')
    ∧ st_index st'
      = (if replace then st_index st
         else foldl (λ prm x, remove_genome x prm) (st_index st) used)
    ∧ st_warnings st' = st_warnings st.
Proof.
  intros HR H. unfold assign_genomes in H.
  apply bind_ok_inv in H as ([n g] & Hn & H).
  apply bind_ok_inv in H as ([used g1] & Hpick & H).
  apply bind_ok_inv in H as ([ws g2] & Hws & H).
  apply bind_ok_inv in H as ([prm' m'] & Hassign & H).
  inversion H; subst st'; clear H. simpl.
  assert (1 ≤ n)%Z as Hn1.
  { unfold strains_to_draw in Hn.
    destruct (decide (max_strains = 0)%Z); [discriminate|].
    apply bind_ok_inv in Hn as ([k g0] & _ & Hn). inversion Hn. lia. }
  destruct (pick_genomes_spec R available n g g1 used HR Hn1 Hpick)
    as (Hnd & Hsub & Hlen & Hne & Hall).
  destruct (lognormal_positive R HR _ _ _ _ _ _ Hws) as [Hwlen Hwpos].
  destruct (assign_strains_spec _ _ _ _ _ _ _ _ _ _ _ _ Hassign) as [Hrec Hother].
  exists n, g, used, ws.
  split; [done|]. split; [done|]. split; [done|]. split; [done|].
  split; [done|]. split; [done|].
  split; [|split; [by eapply assign_strains_index|done]].
  unfold assigned. split; [done|]. split; [done|]. split; [|done].
  intros j x Hj. destruct (Hrec j x Hj) as (w & Hw & Hm). eauto.
Qed.

Lemma assign_genomes_returns (R : Runtime) (otu : string) (taxid : Z) (ab : list Q)
    (available : list (string * string)) (mu sigma max_strains : Z)
    (replace : bool) (st : state R) :
  runtime_contract R → (2 ≤ max_strains)%Z → (0 < sigma)%Z →
  ∃ st', assign_genomes R otu taxid ab available mu sigma max_strains replace st
         = Ok st'.
Proof.
  intros HR Hm Hs. unfold assign_genomes.
  destruct (strains_to_draw_range R max_strains (st_rng st) HR Hm)
    as (k & g & _ & -> & Hrange).
  rewrite bind_ok.
  destruct (pick_genomes_returns R available (Z.max (k mod max_strains) 1) g HR)
    as (used & g1 & ->); [lia|].
  rewrite bind_ok.
  destruct (lognormal_accepts R HR mu sigma (length used) g1 Hs) as (ws & g2 & Hws).
  rewrite Hws, bind_ok.
  destruct (lognormal_positive R HR _ _ _ _ _ _ Hws) as [Hwlen _].
  destruct (assign_strains_returns otu taxid ab ws (sum ws) replace used 0
              (st_index st) (st_map st)) as (prm' & m' & ->); [lia|].
  simpl. eauto.
Qed.

(** ** The walk up the lineage *)

(** The walk passes the ids that have no bucket and runs [assign_genomes] at
    the first id that has one, with the generator, the index and the
    assignment as they were. *)
Lemma walk_lineage_found (R : Runtime) (ranks : list string) (max_rank : string)
    (mu sigma max_strains : Z) (replace : bool) (otu : string) (lin : list string)
    (ab : list Q) (lineage : list Z) (lineage_ranks : gmap Z string)
    (pre post : list Z) (taxid : Z) (rank : string)
    (genomes : gmap Z (list (string * string)))
    (available : list (string * string)) (st : state R) :
  (∀ t, t ∈ pre →
     ∃ r rank_map, lineage_ranks !! t = Some r ∧ up_to ranks max_rank r
                   ∧ st_index st !! r = Some rank_map ∧ rank_map !! t = None) →
  lineage_ranks !! taxid = Some rank → up_to ranks max_rank rank →
  st_index st !! rank = Some genomes → genomes !! taxid = Some available →
  ∃ st0, st_rng st0 = st_rng st ∧ st_index st0 = st_index st
         ∧ st_map st0 = st_map st
         ∧ walk_lineage R ranks max_rank mu sigma max_strains replace otu lin ab
             lineage lineage_ranks (pre ++ taxid :: post) st
           = assign_genomes R otu taxid ab available mu sigma max_strains replace st0.
Proof.
  intros Hpre Hrank (i & j & Hi & Hj & Hij) Hgenomes Havailable.
  revert st Hpre Hgenomes. induction pre as [|t pre IH]; intros st Hpre Hgenomes; simpl.
  - exists st. repeat (split; [done|]).
    unfold subscript. rewrite Hrank, bind_ok, Hi, bind_ok, Hj, bind_ok.
    destruct (decide (j < i)); [lia|].
    by rewrite Hgenomes, bind_ok, Havailable.
  - destruct (Hpre t) as (r & rank_map & Hr & (i' & j' & Hi' & Hj' & Hij') & Hrm & Ht);
      [by left|].
    unfold subscript at 1. rewrite Hr, bind_ok, Hi', bind_ok, Hj', bind_ok.
    destruct (decide (j' < i')); [lia|].
    unfold subscript at 1. rewrite Hrm, bind_ok, Ht.
    destruct (IH (warn [NoGenomesOnRank otu r t] st)) as (st0 & ? & ? & ? & ->).
    + intros t' Ht'. apply Hpre. by right.
    + done.
    + by exists st0.
Qed.

(** C3. For an OTU whose lineage walk comes to an id with a bucket of
    genomes that is not empty: the number of strains to draw is
    [max(k mod max_strains, 1)] for the draw [k] of the geometric
    distribution of parameter [2/max_strains], so between 1 and
    [max_strains - 1]; the OTU gets one record per genome used, the genomes
    used are distinct genomes of the bucket, at least one and at most the
    smaller of the size of the bucket and the number to draw, and they are
    all the genomes of the bucket when the bucket has fewer than the number
    to draw. *)
Theorem strain_count_and_records (ncbi : NCBITaxa) (R : Runtime)
    (ranks : list string) (max_rank : string) (mu sigma max_strains : Z)
    (replace : bool) (entry : string * (list string * list Q)) (st : state R)
    (pre post : list Z) (taxid : Z) (rank : string)
    (genomes : gmap Z (list (string * string)))
    (available : list (string * string)) :
  runtime_contract R → (2 ≤ max_strains)%Z → (0 < sigma)%Z →
  transform_lineage ncbi entry.2.1 ranks max_rank = Ok (pre ++ taxid :: post) →
  (∀ t, t ∈ pre →
     ∃ r rank_map, get_rank ncbi (pre ++ taxid :: post) !! t = Some r
                   ∧ up_to ranks max_rank r
                   ∧ st_index st !! r = Some rank_map ∧ rank_map !! t = None) →
  get_rank ncbi (pre ++ taxid :: post) !! taxid = Some rank →
  up_to ranks max_rank rank →
  st_index st !! rank = Some genomes → genomes !! taxid = Some available →
  available ≠ [] →
  ∃ k g st' used ws,
    geometric R (2 / inject_Z max_strains)%Q (st_rng st) = Ok (k, g)
    ∧ (1 ≤ Z.max (k mod max_strains) 1 ≤ max_strains - 1)%Z
    ∧ map_otu ncbi R ranks max_rank mu sigma max_strains replace entry st = Ok st'
    ∧ 1 ≤ length used
    ∧ length used ≤ Nat.min (length available) (Z.to_nat (Z.max (k mod max_strains) 1))
    ∧ NoDup used
    ∧ (∀ x, x ∈ used → x ∈ available)
    ∧ ((Z.of_nat (length available) < Z.max (k mod max_strains) 1)%Z →
       ∀ x, x ∈ available → x ∈ used)
    ∧ assigned entry.1 taxid entry.2.2 used ws (st_map st) (st_map st').
Proof.
  intros HR Hmax Hsigma Hlin Hpre Hrank Hup Hgenomes Havailable Hne.
  destruct (strains_to_draw_range R max_strains (st_rng st) HR Hmax)
    as (k & g & Hk & Hdraw & Hrange).
  assert (∃ st0, st_rng st0 = st_rng st ∧ st_map st0 = st_map st
            ∧ map_otu ncbi R ranks max_rank mu sigma max_strains replace entry st
              = assign_genomes R entry.1 taxid entry.2.2 available mu sigma
                  max_strains replace st0) as (st0 & Hrng & Hmap & Hwalk).
  { unfold map_otu. rewrite Hlin, bind_ok.
    destruct (decide (length (pre ++ taxid :: post) = 0)) as [Hlen|_].
    { rewrite length_app in Hlen. simpl in Hlen. lia. }
    rewrite bind_ok.
    destruct (walk_lineage_found R ranks max_rank mu sigma max_strains replace
                entry.1 entry.2.1 entry.2.2 (pre ++ taxid :: post)
                (get_rank ncbi (pre ++ taxid :: post)) pre post taxid rank genomes
                available st Hpre Hrank Hup Hgenomes Havailable)
      as (st0 & ? & ? & ? & ->).
    by exists st0. }
  destruct (assign_genomes_returns R entry.1 taxid entry.2.2 available mu sigma
              max_strains replace st0 HR Hmax Hsigma) as [st' Hst'].
  destruct (assign_genomes_spec R _ _ _ _ _ _ _ _ _ _ HR Hst')
    as (n & g1 & used & ws & Hn & Hnd & Hsub & Hlen & Hone & Hall & Hassigned & _).
  rewrite Hrng, Hdraw in Hn. inversion Hn; subst n g1.
  rewrite Hmap in Hassigned.
  exists k, g, st', used, ws.
  split; [done|]. split; [done|]. split; [by rewrite Hwalk|].
  split; [by apply Hone|]. done.
Qed.

Lemma strain_count_and_records_witness :
  ∃ k g st' used ws,
    geometric Toy.runtime (2 / inject_Z 3)%Q (st_rng Toy.start) = Ok (k, g)
    ∧ (1 ≤ Z.max (k mod 3) 1 ≤ 3 - 1)%Z
    ∧ map_otu Toy.ncbi Toy.runtime RANKS "family" 1 2 3 false Toy.otu1 Toy.start
      = Ok st'
    ∧ 1 ≤ length used
    ∧ length used ≤ Nat.min (length Toy.escherichia) (Z.to_nat (Z.max (k mod 3) 1))
    ∧ NoDup used
    ∧ (∀ x, x ∈ used → x ∈ Toy.escherichia)
    ∧ ((Z.of_nat (length Toy.escherichia) < Z.max (k mod 3) 1)%Z →
       ∀ x, x ∈ Toy.escherichia → x ∈ used)
    ∧ assigned (Toy.otu1).1 561 (Toy.otu1).2.2 used ws
        (st_map Toy.start) (st_map st').
Proof.
  apply (strain_count_and_records Toy.ncbi Toy.runtime RANKS "family" 1 2 3 false
           Toy.otu1 Toy.start [562%Z] [] 561 "genus"
           (<[561%Z := Toy.escherichia]> ∅) Toy.escherichia).
  - exact toy_runtime_contract.
  - lia.
  - lia.
  - vm_compute. reflexivity.
  - intros t Ht. apply list_elem_of_singleton in Ht. subst t.
    exists "species", ∅. split; [vm_compute; reflexivity|].
    split; [exists 0, 2; vm_compute; auto|].
    split; [vm_compute; reflexivity|reflexivity].
  - vm_compute. reflexivity.
  - exists 1, 2. vm_compute. auto.
  - vm_compute. reflexivity.
  - vm_compute. reflexivity.
  - discriminate.
Defined.

(** The run itself: one strain is drawn, and it gets all of the abundance. *)
Example map_otu_toy :
  (λ st', (st_map st' !! "otu1.0", st_map st' !! "otu1.1", st_index st' !! "genus",
           st_warnings st')) <$>
    (match map_otu Toy.ncbi Toy.runtime RANKS "family" 1 2 3 false Toy.otu1 Toy.start
     with Ok st' => Some st' | Raise _ => None end)
  = Some (Some {| tax_id := 561; genome_id := "83334"; path := "http://b";
                  abundances := [(3 / 3 * 10)%Q; (3 / 3 * 3)%Q] |},
          None,
          Some (<[561%Z := [("http://a", "562")]]> ∅),
          [NoGenomesOnRank "otu1" "species" 562]).
Proof. vm_compute. reflexivity. Qed.

(** With one strain allowed numpy refuses the parameter 2 of the geometric
    distribution. *)
Example max_strains_one_raises :
  map_otu Toy.ncbi Toy.runtime RANKS "family" 1 2 1 false Toy.otu1 Toy.start
  = Raise ValueError.
Proof. vm_compute. reflexivity. Qed.

(** ** Without replacement: a genome is used once *)

Lemma remove_first_subset (x y : string * string) (bucket : list (string * string)) :
  y ∈ remove_first x bucket → y ∈ bucket.
Proof.
  induction bucket as [|z bucket IH]; simpl; [done|].
  destruct (decide (z = x)); [by right|].
  intros H. apply elem_of_cons in H as [->|H]; [by left|right; auto].
Qed.

Lemma remove_first_nodup (x : string * string) (bucket : list (string * string)) :
  NoDup bucket → NoDup (remove_first x bucket).
Proof.
  induction 1 as [|z bucket Hz Hnd IH]; simpl; [constructor|].
  destruct (decide (z = x)); [done|].
  constructor; [|done]. intros H. by apply remove_first_subset in H.
Qed.

Lemma remove_first_gone (x : string * string) (bucket : list (string * string)) :
  NoDup bucket → x ∉ remove_first x bucket.
Proof.
  induction 1 as [|z bucket Hz Hnd IH]; simpl; [apply not_elem_of_nil|].
  destruct (decide (z = x)) as [->|Hne]; [done|].
  intros H. apply elem_of_cons in H as [->|H]; done.
Qed.

Lemma remove_genome_lookup (x : string * string) (prm : rank_index)
    (rank : string) (rank_map : gmap Z (list (string * string))) (taxid : Z)
    (bucket : list (string * string)) :
  remove_genome x prm !! rank = Some rank_map → rank_map !! taxid = Some bucket →
  ∃ rank_map0 bucket0,
    prm !! rank = Some rank_map0 ∧ rank_map0 !! taxid = Some bucket0
    ∧ bucket = remove_first x bucket0.
Proof.
  unfold remove_genome. rewrite lookup_fmap. intros H1 H2.
  destruct (prm !! rank) as [rank_map0|]; simpl in H1; [|discriminate].
  inversion H1; subst rank_map. rewrite lookup_fmap in H2.
  destruct (rank_map0 !! taxid) as [bucket0|] eqn:Hb; simpl in H2; [|discriminate].
  inversion H2; subst. eauto.
Qed.

Lemma in_index_remove_genome (x y : string * string) (prm : rank_index) :
  in_index y (remove_genome x prm) → in_index y prm.
Proof.
  intros (rank & rank_map & taxid & bucket & H1 & H2 & Hy).
  destruct (remove_genome_lookup _ _ _ _ _ _ H1 H2) as (rm0 & b0 & ? & ? & ->).
  exists rank, rm0, taxid, b0. repeat (split; [done|]). by eapply remove_first_subset.
Qed.

Lemma buckets_nodup_remove_genome (x : string * string) (prm : rank_index) :
  buckets_nodup prm → buckets_nodup (remove_genome x prm).
Proof.
  intros Hnd rank rank_map taxid bucket H1 H2.
  destruct (remove_genome_lookup _ _ _ _ _ _ H1 H2) as (rm0 & b0 & ? & ? & ->).
  apply remove_first_nodup. by eapply Hnd.
Qed.

Lemma remove_genome_gone (x : string * string) (prm : rank_index) :
  buckets_nodup prm → ¬ in_index x (remove_genome x prm).
Proof.
  intros Hnd (rank & rank_map & taxid & bucket & H1 & H2 & Hx).
  destruct (remove_genome_lookup _ _ _ _ _ _ H1 H2) as (rm0 & b0 & ? & ? & ->).
  revert Hx. apply remove_first_gone. by eapply Hnd.
Qed.

(** The loop over the genomes that were picked keeps the invariant, when they
    are distinct and none is the genome of a record already. *)
Lemma assign_strains_consumed_once (otu : string) (taxid : Z) (ab ws : list Q)
    (total : Q) (used : list (string * string)) (i : nat)
    (prm prm' : rank_index) (m m' : gmap string assignment) :
  consumed_once prm m → NoDup used →
  (∀ x key r, x ∈ used → m !! key = Some r → genome_of r ≠ x) →
  assign_strains otu taxid ab ws total false used i prm m = Ok (prm', m') →
  consumed_once prm' m'.
Proof.
  revert i prm m. induction used as [|[p genome] rest IH];
    intros i prm m Hinv Hnd Hfresh H; simpl in H.
  - by inversion H; subst.
  - apply bind_ok_inv in H as (w & _ & H).
    apply NoDup_cons in Hnd as [Hx Hnd].
    destruct Hinv as (Hb & Hout & Hdiff).
    revert H. apply IH; [|done|].
    + split; [by apply buckets_nodup_remove_genome|]. split.
      * intros key r Hr. destruct (decide (strain_id otu i = key)) as [<-|Hne].
        -- rewrite lookup_insert_eq in Hr. inversion Hr; subst r.
           by apply remove_genome_gone.
        -- rewrite lookup_insert_ne in Hr by done.
           intros Hin. apply in_index_remove_genome in Hin. by eapply Hout.
      * intros k1 k2 r1 r2 Hk H1 H2.
        destruct (decide (strain_id otu i = k1)) as [<-|Hne1];
          destruct (decide (strain_id otu i = k2)) as [<-|Hne2]; [by destruct Hk| | |].
        -- rewrite lookup_insert_eq in H1. rewrite lookup_insert_ne in H2 by done.
           inversion H1; subst r1. intros Heq. symmetry in Heq. revert Heq.
           eapply Hfresh; [by left|done].
        -- rewrite lookup_insert_eq in H2. rewrite lookup_insert_ne in H1 by done.
           inversion H2; subst r2. eapply Hfresh; [by left|done].
        -- rewrite lookup_insert_ne in H1, H2 by done. by apply (Hdiff k1 k2).
    + intros x key r Hx' Hr. destruct (decide (strain_id otu i = key)) as [<-|Hne].
      * rewrite lookup_insert_eq in Hr. inversion Hr; subst r.
        unfold genome_of; simpl. intros Heq. by subst x.
      * rewrite lookup_insert_ne in Hr by done. eapply Hfresh; [by right|done].
Qed.

Lemma assign_genomes_consumed_once (R : Runtime) (otu : string) (taxid : Z)
    (ab : list Q) (available : list (string * string)) (mu sigma max_strains : Z)
    (st st' : state R) :
  runtime_contract R →
  consumed_once (st_index st) (st_map st) →
  (∀ x, x ∈ available → in_index x (st_index st)) →
  assign_genomes R otu taxid ab available mu sigma max_strains false st = Ok st' →
  consumed_once (st_index st') (st_map st').
Proof.
  intros HR Hinv Havail H. unfold assign_genomes in H.
  apply bind_ok_inv in H as ([n g] & Hn & H).
  apply bind_ok_inv in H as ([used g1] & Hpick & H).
  apply bind_ok_inv in H as ([ws g2] & Hws & H).
  apply bind_ok_inv in H as ([prm' m'] & Hassign & H).
  inversion H; subst st'; clear H. simpl.
  assert (1 ≤ n)%Z as Hn1.
  { unfold strains_to_draw in Hn.
    destruct (decide (max_strains = 0)%Z); [discriminate|].
    apply bind_ok_inv in Hn as ([k g0] & _ & Hn). inversion Hn. lia. }
  destruct (pick_genomes_spec R available n g g1 used HR Hn1 Hpick)
    as (Hnd & Hsub & _).
  revert Hassign. apply assign_strains_consumed_once; [done|done|].
  intros x key r Hx Hr Heq. destruct Hinv as (_ & Hout & _).
  apply (Hout key r Hr). rewrite Heq. auto.
Qed.

Lemma walk_lineage_consumed_once (R : Runtime) (ranks : list string)
    (max_rank : string) (mu sigma max_strains : Z) (otu : string)
    (lin : list string) (ab : list Q) (lineage : list Z)
    (lineage_ranks : gmap Z string) (todo : list Z) (st st' : state R) :
  runtime_contract R →
  consumed_once (st_index st) (st_map st) →
  walk_lineage R ranks max_rank mu sigma max_strains false otu lin ab lineage
    lineage_ranks todo st = Ok st' →
  consumed_once (st_index st') (st_map st').
Proof.
  intros HR. revert st. induction todo as [|taxid todo IH]; intros st Hinv H; simpl in H.
  - by inversion H; subst.
  - apply bind_ok_inv in H as (rank & _ & H).
    apply bind_ok_inv in H as (i & _ & H).
    apply bind_ok_inv in H as (j & _ & H).
    destruct (decide (j < i)); [by inversion H; subst|].
    apply bind_ok_inv in H as (genomes & Hgenomes & H).
    unfold subscript in Hgenomes.
    destruct (st_index st !! rank) as [rank_map|] eqn:Hrm; inversion Hgenomes; subst.
    destruct (genomes !! taxid) as [available|] eqn:Hav.
    + revert H. apply assign_genomes_consumed_once; [done|done|].
      intros x Hx. by exists rank, genomes, taxid, available.
    + revert H. by apply IH.
Qed.

Lemma map_otu_consumed_once (ncbi : NCBITaxa) (R : Runtime) (ranks : list string)
    (max_rank : string) (mu sigma max_strains : Z)
    (entry : string * (list string * list Q)) (st st' : state R) :
  runtime_contract R →
  consumed_once (st_index st) (st_map st) →
  map_otu ncbi R ranks max_rank mu sigma max_strains false entry st = Ok st' →
  consumed_once (st_index st') (st_map st').
Proof.
  intros HR Hinv H. unfold map_otu in H.
  apply bind_ok_inv in H as (lineage & _ & H).
  apply bind_ok_inv in H as (st1 & Hst1 & H).
  revert H. apply walk_lineage_consumed_once; [done|].
  destruct (decide (length lineage = 0)).
  - apply bind_ok_inv in Hst1 as (member & _ & Hst1).
    apply bind_ok_inv in Hst1 as (name & _ & Hst1). by inversion Hst1; subst.
  - by inversion Hst1; subst.
Qed.

(** C2. Without replacement ([replace] is false), on a rank index none of
    whose buckets holds a genome twice: no two records of the assignment have
    the same (source location, genome id) pair, and no bucket of the rank
    index, as the run leaves it, holds the pair of a record. *)
Theorem without_replacement_genome_used_once (ncbi : NCBITaxa) (R : Runtime)
    (profile : list (string * (list string * list Q)))
    (per_rank_map : rank_index) (ranks : list string) (max_rank : string)
    (mu sigma max_strains : Z) (debug fillup : bool) (g g' : rng R)
    (otu_genome_map : gmap string assignment) (per_rank_map' : rank_index)
    (logged : list log_record) :
  runtime_contract R → buckets_nodup per_rank_map →
  map_otus_to_genomes ncbi R profile per_rank_map ranks max_rank mu sigma
    max_strains debug false fillup g
  = Ok (otu_genome_map, per_rank_map', g', logged) →
  (∀ k1 k2 r1 r2, k1 ≠ k2 →
     otu_genome_map !! k1 = Some r1 → otu_genome_map !! k2 = Some r2 →
     (path r1, genome_id r1) ≠ (path r2, genome_id r2))
  ∧ (∀ key r, otu_genome_map !! key = Some r →
       ¬ in_index (path r, genome_id r) per_rank_map').
Proof.
  intros HR Hnd H. unfold map_otus_to_genomes in H.
  apply bind_ok_inv in H as (st & Hst & H). inversion H; subst; clear H.
  assert (consumed_once (st_index st) (st_map st)) as (_ & Hout & Hdiff).
  { revert Hst.
    apply (for_each_invariant (λ st, consumed_once (st_index st) (st_map st))).
    - intros entry s s' _ Hs Hinv. by eapply map_otu_consumed_once.
    - simpl. split; [done|]. split; intros *; by rewrite ?lookup_empty. }
  split; [exact Hdiff|exact Hout].
Qed.

Lemma toy_index_nodup : buckets_nodup Toy.index.
Proof.
  intros rank rank_map taxid bucket H1 H2. unfold Toy.index in H1.
  repeat (rewrite lookup_insert in H1; case_decide;
          [inversion H1; subst rank_map; clear H1|]).
  - by rewrite lookup_empty in H2.
  - rewrite lookup_insert in H2. case_decide; [|by rewrite lookup_empty in H2].
    inversion H2; subst bucket. refine (bool_decide_unpack _ _). vm_compute. exact I.
  - by rewrite lookup_empty in H2.
  - by rewrite lookup_empty in H1.
Qed.

Lemma without_replacement_genome_used_once_witness :
  ∃ otu_genome_map per_rank_map' g' logged,
    map_otus_to_genomes Toy.ncbi Toy.runtime [Toy.otu1; Toy.otu2] Toy.index
      RANKS "family" 1 2 3 false false false (0 : rng Toy.runtime)
    = Ok (otu_genome_map, per_rank_map', g', logged)
    ∧ (∀ k1 k2 r1 r2, k1 ≠ k2 →
         otu_genome_map !! k1 = Some r1 → otu_genome_map !! k2 = Some r2 →
         (path r1, genome_id r1) ≠ (path r2, genome_id r2))
    ∧ (∀ key r, otu_genome_map !! key = Some r →
         ¬ in_index (path r, genome_id r) per_rank_map').
Proof.
  eexists _, _, _, _. split; [vm_compute; reflexivity|].
  eapply (without_replacement_genome_used_once Toy.ncbi Toy.runtime
            [Toy.otu1; Toy.otu2] Toy.index RANKS "family" 1 2 3 false false
            (0 : rng Toy.runtime)).
  - exact toy_runtime_contract.
  - exact toy_index_nodup.
  - vm_compute. reflexivity.
Defined.

(** The two OTUs of the toy profile, without and with replacement. *)
Example toy_run_without_replacement :
  (λ r, (genome_of <$> r.1.1.1 !! "otu1.0", genome_of <$> r.1.1.1 !! "otu2.0",
         r.1.1.2 !! "genus", r.2)) <$>
    (match map_otus_to_genomes Toy.ncbi Toy.runtime [Toy.otu1; Toy.otu2] Toy.index
             RANKS "family" 1 2 3 true false false (0 : rng Toy.runtime)
     with Ok r => Some r | Raise _ => None end)
  = Some (Some ("http://b", "83334"), Some ("http://a", "562"),
          Some (<[561%Z := []]> ∅),
          [LogWarning "Some OTUs could not be mapped";
           LogMapping (NoGenomesOnRank "otu1" "species" 562)]).
Proof. vm_compute. reflexivity. Qed.

Example toy_run_with_replacement :
  (λ r, (genome_of <$> r.1.1.1 !! "otu1.0", genome_of <$> r.1.1.1 !! "otu2.0",
         r.1.1.2 !! "genus")) <$>
    (match map_otus_to_genomes Toy.ncbi Toy.runtime [Toy.otu1; Toy.otu2] Toy.index
             RANKS "family" 1 2 3 false true false (0 : rng Toy.runtime)
     with Ok r => Some r | Raise _ => None end)
  = Some (Some ("http://b", "83334"), Some ("http://b", "83334"),
          Some (<[561%Z := Toy.escherichia]> ∅)).
Proof. vm_compute. reflexivity. Qed.

(** [remove] takes the first occurrence only: a bucket that holds a genome
    twice still holds it after it was used. *)
Example remove_first_of_two :
  remove_genome ("http://a", "562")
    (<["genus" := <[561%Z := [("http://a", "562"); ("http://a", "562")]]> ∅]> ∅)
  = <["genus" := <[561%Z := [("http://a", "562")]]> ∅]> ∅.
Proof. vm_compute. reflexivity. Qed.

(** An OTU that comes to a bucket that was emptied gets no record, and no
    warning; the walk does not go on to the next rank. *)
Example emptied_bucket_stops_walk :
  (λ st', (st_map st', st_warnings st')) <$>
    (match map_otu Toy.ncbi Toy.runtime RANKS "family" 1 2 3 false Toy.otu2
             {| st_rng := (0 : rng Toy.runtime);
                st_index := <["genus" := <[561%Z := []]> ∅]>
                              (<["family" := <[543%Z := Toy.escherichia]> ∅]> ∅);
                st_map := ∅; st_warnings := [] |}
     with Ok st' => Some st' | Raise _ => None end)
  = Some (∅, []).
Proof. vm_compute. reflexivity. Qed.

(** ** The shares of the strains sum to one *)

Lemma foldl_Qplus (a : Q) (l : list Q) : (foldl Qplus a l == a + sum l)%Q.
Proof.
  revert a. induction l as [|x l IH]; intros a; unfold sum; simpl.
  - ring.
  - rewrite (IH (a + x)%Q), (IH (0 + x)%Q). unfold sum. ring.
Qed.

Lemma sum_cons (x : Q) (l : list Q) : (sum (x :: l) == x + sum l)%Q.
Proof. unfold sum at 1. simpl. rewrite foldl_Qplus. ring. Qed.

Lemma sum_nonneg (l : list Q) : Forall (λ w, (0 < w)%Q) l → (0 <= sum l)%Q.
Proof.
  induction 1 as [|x l Hx Hl IH].
  - unfold sum. simpl. apply Qle_refl.
  - rewrite sum_cons. apply Qlt_le_weak in Hx.
    replace 0%Q with (0 + 0)%Q by reflexivity. by apply Qplus_le_compat.
Qed.

Lemma sum_pos (l : list Q) : Forall (λ w, (0 < w)%Q) l → l ≠ [] → (0 < sum l)%Q.
Proof.
  intros Hl Hne. destruct Hl as [|x l Hx Hl]; [done|].
  rewrite sum_cons. apply sum_nonneg in Hl.
  apply Qlt_le_trans with (x + 0)%Q.
  - by rewrite Qplus_0_r.
  - apply Qplus_le_compat; [apply Qle_refl|done].
Qed.

Lemma sum_shares (c a : Q) (l : list Q) :
  (sum ((λ w, w / c * a) <$> l) == sum l / c * a)%Q.
Proof.
  induction l as [|x l IH].
  - unfold sum. simpl. unfold Qdiv. ring.
  - rewrite fmap_cons, !sum_cons, IH. unfold Qdiv. ring.
Qed.

(** The shares [w / sum ws] of an abundance [a] add up to [a]. *)
Lemma shares_sum_to_abundance (a : Q) (ws : list Q) :
  Forall (λ w, (0 < w)%Q) ws → ws ≠ [] →
  (sum ((λ w, w / sum ws * a) <$> ws) == a)%Q.
Proof.
  intros Hpos Hne. rewrite sum_shares.
  pose proof (sum_pos ws Hpos Hne) as Hs.
  field. intros H0. rewrite H0 in Hs. by apply Qlt_irrefl in Hs.
Qed.

(** ** The records of every OTU of a run *)

Lemma assigned_nothing (otu : string) (taxid : Z) (ab : list Q)
    (m : gmap string assignment) : assigned otu taxid ab [] [] m m.
Proof.
  split; [done|]. split; [constructor|]. split; [|done].
  intros j x Hj. by rewrite lookup_nil in Hj.
Qed.

Lemma walk_lineage_assigned (R : Runtime) (ranks : list string) (max_rank : string)
    (mu sigma max_strains : Z) (replace : bool) (otu : string) (lin : list string)
    (ab : list Q) (lineage : list Z) (lineage_ranks : gmap Z string)
    (todo : list Z) (st st' : state R) :
  runtime_contract R →
  walk_lineage R ranks max_rank mu sigma max_strains replace otu lin ab lineage
    lineage_ranks todo st = Ok st' →
  ∃ taxid used ws, assigned otu taxid ab used ws (st_map st) (st_map st').
Proof.
  intros HR. revert st. induction todo as [|taxid todo IH]; intros st H; simpl in H.
  - inversion H; subst. exists 0%Z, [], []. apply assigned_nothing.
  - apply bind_ok_inv in H as (rank & _ & H).
    apply bind_ok_inv in H as (i & _ & H).
    apply bind_ok_inv in H as (j & _ & H).
    destruct (decide (j < i)) as [|_].
    { inversion H; subst. exists 0%Z, [], []. apply assigned_nothing. }
    apply bind_ok_inv in H as (genomes & _ & H).
    destruct (genomes !! taxid) as [available|].
    + destruct (assign_genomes_spec R _ _ _ _ _ _ _ _ _ _ HR H)
        as (n & g & used & ws & _ & _ & _ & _ & _ & _ & Ha & _).
      by exists taxid, used, ws.
    + by apply IH in H.
Qed.

Lemma map_otu_assigned (ncbi : NCBITaxa) (R : Runtime) (ranks : list string)
    (max_rank : string) (mu sigma max_strains : Z) (replace : bool)
    (entry : string * (list string * list Q)) (st st' : state R) :
  runtime_contract R →
  map_otu ncbi R ranks max_rank mu sigma max_strains replace entry st = Ok st' →
  ∃ taxid used ws,
    assigned entry.1 taxid entry.2.2 used ws (st_map st) (st_map st').
Proof.
  intros HR H. unfold map_otu in H.
  apply bind_ok_inv in H as (lineage & _ & H).
  apply bind_ok_inv in H as (st1 & Hst1 & H).
  assert (st_map st1 = st_map st) as <-.
  { destruct (decide (length lineage = 0)).
    - apply bind_ok_inv in Hst1 as (member & _ & Hst1).
      apply bind_ok_inv in Hst1 as (name & _ & Hst1). by inversion Hst1; subst.
    - by inversion Hst1; subst. }
  by eapply walk_lineage_assigned.
Qed.

(** A loop, with an invariant on the items that were visited. *)
Lemma for_each_visited {A S : Type} (P : list A → S → Prop)
    (body : A → S → result S) (xs : list A) (s s' : S) :
  P [] s →
  (∀ visited x rest t t', xs = visited ++ x :: rest →
     P visited t → body x t = Ok t' → P (visited ++ [x]) t') →
  for_each body xs s = Ok s' → P xs s'.
Proof.
  intros H0 Hstep.
  assert (∀ todo visited t, xs = visited ++ todo → P visited t →
            for_each body todo t = Ok s' → P xs s') as Hgen.
  { induction todo as [|x todo IH]; intros visited t Hxs Hv H; simpl in H.
    - inversion H; subst. by rewrite app_nil_r.
    - apply bind_ok_inv in H as (t1 & H1 & H).
      apply (IH (visited ++ [x]) t1); [by rewrite <- app_assoc| |done].
      by eapply Hstep. }
  by apply (Hgen xs [] s).
Qed.

Lemma visited_done_step (visited : list (string * (list string * list Q)))
    (entry : string * (list string * list Q)) (taxid : Z)
    (used : list (string * string)) (ws : list Q) (m m' : gmap string assignment) :
  entry.1 ∉ visited.*1 →
  visited_done visited m →
  assigned entry.1 taxid entry.2.2 used ws m m' →
  visited_done (visited ++ [entry]) m'.
Proof.
  intros Hnew [Hdone Hkeys] (Hlen & Hpos & Hrec & Hother).
  assert (∀ e j i, e ∈ visited → strain_id e.1 j ≠ strain_id entry.1 i) as Hne.
  { intros e j i He Heq. apply strain_id_inj in Heq as [Heq _].
    apply Hnew. rewrite <- Heq. by apply list_elem_of_fmap_2. }
  split.
  - intros e He. apply elem_of_app in He as [He|He].
    + destruct (Hdone e He) as (used' & ws' & Hl' & Hp' & Hr' & Hn').
      exists used', ws'. split; [done|]. split; [done|]. split.
      * intros j x Hj. destruct (Hr' j x Hj) as (t & w & Hw & Hm).
        exists t, w. split; [done|]. rewrite Hother; [done|]. intros i _. by apply Hne.
      * intros j Hj. rewrite Hother; [by apply Hn'|]. intros i _. by apply Hne.
    + apply list_elem_of_singleton in He. subst e.
      exists used, ws. split; [done|]. split; [done|]. split.
      * intros j x Hj. destruct (Hrec j x Hj) as (w & Hw & Hm). by exists taxid, w.
      * intros j Hj. rewrite Hother.
        -- destruct (m !! strain_id entry.1 j) eqn:Hm; [|done].
           destruct (Hkeys (strain_id entry.1 j)) as (e & i & He & Heq);
             [by rewrite Hm|].
           symmetry in Heq. by apply Hne in Heq.
        -- intros i Hi Heq. apply strain_id_inj in Heq. lia.
  - intros key Hkey.
    destruct (decide (key ∈ strain_id entry.1 <$> seq 0 (length used))) as [Hin|Hout].
    + apply list_elem_of_fmap in Hin as (i & -> & _).
      exists entry, i. split; [|done]. apply elem_of_app. right. by left.
    + rewrite Hother in Hkey.
      * destruct (Hkeys key Hkey) as (e & i & He & Heq).
        exists e, i. split; [|done]. apply elem_of_app. by left.
      * intros i Hi Heq. apply Hout. subst key.
        apply list_elem_of_fmap_2, elem_of_seq. lia.
Qed.

Lemma map_otus_visited_done (ncbi : NCBITaxa) (R : Runtime) (ranks : list string)
    (max_rank : string) (mu sigma max_strains : Z) (replace : bool)
    (profile : list (string * (list string * list Q))) (st st' : state R) :
  runtime_contract R → NoDup profile.*1 → st_map st = ∅ →
  for_each (map_otu ncbi R ranks max_rank mu sigma max_strains replace) profile st
  = Ok st' →
  visited_done profile (st_map st').
Proof.
  intros HR Hnd Hempty.
  apply (for_each_visited (λ visited t, visited_done visited (st_map t))).
  - rewrite Hempty. split.
    + intros e He. by apply elem_of_nil in He.
    + intros key [r Hr]. by rewrite lookup_empty in Hr.
  - intros visited entry rest t t' Hsplit Hv Hstep.
    destruct (map_otu_assigned _ _ _ _ _ _ _ _ _ _ _ HR Hstep) as (taxid & used & ws & Ha).
    apply (visited_done_step visited entry taxid used ws (st_map t)); [|done|done].
    rewrite Hsplit, fmap_app, fmap_cons in Hnd.
    apply NoDup_app in Hnd as (_ & Hnd & _).
    intros Hin. apply (Hnd _ Hin). by left.
Qed.

Lemma otu_done_total (m : gmap string assignment) (otu : string) (ab : list Q)
    (used : list (string * string)) (ws : list Q) (sample : nat) (a : Q) :
  otu_done m otu ab used ws → used ≠ [] → ab !! sample = Some a →
  (otu_total m otu (length used) sample == a)%Q.
Proof.
  intros (Hlen & Hpos & Hrec & _) Hne Ha. unfold otu_total.
  assert (strain_abundance m otu sample <$> seq 0 (length used)
          = (λ w, w / sum ws * a)%Q <$> ws) as ->.
  { apply list_eq. intros i. rewrite !list_lookup_fmap.
    destruct (decide (i < length used)) as [Hi|Hi].
    - rewrite lookup_seq_lt by done. simpl.
      destruct (lookup_lt_is_Some_2 used i Hi) as [x Hx].
      destruct (Hrec i x Hx) as (t & w & Hw & Hm).
      rewrite Hw. simpl. unfold strain_abundance. rewrite Hm. simpl.
      by rewrite list_lookup_fmap, Ha.
    - rewrite lookup_seq_ge by lia. by rewrite (lookup_ge_None_2 ws) by lia. }
  apply shares_sum_to_abundance; [done|].
  intros ->. by destruct used.
Qed.

(** C1. In the assignment of a run over a profile (a dict: no OTU twice),
    every OTU has the records [otu.0 .. otu.(n-1)] for some [n] and no
    other, and when it has a record, the abundances of its records at a
    sample add up to the abundance of the OTU at that sample. The numbers
    are rationals: the equality is exact, and what rounding does to it in
    floating point is not modelled. *)
Theorem strain_abundances_sum_to_otu_abundance (ncbi : NCBITaxa) (R : Runtime)
    (profile : list (string * (list string * list Q)))
    (per_rank_map : rank_index) (ranks : list string) (max_rank : string)
    (mu sigma max_strains : Z) (debug replace fillup : bool) (g g' : rng R)
    (otu_genome_map : gmap string assignment) (per_rank_map' : rank_index)
    (logged : list log_record) :
  runtime_contract R → NoDup profile.*1 →
  map_otus_to_genomes ncbi R profile per_rank_map ranks max_rank mu sigma
    max_strains debug replace fillup g
  = Ok (otu_genome_map, per_rank_map', g', logged) →
  ∀ otu lin ab, (otu, (lin, ab)) ∈ profile →
    ∃ n, (∀ i, is_Some (otu_genome_map !! strain_id otu i) ↔ i < n)
         ∧ (0 < n → ∀ sample a, ab !! sample = Some a →
              (otu_total otu_genome_map otu n sample == a)%Q).
Proof.
  intros HR Hnd H otu lin ab Hin. unfold map_otus_to_genomes in H.
  apply bind_ok_inv in H as (st & Hst & H). inversion H; subst; clear H.
  apply map_otus_visited_done in Hst as [Hdone _]; [|done|done|done].
  destruct (Hdone _ Hin) as (used & ws & Hd). simpl in Hd.
  exists (length used). split.
  - destruct Hd as (_ & _ & Hrec & Hnone). intros i. split.
    + intros [r Hr]. destruct (decide (i < length used)) as [|Hge]; [done|].
      rewrite Hnone in Hr by lia. discriminate.
    + intros Hi. destruct (lookup_lt_is_Some_2 used i Hi) as [x Hx].
      destruct (Hrec i x Hx) as (t & w & _ & Hm). by rewrite Hm.
  - intros Hn sample a Ha. apply (otu_done_total _ _ ab used ws); [done| |done].
    intros ->. simpl in Hn. lia.
Qed.

Lemma strain_abundances_sum_to_otu_abundance_witness :
  ∃ otu_genome_map per_rank_map' g' logged,
    map_otus_to_genomes Toy.ncbi Toy.runtime [Toy.otu1; Toy.otu2] Toy.index
      RANKS "family" 1 2 3 false false false (0 : rng Toy.runtime)
    = Ok (otu_genome_map, per_rank_map', g', logged)
    ∧ ∀ otu lin ab, (otu, (lin, ab)) ∈ [Toy.otu1; Toy.otu2] →
        ∃ n, (∀ i, is_Some (otu_genome_map !! strain_id otu i) ↔ i < n)
             ∧ (0 < n → ∀ sample a, ab !! sample = Some a →
                  (otu_total otu_genome_map otu n sample == a)%Q).
Proof.
  eexists _, _, _, _. split; [vm_compute; reflexivity|].
  eapply (strain_abundances_sum_to_otu_abundance Toy.ncbi Toy.runtime
            [Toy.otu1; Toy.otu2] Toy.index RANKS "family" 1 2 3 false false false
            (0 : rng Toy.runtime)).
  - exact toy_runtime_contract.
  - refine (bool_decide_unpack _ _). vm_compute. exact I.
  - vm_compute. reflexivity.
Defined.

(** Two strains for one OTU: with four strains allowed and three genomes the
    toy generator draws two, with the weights 4 and 5. *)
Example toy_two_strains :
  (λ st', (abundances <$> st_map st' !! "otu1.0",
           abundances <$> st_map st' !! "otu1.1",
           Qred (otu_total (st_map st') "otu1" 2 0),
           Qred (otu_total (st_map st') "otu1" 2 1))) <$>
    (match map_otu Toy.ncbi Toy.runtime RANKS "family" 1 2 4 false Toy.otu1
             {| st_rng := (1 : rng Toy.runtime);
                st_index := <["species" := ∅]>
                  (<["genus" := <[561%Z := Toy.escherichia ++ [("/data/k12", "511145")]]> ∅]> ∅);
                st_map := ∅; st_warnings := [] |}
     with Ok st' => Some st' | Raise _ => None end)
  = Some (Some [(4 / (0 + 4 + 5) * 10)%Q; (4 / (0 + 4 + 5) * 3)%Q],
          Some [(5 / (0 + 4 + 5) * 10)%Q; (5 / (0 + 4 + 5) * 3)%Q],
          10%Q, 3%Q).
Proof. vm_compute. reflexivity. Qed.

(** ** The index that [get_genomes_per_rank] builds holds no genome twice

    This is where the rank index of a run comes from, and what the property
    of a run without replacement asks of it: the ids of a lineage are
    distinct, and so are the ids of the genomes of the catalog (the keys of
    a dict). *)

Lemma index_genome_at_indexed_from (id2rank : gmap Z string) (visited : list string)
    (g : string) (entry : string * list string) (seen : list Z) (t : Z)
    (m m' : rank_index) :
  g ∉ visited → t ∉ seen →
  indexed_from visited g seen m →
  index_genome_at id2rank g entry t m = Ok m' →
  indexed_from visited g (seen ++ [t]) m'.
Proof.
  intros Hg Ht [Hnd Hfrom] H. unfold index_genome_at in H.
  apply bind_ok_inv in H as (rank & _ & H).
  assert (indexed_from visited g (seen ++ [t]) m) as Hsame.
  { split; [done|]. intros r rm t' b x H1 H2 Hx.
    destruct (Hfrom r rm t' b x H1 H2 Hx) as [|[? ?]]; [by left|right].
    split; [done|]. apply elem_of_app. by left. }
  destruct (m !! rank) as [rank_map|] eqn:Hrm; [|by inversion H; subst].
  apply bind_ok_inv in H as (p & _ & H).
  assert (∀ bucket, rank_map !! t = Some bucket → (p, g) ∉ bucket) as Hfresh.
  { intros bucket Hb Hin.
    destruct (Hfrom rank rank_map t bucket (p, g) Hrm Hb Hin) as [|[_ ?]]; done. }
  assert (∀ bucket', (∀ bucket, rank_map !! t = Some bucket → bucket' = bucket ++ [(p, g)]) →
            (rank_map !! t = None → bucket' = [(p, g)]) →
            indexed_from visited g (seen ++ [t])
              (<[rank := <[t := bucket']> rank_map]> m)) as Hnew.
  { intros bucket' Hsome Hnone. split.
    - intros r rm t' b H1 H2.
      destruct (decide (rank = r)) as [<-|Hr];
        [rewrite lookup_insert_eq in H1|rewrite lookup_insert_ne in H1 by done;
                                         by eapply Hnd].
      inversion H1; subst rm.
      destruct (decide (t = t')) as [<-|Hne];
        [rewrite lookup_insert_eq in H2|rewrite lookup_insert_ne in H2 by done;
                                         by eapply Hnd].
      inversion H2; subst b.
      destruct (rank_map !! t) as [bucket|] eqn:Hb.
      + rewrite (Hsome bucket eq_refl). apply NoDup_app.
        split; [by eapply Hnd|]. split; [|apply NoDup_singleton].
        intros x Hx Hx'. apply list_elem_of_singleton in Hx'. subst x.
        by apply (Hfresh bucket).
      + rewrite (Hnone eq_refl). apply NoDup_singleton.
    - intros r rm t' b x H1 H2 Hx.
      destruct (decide (rank = r)) as [<-|Hr];
        [rewrite lookup_insert_eq in H1|rewrite lookup_insert_ne in H1 by done;
                                         by eapply (proj2 Hsame)].
      inversion H1; subst rm.
      destruct (decide (t = t')) as [<-|Hne];
        [rewrite lookup_insert_eq in H2|rewrite lookup_insert_ne in H2 by done;
                                         by eapply (proj2 Hsame)].
      inversion H2; subst b.
      assert (x = (p, g) ∨ ∃ bucket, rank_map !! t = Some bucket ∧ x ∈ bucket)
        as [->|(bucket & Hb & Hxb)].
      { destruct (rank_map !! t) as [bucket|] eqn:Hb.
        - rewrite (Hsome bucket eq_refl) in Hx. apply elem_of_app in Hx as [Hx|Hx].
          + right. eauto.
          + left. by apply list_elem_of_singleton in Hx.
        - rewrite (Hnone eq_refl) in Hx. left. by apply list_elem_of_singleton in Hx. }
      + right. split; [done|]. apply elem_of_app. right. by left.
      + by eapply (proj2 Hsame). }
  destruct (rank_map !! t) as [bucket|] eqn:Hb; inversion H; subst m'.
  - apply Hnew; [by intros ? [= <-]|done].
  - apply Hnew; [done|done].
Qed.

Lemma index_genome_indexed_from (ncbi : NCBITaxa) (visited : list string)
    (g : string * (string * list string)) (m m' : rank_index) :
  g.1 ∉ visited → NoDup (get_lineage ncbi g.1) →
  indexed_from visited g.1 [] m →
  index_genome ncbi g m = Ok m' →
  indexed_from (visited ++ [g.1]) g.1 [] m'.
Proof.
  intros Hg Hnd Hm H. unfold index_genome in H.
  assert (indexed_from visited g.1 (get_lineage ncbi g.1) m') as [Hb Hfrom].
  { revert H.
    apply (for_each_visited (λ seen m, indexed_from visited g.1 seen m)); [done|].
    intros seen t rest s s' Hsplit Hs Hstep.
    eapply index_genome_at_indexed_from; [done| |done|done].
    rewrite Hsplit in Hnd. apply NoDup_app in Hnd as (_ & Hnd & _).
    intros Hin. apply (Hnd _ Hin). by left. }
  split; [done|]. intros r rm t b x H1 H2 Hx. left.
  apply elem_of_app.
  destruct (Hfrom r rm t b x H1 H2 Hx) as [|[-> _]]; [by left|right; by left].
Qed.

Lemma init_per_rank_map_empty (ranks : list string) (max_rank : string)
    (todo : list string) (m m' : rank_index) :
  (∀ rank rank_map, m !! rank = Some rank_map → rank_map = ∅) →
  init_per_rank_map ranks max_rank todo m = Ok m' →
  ∀ rank rank_map, m' !! rank = Some rank_map → rank_map = ∅.
Proof.
  revert m. induction todo as [|r todo IH]; intros m Hm H; simpl in H.
  - by inversion H; subst.
  - apply bind_ok_inv in H as (i & _ & H).
    apply bind_ok_inv in H as (j & _ & H).
    destruct (decide (j < i)); [by inversion H; subst|].
    revert H. apply IH. intros rank rank_map.
    destruct (decide (r = rank)) as [<-|Hne].
    + rewrite lookup_insert_eq. by intros [= <-].
    + rewrite lookup_insert_ne by done. apply Hm.
Qed.

(** X10. When the ids of the genomes of the catalog are distinct and the
    taxonomy gives lineages without a repeated id, no bucket of the index
    that is built holds a (location, genome id) pair twice. *)
Lemma get_genomes_per_rank_buckets_nodup (ncbi : NCBITaxa)
    (genomes_map : list (string * (string * list string)))
    (ranks : list string) (max_rank : string) (m : rank_index) :
  NoDup genomes_map.*1 →
  (∀ g, g ∈ genomes_map → NoDup (get_lineage ncbi g.1)) →
  get_genomes_per_rank ncbi genomes_map ranks max_rank = Ok m →
  buckets_nodup m.
Proof.
  intros Hkeys Hlin H. unfold get_genomes_per_rank in H.
  apply bind_ok_inv in H as (m0 & H0 & H).
  assert (∀ rank rank_map, m0 !! rank = Some rank_map → rank_map = ∅) as Hempty.
  { revert H0. apply init_per_rank_map_empty. intros ??. by rewrite lookup_empty. }
  assert (indexed_from genomes_map.*1 "" [] m) as [Hnd _]; [|done].
  revert H.
  apply (for_each_visited (λ visited m, indexed_from visited.*1 "" [] m)).
  - split.
    + intros r rm t b H1 H2. rewrite (Hempty r rm H1) in H2.
      by rewrite lookup_empty in H2.
    + intros r rm t b x H1 H2. rewrite (Hempty r rm H1) in H2.
      by rewrite lookup_empty in H2.
  - intros visited g rest s s' Hsplit [Hb Hfrom] Hstep.
    assert (g.1 ∉ visited.*1) as Hg.
    { rewrite Hsplit, fmap_app, fmap_cons in Hkeys.
      apply NoDup_app in Hkeys as (_ & Hk & _).
      intros Hin. apply (Hk _ Hin). by left. }
    assert (indexed_from (visited.*1 ++ [g.1]) g.1 [] s') as [Hb' Hfrom'].
    { apply (index_genome_indexed_from ncbi visited.*1 g s); [done| | |done].
      - apply Hlin. rewrite Hsplit. apply elem_of_app. right. by left.
      - split; [done|]. intros r rm t b x H1 H2 Hx.
        destruct (Hfrom r rm t b x H1 H2 Hx) as [|[_ Hnil]]; [by left|].
        by apply elem_of_nil in Hnil. }
    rewrite fmap_app. split; [done|].
    intros r rm t b x H1 H2 Hx.
    destruct (Hfrom' r rm t b x H1 H2 Hx) as [|[_ Hnil]]; [by left|].
    by apply elem_of_nil in Hnil.
Qed.

(** ** [get_genomes_per_rank] returns *)

Lemma index_found (ranks : list string) (rank : string) :
  rank ∈ ranks → ∃ i, index ranks rank = Ok i.
Proof.
  induction ranks as [|r ranks IH]; intros H; simpl.
  - by apply elem_of_nil in H.
  - destruct (decide (r = rank)); [eauto|].
    apply elem_of_cons in H as [->|H]; [done|].
    destruct (IH H) as [i ->]. simpl. eauto.
Qed.

Lemma init_per_rank_map_returns (ranks : list string) (max_rank : string)
    (todo : list string) (m : rank_index) :
  max_rank ∈ ranks → (∀ r, r ∈ todo → r ∈ ranks) →
  ∃ m', init_per_rank_map ranks max_rank todo m = Ok m'.
Proof.
  intros Hmax. revert m. induction todo as [|r todo IH]; intros m Htodo; simpl.
  - eauto.
  - destruct (index_found ranks r) as [i ->]; [apply Htodo; by left|].
    destruct (index_found ranks max_rank Hmax) as [j ->]. simpl.
    destruct (decide (j < i)); [eauto|].
    apply IH. intros r' Hr'. apply Htodo. by right.
Qed.

Lemma for_each_returns {A S : Type} (body : A → S → result S) (xs : list A) (s : S) :
  (∀ x t, x ∈ xs → ∃ t', body x t = Ok t') → ∃ s', for_each body xs s = Ok s'.
Proof.
  revert s. induction xs as [|x xs IH]; intros s H; simpl; [eauto|].
  destruct (H x s) as [t ->]; [by left|]. simpl.
  apply IH. intros y t' Hy. apply H. by right.
Qed.

(** X11. The index is built, with no exception, whenever the maximum rank
    is one of the ranks, the taxonomy knows the rank of every id of the
    lineages it gives, and every genome of the catalog has a location. *)
Lemma get_genomes_per_rank_returns (ncbi : NCBITaxa)
    (genomes_map : list (string * (string * list string)))
    (ranks : list string) (max_rank : string) :
  max_rank ∈ ranks →
  (∀ g, g ∈ genomes_map →
     g.2.2 ≠ []
     ∧ ∀ t, t ∈ get_lineage ncbi g.1 →
         is_Some (get_rank ncbi (get_lineage ncbi g.1) !! t)) →
  ∃ m, get_genomes_per_rank ncbi genomes_map ranks max_rank = Ok m.
Proof.
  intros Hmax Hg. unfold get_genomes_per_rank.
  destruct (init_per_rank_map_returns ranks max_rank ranks ∅ Hmax) as [m0 ->]; [done|].
  rewrite bind_ok. apply for_each_returns. intros g m Hin.
  destruct (Hg g Hin) as [Hloc Hrank]. unfold index_genome.
  apply for_each_returns. intros t m1 Ht.
  destruct (Hrank t Ht) as [rank Hr]. unfold index_genome_at, subscript.
  rewrite Hr, bind_ok. destruct (m1 !! rank) as [rank_map|]; [|eauto].
  unfold item. destruct (g.2.2) as [|p locs] eqn:Hl; [done|]. simpl.
  destruct (rank_map !! t); eauto.
Qed.

(** * Part III: further properties of the module *)

(** ** [read_taxonomic_profile]: the profile that is read *)

(** The profile after the loop over the observations. *)
Lemma add_otus_lookup (table : BiomTable) (k : Z) (ids : list string)
    (acc : gmap string (list string * list Q)) (otu : string) :
  foldl (add_otu table k) acc ids !! otu
  = if decide (otu ∈ ids)
    then Some (split_taxonomy (taxonomy table otu),
               get_value_by_ids table otu <$> slice_to k (sample_ids table))
    else acc !! otu.
Proof.
  revert acc. induction ids as [|id ids IH]; intros acc; simpl.
  - destruct (decide (otu ∈ [])) as [H|_]; [by apply elem_of_nil in H|done].
  - rewrite IH. unfold add_otu.
    destruct (decide (otu ∈ ids)) as [Hin|Hout].
    + destruct (decide (otu ∈ id :: ids)) as [_|Hn]; [done|].
      destruct Hn. by right.
    + destruct (decide (id = otu)) as [->|Hne].
      * rewrite lookup_insert_eq.
        destruct (decide (otu ∈ otu :: ids)) as [_|Hn]; [done|]. destruct Hn. by left.
      * rewrite lookup_insert_ne by done.
        destruct (decide (otu ∈ id :: ids)) as [Hin|_]; [|done].
        apply elem_of_cons in Hin as [->|Hin]; done.
Qed.

(** What the reader returns, for the sample count it settles on. *)
Lemma read_taxonomic_profile_returns (table : BiomTable) (cfg : config)
    (opts : gmap string string) (no_samples : option Z) :
  cfg !! "Main" = Some opts →
  read_taxonomic_profile table cfg no_samples
  = Ok (foldl (add_otu table (effective_samples (sample_ids table) no_samples).1)
          ∅ (observation_ids table),
        <["Main" := <["number_of_samples"
                      := pretty (effective_samples (sample_ids table) no_samples).1]> opts]> cfg,
        (effective_samples (sample_ids table) no_samples).2).
Proof.
  intros Hmain. unfold read_taxonomic_profile.
  destruct (effective_samples (sample_ids table) no_samples) as [k logged].
  unfold config_set. by rewrite Hmain.
Qed.

Lemma config_get_set (section option value : string) (opts : gmap string string)
    (cfg : config) :
  config_get section option (<[section := <[option := value]> opts]> cfg) = Ok value.
Proof. unfold config_get. by rewrite !lookup_insert_eq. Qed.

(** X1. Without an override of the sample count, or with an override that is
    the number of samples of the table, the reader logs nothing; the
    configuration gets the number of samples of the table, the profile has
    exactly the observations of the table, and every OTU has its lineage split
    at ";" and its values at all the samples, in the order of the table. *)
Theorem read_taxonomic_profile_all_samples (table : BiomTable) (cfg : config)
    (no_samples : option Z) :
  is_Some (cfg !! "Main") →
  no_samples = None ∨ no_samples = Some (Z.of_nat (length (sample_ids table))) →
  ∃ profile cfg',
    read_taxonomic_profile table cfg no_samples = Ok (profile, cfg', [])
    ∧ config_get "Main" "number_of_samples" cfg'
      = Ok (pretty (Z.of_nat (length (sample_ids table))))
    ∧ ∀ otu,
        profile !! otu
        = if decide (otu ∈ observation_ids table)
          then Some (split_taxonomy (taxonomy table otu),
                     get_value_by_ids table otu <$> sample_ids table)
          else None.
Proof.
  intros [opts Hmain] Hno.
  rewrite (read_taxonomic_profile_returns table cfg opts no_samples Hmain).
  assert (effective_samples (sample_ids table) no_samples
          = (Z.of_nat (length (sample_ids table)), [])) as ->.
  { unfold effective_samples.
    assert (default (Z.of_nat (length (sample_ids table))) no_samples
            = Z.of_nat (length (sample_ids table))) as -> by (by destruct Hno as [->| ->]).
    destruct (decide (_ ∧ _)) as [[Hne _]|_]; done. }
  simpl. eexists _, _. split; [reflexivity|]. split; [apply config_get_set|].
  intros otu. rewrite add_otus_lookup, lookup_empty.
  rewrite slice_to_nonneg by lia. by rewrite Nat2Z.id, firstn_all.
Qed.

Lemma read_taxonomic_profile_all_samples_witness :
  ∃ profile cfg',
    read_taxonomic_profile Toy.table Toy.cfg None = Ok (profile, cfg', [])
    ∧ config_get "Main" "number_of_samples" cfg'
      = Ok (pretty (Z.of_nat (length (sample_ids Toy.table))))
    ∧ ∀ otu,
        profile !! otu
        = if decide (otu ∈ observation_ids Toy.table)
          then Some (split_taxonomy (taxonomy Toy.table otu),
                     get_value_by_ids Toy.table otu <$> sample_ids Toy.table)
          else None.
Proof.
  apply (read_taxonomic_profile_all_samples Toy.table Toy.cfg None).
  - vm_compute. eauto.
  - by left.
Defined.

(** X2. An override of 1 is taken as it is, for a table of any number of
    samples, and nothing is logged: the configuration gets 1 and every OTU
    keeps its value at the first sample only (no value when the table has no
    sample). *)
Theorem read_taxonomic_profile_one_sample (table : BiomTable) (cfg : config) :
  is_Some (cfg !! "Main") →
  ∃ profile cfg',
    read_taxonomic_profile table cfg (Some 1%Z) = Ok (profile, cfg', [])
    ∧ config_get "Main" "number_of_samples" cfg' = Ok "1"
    ∧ ∀ otu, otu ∈ observation_ids table →
        profile !! otu
        = Some (split_taxonomy (taxonomy table otu),
                get_value_by_ids table otu <$> take 1 (sample_ids table)).
Proof.
  intros [opts Hmain].
  rewrite (read_taxonomic_profile_returns table cfg opts (Some 1%Z) Hmain).
  assert (effective_samples (sample_ids table) (Some 1%Z) = (1%Z, [])) as ->.
  { unfold effective_samples. simpl.
    destruct (decide (_ ∧ _)) as [[_ Hne]|_]; done. }
  simpl. eexists _, _. split; [reflexivity|]. split; [apply config_get_set|].
  intros otu Hin. rewrite add_otus_lookup.
  destruct (decide (otu ∈ observation_ids table)); done.
Qed.

Lemma read_taxonomic_profile_one_sample_witness :
  ∃ profile cfg',
    read_taxonomic_profile Toy.table Toy.cfg (Some 1%Z) = Ok (profile, cfg', [])
    ∧ config_get "Main" "number_of_samples" cfg' = Ok "1"
    ∧ ∀ otu, otu ∈ observation_ids Toy.table →
        profile !! otu
        = Some (split_taxonomy (taxonomy Toy.table otu),
                get_value_by_ids Toy.table otu <$> take 1 (sample_ids Toy.table)).
Proof.
  apply (read_taxonomic_profile_one_sample Toy.table Toy.cfg).
  vm_compute. eauto.
Defined.

(** X3. A negative override is not refused: two warnings are logged, the
    configuration gets the negative number, and every OTU keeps the values of
    all but the last [-n] samples, so a vector whose length is not the count
    of the configuration. *)
Theorem read_taxonomic_profile_negative_override (table : BiomTable) (cfg : config)
    (n : Z) :
  is_Some (cfg !! "Main") → (n < 0)%Z →
  ∃ profile cfg' w1 w2,
    read_taxonomic_profile table cfg (Some n) = Ok (profile, cfg', [w1; w2])
    ∧ config_get "Main" "number_of_samples" cfg' = Ok (pretty n)
    ∧ ∀ otu, otu ∈ observation_ids table →
        ∃ lin ab,
          profile !! otu = Some (lin, ab)
          ∧ ab = get_value_by_ids table otu
                   <$> take (length (sample_ids table) - Z.to_nat (- n))
                         (sample_ids table)
          ∧ length ab = length (sample_ids table) - Z.to_nat (- n).
Proof.
  intros [opts Hmain] Hn.
  rewrite (read_taxonomic_profile_returns table cfg opts (Some n) Hmain).
  unfold effective_samples. simpl.
  destruct (decide (n ≠ Z.of_nat (length (sample_ids table)) ∧ n ≠ 1%Z)) as [_|Hno];
    [|destruct Hno; lia].
  destruct (decide (Z.of_nat (length (sample_ids table)) < n)%Z); [lia|].
  simpl. eexists _, _, _, _. split; [reflexivity|]. split; [apply config_get_set|].
  intros otu Hin. rewrite add_otus_lookup.
  destruct (decide (otu ∈ observation_ids table)); [|done].
  eexists _, _. split; [reflexivity|].
  unfold slice_to. destruct (decide (0 ≤ n)%Z); [lia|].
  replace (Z.to_nat (Z.of_nat (length (sample_ids table)) + n))
    with (length (sample_ids table) - Z.to_nat (- n)) by lia.
  split; [done|]. rewrite length_fmap, length_take. lia.
Qed.

Lemma read_taxonomic_profile_negative_override_witness :
  ∃ profile cfg' w1 w2,
    read_taxonomic_profile Toy.table Toy.cfg (Some (-1)%Z)
    = Ok (profile, cfg', [w1; w2])
    ∧ config_get "Main" "number_of_samples" cfg' = Ok (pretty (-1)%Z)
    ∧ ∀ otu, otu ∈ observation_ids Toy.table →
        ∃ lin ab,
          profile !! otu = Some (lin, ab)
          ∧ ab = get_value_by_ids Toy.table otu
                   <$> take (length (sample_ids Toy.table) - Z.to_nat (- (-1)))
                         (sample_ids Toy.table)
          ∧ length ab = length (sample_ids Toy.table) - Z.to_nat (- (-1)).
Proof.
  apply (read_taxonomic_profile_negative_override Toy.table Toy.cfg (-1)).
  - vm_compute. eauto.
  - lia.
Defined.

(** ** [read_genomes_list]: malformed lines, names, locations *)

Lemma catalog_fields_raise (line : string) (e : exn) :
  catalog_fields line = Raise e → e = ValueError.
Proof.
  unfold catalog_fields, unpack3.
  destruct (Str.split tab (Str.strip line)) as [|a [|b [|c [|d l]]]];
    by intros [= <-].
Qed.

Lemma catalog_fields_three (line : string) :
  length (Str.split tab (Str.strip line)) ≠ 3 →
  catalog_fields line = Raise ValueError.
Proof.
  unfold catalog_fields, unpack3.
  by destruct (Str.split tab (Str.strip line)) as [|a [|b [|c [|d l]]]].
Qed.

(** A loop over the lines of a catalog with a line that is not of three
    fields raises [ValueError]. *)
Lemma catalog_loop_malformed (f : string → string) (lines : list string)
    (gm : gmap string (string * list string)) (line : string) :
  line ∈ lines → length (Str.split tab (Str.strip line)) ≠ 3 →
  for_each (λ line gm,
              let! '(ncbi_id, sci_name, location) := catalog_fields line in
              Ok (add_location ncbi_id sci_name (f location) gm)) lines gm
  = Raise ValueError.
Proof.
  intros Hin Hbad. revert gm. induction lines as [|l lines IH]; intros gm.
  - by apply elem_of_nil in Hin.
  - simpl. destruct (catalog_fields l) as [[[ncbi_id sci_name] location]|e] eqn:Hl.
    + simpl. apply IH. apply elem_of_cons in Hin as [->|Hin]; [|done].
      rewrite catalog_fields_three in Hl by done. discriminate.
    + simpl. by rewrite (catalog_fields_raise l e Hl).
Qed.

Lemma catalog_loop_raise (f : string → string) (lines : list string)
    (gm : gmap string (string * list string)) (e : exn) :
  for_each (λ line gm,
              let! '(ncbi_id, sci_name, location) := catalog_fields line in
              Ok (add_location ncbi_id sci_name (f location) gm)) lines gm
  = Raise e → e = ValueError.
Proof.
  revert gm. induction lines as [|l lines IH]; intros gm H; simpl in H; [discriminate|].
  destruct (catalog_fields l) as [[[ncbi_id sci_name] location]|e'] eqn:Hl; simpl in H.
  - by eapply IH.
  - inversion H; subst. by eapply catalog_fields_raise.
Qed.

(** X4. A line, of the primary or of the additional file, that does not
    consist of exactly three fields separated by tabs once the white space
    around it is stripped makes the reader raise [ValueError]: no catalog is
    returned, whatever the other lines are. *)
Theorem read_genomes_list_malformed_line (genomes : list string)
    (additional_file : option (list string)) (line : string) :
  line ∈ genomes ∨ line ∈ default [] additional_file →
  length (Str.split tab (Str.strip line)) ≠ 3 →
  read_genomes_list genomes additional_file = Raise ValueError.
Proof.
  intros Hin Hbad. unfold read_genomes_list.
  destruct (for_each read_primary_line genomes ∅) as [gm|e] eqn:Hp.
  - destruct Hin as [Hin|Hin].
    + unfold read_primary_line in Hp.
      rewrite (catalog_loop_malformed (Str.replace "ftp://" "http://") genomes ∅ line)
        in Hp by done.
      discriminate.
    + destruct additional_file as [add|]; simpl in *; [|by apply elem_of_nil in Hin].
      by apply (catalog_loop_malformed id add gm line).
  - simpl. f_equal.
    destruct (catalog_loop_raise (Str.replace "ftp://" "http://") genomes ∅ e Hp).
    done.
Qed.

Lemma read_genomes_list_malformed_line_witness :
  read_genomes_list Toy.genomes_file (Some ["562" +:+ tab +:+ "Escherichia coli"])
  = Raise ValueError.
Proof.
  apply (read_genomes_list_malformed_line Toy.genomes_file
           (Some ["562" +:+ tab +:+ "Escherichia coli"])
           ("562" +:+ tab +:+ "Escherichia coli")).
  - right. simpl. by left.
  - vm_compute. lia.
Defined.

Lemma name_add_location (ncbi_id sci_name location : string)
    (genomes_map : gmap string (string * list string)) (id : string) :
  fst <$> add_location ncbi_id sci_name location genomes_map !! id
  = match fst <$> genomes_map !! id with
    | Some name => Some name
    | None => if decide (ncbi_id = id) then Some sci_name else None
    end.
Proof.
  unfold add_location. destruct (decide (ncbi_id = id)) as [->|Hne].
  - destruct (genomes_map !! id) as [[name locs]|] eqn:Hl;
      by rewrite lookup_insert_eq.
  - destruct (genomes_map !! ncbi_id) as [[name locs]|];
      rewrite lookup_insert_ne by done; by destruct (genomes_map !! id).
Qed.

Lemma first_name_cons (id : string) (e : string * string * string)
    (entries : list (string * string * string)) :
  first_name id (e :: entries)
  = if decide (e.1.1 = id) then Some e.1.2 else first_name id entries.
Proof.
  unfold first_name. rewrite filter_cons. by destruct (decide (e.1.1 = id)).
Qed.

Lemma first_name_app (id : string) (l k : list (string * string * string)) :
  first_name id (l ++ k)
  = match first_name id l with Some name => Some name | None => first_name id k end.
Proof.
  induction l as [|e l IH]; [done|].
  rewrite <- app_comm_cons, !first_name_cons. by destruct (decide (e.1.1 = id)).
Qed.

Lemma catalog_loop_names (f : string → string) (lines : list string)
    (entries : list (string * string * string))
    (gm gm' : gmap string (string * list string)) :
  comprehension catalog_fields lines = Ok entries →
  for_each (λ line gm,
              let! '(ncbi_id, sci_name, location) := catalog_fields line in
              Ok (add_location ncbi_id sci_name (f location) gm)) lines gm = Ok gm' →
  ∀ id, fst <$> gm' !! id
        = match fst <$> gm !! id with
          | Some name => Some name
          | None => first_name id entries
          end.
Proof.
  revert entries gm. induction lines as [|line lines IH]; intros entries gm Hc H id;
    simpl in *.
  - inversion Hc; inversion H; subst. by destruct (fst <$> gm' !! id).
  - apply bind_ok_inv in Hc as (e & He & Hc).
    apply bind_ok_inv in Hc as (es & Hes & Hc). inversion Hc; subst entries.
    rewrite He in H. simpl in H. destruct e as [[ncbi_id sci_name] location].
    rewrite (IH es _ Hes H id), name_add_location, first_name_cons. simpl.
    destruct (fst <$> gm !! id); [done|]. by destruct (decide (ncbi_id = id)).
Qed.

(** X5. The catalog has an entry for an id exactly when a line of one of the
    files has that id, and the scientific name of the entry is the name of
    the first such line, the primary file first: the names of the later
    lines for the id are dropped. *)
Theorem read_genomes_list_first_name (genomes : list string)
    (additional_file : option (list string))
    (genomes_map : gmap string (string * list string)) :
  read_genomes_list genomes additional_file = Ok genomes_map →
  ∃ primary additional,
    comprehension catalog_fields genomes = Ok primary
    ∧ comprehension catalog_fields (default [] additional_file) = Ok additional
    ∧ ∀ ncbi_id,
        fst <$> genomes_map !! ncbi_id = first_name ncbi_id (primary ++ additional).
Proof.
  unfold read_genomes_list. intros H.
  apply bind_ok_inv in H as (gm1 & H1 & H).
  destruct (catalog_loop (Str.replace "ftp://" "http://") _ _ _ H1) as (primary & Hp & _).
  pose proof (catalog_loop_names _ _ _ _ _ Hp H1) as Hn1.
  exists primary. destruct additional_file as [add|]; simpl.
  - destruct (catalog_loop id _ _ _ H) as (additional & Ha & _).
    pose proof (catalog_loop_names _ _ _ _ _ Ha H) as Hn.
    exists additional. split; [done|]. split; [done|].
    intros ncbi_id. rewrite Hn, Hn1, lookup_empty, first_name_app. simpl.
    by destruct (first_name ncbi_id primary).
  - inversion H; subst gm1. exists []. split; [done|]. split; [done|].
    intros ncbi_id. rewrite Hn1, lookup_empty, app_nil_r. done.
Qed.

Lemma read_genomes_list_first_name_witness :
  ∃ genomes_map,
    read_genomes_list
      [Toy.catalog_line "562" "Escherichia coli" "ftp://host/g1";
       Toy.catalog_line "562" "E. coli K-12" "ftp://host/g2"]
      (Some [Toy.catalog_line "590" "Salmonella" "/data/s"]) = Ok genomes_map
    ∧ ∃ primary additional,
        comprehension catalog_fields
          [Toy.catalog_line "562" "Escherichia coli" "ftp://host/g1";
           Toy.catalog_line "562" "E. coli K-12" "ftp://host/g2"] = Ok primary
        ∧ comprehension catalog_fields
            (default [] (Some [Toy.catalog_line "590" "Salmonella" "/data/s"]))
          = Ok additional
        ∧ ∀ ncbi_id,
            fst <$> genomes_map !! ncbi_id
            = first_name ncbi_id (primary ++ additional).
Proof.
  eexists. split; [vm_compute; reflexivity|].
  apply (read_genomes_list_first_name
           [Toy.catalog_line "562" "Escherichia coli" "ftp://host/g1";
            Toy.catalog_line "562" "E. coli K-12" "ftp://host/g2"]
           (Some [Toy.catalog_line "590" "Salmonella" "/data/s"])).
  vm_compute. reflexivity.
Defined.

Example read_genomes_list_name_kept :
  (λ m, fst <$> m !! "562") <$>
    (match read_genomes_list
             [Toy.catalog_line "562" "Escherichia coli" "ftp://host/g1";
              Toy.catalog_line "562" "E. coli K-12" "ftp://host/g2"] None with
     | Ok m => Some m | Raise _ => None end)
  = Some (Some "Escherichia coli").
Proof. vm_compute. reflexivity. Qed.

(** ** From the catalog to the rank index *)

Lemma add_location_nonempty (ncbi_id sci_name location : string)
    (gm : gmap string (string * list string)) :
  (∀ id entry, gm !! id = Some entry → entry.2 ≠ []) →
  ∀ id entry, add_location ncbi_id sci_name location gm !! id = Some entry →
    entry.2 ≠ [].
Proof.
  intros Hgm id entry. unfold add_location.
  destruct (gm !! ncbi_id) as [[name locs]|] eqn:Hl;
    (destruct (decide (ncbi_id = id)) as [->|Hne];
     [rewrite lookup_insert_eq; intros [= <-]; simpl
     |rewrite lookup_insert_ne by done; apply Hgm]).
  - by destruct locs.
  - done.
Qed.

Lemma catalog_loop_nonempty (f : string → string) (lines : list string)
    (gm gm' : gmap string (string * list string)) :
  (∀ id entry, gm !! id = Some entry → entry.2 ≠ []) →
  for_each (λ line gm,
              let! '(ncbi_id, sci_name, location) := catalog_fields line in
              Ok (add_location ncbi_id sci_name (f location) gm)) lines gm = Ok gm' →
  ∀ id entry, gm' !! id = Some entry → entry.2 ≠ [].
Proof.
  intros Hgm.
  apply (for_each_invariant (λ gm, ∀ id entry, gm !! id = Some entry → entry.2 ≠ []));
    [|done].
  intros line s s' _ Hs Hinv.
  apply bind_ok_inv in Hs as ([[ncbi_id sci_name] location] & _ & Hs).
  inversion Hs; subst. by apply add_location_nonempty.
Qed.

Lemma read_genomes_list_nonempty (genomes : list string)
    (additional_file : option (list string))
    (gm : gmap string (string * list string)) :
  read_genomes_list genomes additional_file = Ok gm →
  ∀ id entry, gm !! id = Some entry → entry.2 ≠ [].
Proof.
  unfold read_genomes_list. intros H.
  apply bind_ok_inv in H as (gm1 & H1 & H).
  assert (∀ id entry, gm1 !! id = Some entry → entry.2 ≠ []) as Hgm1.
  { revert H1. apply (catalog_loop_nonempty (Str.replace "ftp://" "http://")).
    intros ??. by rewrite lookup_empty. }
  destruct additional_file as [add|]; [|by inversion H; subst].
  revert H. by apply (catalog_loop_nonempty id).
Qed.

Lemma for_each_raise_inv {A S : Type} (body : A → S → result S) (xs : list A)
    (s : S) (e : exn) :
  for_each body xs s = Raise e → ∃ x t, x ∈ xs ∧ body x t = Raise e.
Proof.
  revert s. induction xs as [|x xs IH]; intros s H; simpl in H; [discriminate|].
  destruct (body x s) as [t|e'] eqn:Hb; simpl in H.
  - destruct (IH _ H) as (y & t' & Hy & Hr). exists y, t'. split; [by right|done].
  - inversion H; subst. exists x, s. split; [by left|done].
Qed.

Lemma index_raise `{EqDecision A} (l : list A) (x : A) (e : exn) :
  index l x = Raise e → e = ValueError.
Proof.
  induction l as [|y l IH]; simpl; [by intros [= <-]|].
  destruct (decide (y = x)); [discriminate|].
  destruct (index l x); simpl; [discriminate|]. intros [= <-]. by apply IH.
Qed.

Lemma init_per_rank_map_raise (ranks : list string) (max_rank : string)
    (todo : list string) (m : rank_index) (e : exn) :
  init_per_rank_map ranks max_rank todo m = Raise e → e = ValueError.
Proof.
  revert m. induction todo as [|r todo IH]; intros m H; simpl in H; [discriminate|].
  destruct (index ranks r) as [i|e1] eqn:Hi; simpl in H;
    [|inversion H; subst; by eapply index_raise].
  destruct (index ranks max_rank) as [j|e2] eqn:Hj; simpl in H;
    [|inversion H; subst; by eapply index_raise].
  destruct (decide (j < i)); [discriminate|]. by eapply IH.
Qed.

(** X6. Every entry of a catalog that was read has a location, so the rank
    index can be built from it without [IndexError]: the builder, run on the
    items of the catalog, returns or raises [ValueError] (the maximum rank is
    not one of the ranks) or [KeyError] (the taxonomy has no rank for an id of
    a lineage). *)
Theorem catalog_index_no_index_error (ncbi : NCBITaxa) (genomes : list string)
    (additional_file : option (list string))
    (genomes_map : gmap string (string * list string))
    (ranks : list string) (max_rank : string) :
  read_genomes_list genomes additional_file = Ok genomes_map →
  (∀ ncbi_id entry, genomes_map !! ncbi_id = Some entry → entry.2 ≠ [])
  ∧ ∀ e, get_genomes_per_rank ncbi (map_to_list genomes_map) ranks max_rank = Raise e →
      e = ValueError ∨ e = KeyError.
Proof.
  intros Hread. pose proof (read_genomes_list_nonempty _ _ _ Hread) as Hne.
  split; [done|]. intros e H. unfold get_genomes_per_rank in H.
  destruct (init_per_rank_map ranks max_rank ranks ∅) as [m0|e0] eqn:H0; simpl in H.
  - right. apply for_each_raise_inv in H as (g & m & Hg & H).
    unfold index_genome in H.
    apply for_each_raise_inv in H as (t & m1 & _ & H).
    unfold index_genome_at, subscript in H.
    destruct (get_rank ncbi (get_lineage ncbi g.1) !! t) as [rank|]; simpl in H;
      [|by inversion H].
    destruct (m1 !! rank) as [rank_map|]; [|discriminate].
    destruct g as [id entry]. apply elem_of_map_to_list in Hg.
    apply Hne in Hg. simpl in *. unfold item in H.
    destruct (entry.2) as [|p locs]; [done|]. simpl in H.
    destruct (rank_map !! t); discriminate.
  - left. inversion H; subst. by eapply init_per_rank_map_raise.
Qed.

Lemma catalog_index_no_index_error_witness :
  ∃ genomes_map,
    read_genomes_list Toy.genomes_file (Some Toy.additional_file) = Ok genomes_map
    ∧ (∀ ncbi_id entry, genomes_map !! ncbi_id = Some entry → entry.2 ≠ [])
    ∧ ∀ e, get_genomes_per_rank Toy.ncbi (map_to_list genomes_map) RANKS MAX_RANK
           = Raise e →
        e = ValueError ∨ e = KeyError.
Proof.
  eexists. split; [vm_compute; reflexivity|].
  apply (catalog_index_no_index_error Toy.ncbi Toy.genomes_file
           (Some Toy.additional_file)).
  vm_compute. reflexivity.
Defined.

(** ** [get_genomes_per_rank]: what the buckets hold *)

(** One step of the loop over a lineage: what is in the buckets afterwards
    was there before, or is the genome under the id of the step. *)
Lemma index_genome_at_sound (id2rank : gmap Z string) (gid : string)
    (entry : string * list string) (t : Z) (m m' : rank_index)
    (rank : string) (t' : Z) (x : string * string) :
  index_genome_at id2rank gid entry t m = Ok m' →
  in_bucket m' rank t' x →
  in_bucket m rank t' x
  ∨ (t' = t ∧ id2rank !! t = Some rank ∧ x.2 = gid ∧ head entry.2 = Some x.1).
Proof.
  unfold index_genome_at, subscript. intros H (rm' & b' & H1 & H2 & Hx).
  destruct (id2rank !! t) as [r|] eqn:Hr; simpl in H; [|discriminate].
  destruct (m !! r) as [rank_map|] eqn:Hrm;
    [|inversion H; subst; left; by exists rm', b'].
  unfold item in H. destruct (entry.2) as [|p locs] eqn:Hl; simpl in H; [discriminate|].
  assert (∀ bucket', m' = <[r := <[t := bucket']> rank_map]> m →
            (∀ y, y ∈ bucket' → y = (p, gid)
                                ∨ ∃ b, rank_map !! t = Some b ∧ y ∈ b) →
            in_bucket m rank t' x
            ∨ (t' = t ∧ Some r = Some rank ∧ x.2 = gid ∧ Some p = Some x.1)) as Hcase.
  { intros bucket' -> Hb.
    destruct (decide (r = rank)) as [->|Hne];
      [rewrite lookup_insert_eq in H1|rewrite lookup_insert_ne in H1 by done;
                                       left; by exists rm', b'].
    inversion H1; subst rm'.
    destruct (decide (t = t')) as [<-|Hne];
      [rewrite lookup_insert_eq in H2|rewrite lookup_insert_ne in H2 by done;
                                       left; by exists rank_map, b'].
    inversion H2; subst b'.
    destruct (Hb x Hx) as [->|(b & Hb' & Hxb)]; [by right|].
    left. by exists rank_map, b. }
  destruct (rank_map !! t) as [bucket|] eqn:Hb; inversion H; subst m'.
  - eapply Hcase; [done|]. intros y Hy. apply elem_of_app in Hy as [Hy|Hy].
    + right. eauto.
    + left. by apply list_elem_of_singleton in Hy.
  - eapply Hcase; [done|]. intros y Hy. left. by apply list_elem_of_singleton in Hy.
Qed.

(** One step of the loop over a lineage keeps what the buckets hold. *)
Lemma index_genome_at_keeps (id2rank : gmap Z string) (gid : string)
    (entry : string * list string) (t : Z) (m m' : rank_index)
    (rank : string) (t' : Z) (x : string * string) :
  index_genome_at id2rank gid entry t m = Ok m' →
  in_bucket m rank t' x → in_bucket m' rank t' x.
Proof.
  unfold index_genome_at, subscript. intros H (rm & b & H1 & H2 & Hx).
  destruct (id2rank !! t) as [r|] eqn:Hr; simpl in H; [|discriminate].
  destruct (m !! r) as [rank_map|] eqn:Hrm; [|inversion H; subst; by exists rm, b].
  unfold item in H. destruct (entry.2) as [|p locs] eqn:Hl; simpl in H; [discriminate|].
  assert (∀ bucket', (∀ b0, rank_map !! t = Some b0 → ∀ y, y ∈ b0 → y ∈ bucket') →
            in_bucket (<[r := <[t := bucket']> rank_map]> m) rank t' x) as Hcase.
  { intros bucket' Hb.
    destruct (decide (r = rank)) as [->|Hne];
      [|exists rm, b; by rewrite lookup_insert_ne].
    rewrite Hrm in H1. inversion H1; subst rm.
    destruct (decide (t = t')) as [<-|Hne].
    - exists (<[t := bucket']> rank_map), bucket'.
      rewrite !lookup_insert_eq. repeat (split; [done|]). by eapply Hb.
    - exists (<[t := bucket']> rank_map), b.
      rewrite lookup_insert_eq, lookup_insert_ne by done. done. }
  destruct (rank_map !! t) as [bucket|] eqn:Hb; inversion H; subst m'.
  - apply Hcase. intros b0 [= <-] y Hy. apply elem_of_app. by left.
  - apply Hcase. by intros b0 [=].
Qed.

(** One step of the loop over a lineage puts the genome under the id of the
    step, when the rank of the id is a key of the index. *)
Lemma index_genome_at_adds (id2rank : gmap Z string) (gid : string)
    (entry : string * list string) (t : Z) (m m' : rank_index) (rank : string) :
  index_genome_at id2rank gid entry t m = Ok m' →
  id2rank !! t = Some rank → is_Some (m !! rank) →
  ∃ p, head entry.2 = Some p ∧ in_bucket m' rank t (p, gid).
Proof.
  unfold index_genome_at, subscript. intros H Hr [rank_map Hrm].
  rewrite Hr in H. simpl in H. rewrite Hrm in H.
  unfold item in H. destruct (entry.2) as [|p locs] eqn:Hl; simpl in H; [discriminate|].
  exists p. split; [done|].
  destruct (rank_map !! t) as [bucket|] eqn:Hb; inversion H; subst m';
    eexists _, _; rewrite !lookup_insert_eq; (split; [done|]); (split; [done|]).
  - apply elem_of_app. right. by left.
  - by left.
Qed.

Lemma index_genome_at_keys_back (id2rank : gmap Z string) (gid : string)
    (entry : string * list string) (t : Z) (m m' : rank_index) (rank : string) :
  index_genome_at id2rank gid entry t m = Ok m' →
  is_Some (m !! rank) → is_Some (m' !! rank).
Proof.
  unfold index_genome_at. intros H Hr.
  apply bind_ok_inv in H as (r & _ & H).
  destruct (m !! r) as [rank_map|] eqn:Hm; [|by inversion H; subst].
  apply bind_ok_inv in H as (p & _ & H).
  destruct (rank_map !! t); inversion H; subst;
    (destruct (decide (r = rank)) as [->|Hne];
     [rewrite lookup_insert_eq; eauto|by rewrite lookup_insert_ne]).
Qed.

(** The loop over the lineage of one genome. *)
Lemma index_genome_effect (ncbi : NCBITaxa) (g : string * (string * list string))
    (m m' : rank_index) :
  index_genome ncbi g m = Ok m' →
  (∀ rank, is_Some (m !! rank) ↔ is_Some (m' !! rank))
  ∧ (∀ rank t x, in_bucket m rank t x → in_bucket m' rank t x)
  ∧ (∀ rank t x, in_bucket m' rank t x →
       in_bucket m rank t x ∨ indexed_as ncbi g rank t x)
  ∧ (∀ rank t, t ∈ get_lineage ncbi g.1 →
       get_rank ncbi (get_lineage ncbi g.1) !! t = Some rank →
       is_Some (m !! rank) →
       ∃ p, head g.2.2 = Some p ∧ in_bucket m' rank t (p, g.1)).
Proof.
  unfold index_genome. intros H.
  set (id2rank := get_rank ncbi (get_lineage ncbi g.1)) in *.
  apply (for_each_visited
    (λ seen s,
       (∀ rank, is_Some (m !! rank) ↔ is_Some (s !! rank))
       ∧ (∀ rank t x, in_bucket m rank t x → in_bucket s rank t x)
       ∧ (∀ rank t x, in_bucket s rank t x →
            in_bucket m rank t x
            ∨ (t ∈ seen ∧ id2rank !! t = Some rank ∧ x.2 = g.1
               ∧ head g.2.2 = Some x.1))
       ∧ (∀ rank t, t ∈ seen → id2rank !! t = Some rank → is_Some (m !! rank) →
            ∃ p, head g.2.2 = Some p ∧ in_bucket s rank t (p, g.1))))
    in H.
  - destruct H as (Hk & Hkeep & Hsound & Hadd).
    split; [done|]. split; [done|]. split; [|done].
    intros rank t x Hx. destruct (Hsound rank t x Hx) as [|(? & ? & ? & ?)];
      [by left|right]. done.
  - split; [done|]. split; [done|]. split; [by left|].
    intros rank t Ht. by apply elem_of_nil in Ht.
  - intros seen t rest s s' Hsplit (Hk & Hkeep & Hsound & Hadd) Hstep.
    split; [|split; [|split]].
    + intros rank. rewrite Hk. split.
      * by eapply index_genome_at_keys_back.
      * by eapply index_genome_at_keys.
    + intros rank t' x Hx. eapply index_genome_at_keeps; [done|]. by apply Hkeep.
    + intros rank t' x Hx.
      destruct (index_genome_at_sound _ _ _ _ _ _ _ _ _ Hstep Hx)
        as [Hold|(-> & Hr & Hg & Hp)].
      * destruct (Hsound rank t' x Hold) as [|(? & ? & ? & ?)]; [by left|right].
        split; [apply elem_of_app; by left|done].
      * right. split; [apply elem_of_app; right; by left|done].
    + intros rank t' Ht' Hr Hm. apply elem_of_app in Ht' as [Ht'|Ht'].
      * destruct (Hadd rank t' Ht' Hr Hm) as (p & Hp & Hin).
        exists p. split; [done|]. by eapply index_genome_at_keeps.
      * apply list_elem_of_singleton in Ht'. subst t'.
        eapply index_genome_at_adds; [done|done|]. by apply Hk.
Qed.

(** X7. Under a rank that is a key of the index, the bucket of a taxonomic
    id holds exactly the pairs (first location, genome id) of the genomes of
    the catalog that have the id in their lineage with that rank: a genome is
    listed under each of its ancestors of an indexed rank, under nothing
    else, and its later locations are never listed. *)
Theorem rank_index_buckets (ncbi : NCBITaxa)
    (genomes_map : list (string * (string * list string)))
    (ranks : list string) (max_rank : string) (m : rank_index) :
  get_genomes_per_rank ncbi genomes_map ranks max_rank = Ok m →
  ∀ rank t x, is_Some (m !! rank) →
    (in_bucket m rank t x ↔ ∃ g, g ∈ genomes_map ∧ indexed_as ncbi g rank t x).
Proof.
  intros H. unfold get_genomes_per_rank in H.
  apply bind_ok_inv in H as (m0 & H0 & H).
  assert (∀ rank t x, ¬ in_bucket m0 rank t x) as Hempty.
  { intros rank t x (rm & b & H1 & H2 & _).
    assert (rm = ∅) as ->.
    { revert H1. apply (init_per_rank_map_empty ranks max_rank ranks ∅ m0); [|done].
      intros r rm'. by rewrite lookup_empty. }
    by rewrite lookup_empty in H2. }
  apply (for_each_visited
    (λ visited s,
       (∀ rank, is_Some (m0 !! rank) ↔ is_Some (s !! rank))
       ∧ (∀ rank t x, in_bucket s rank t x →
            ∃ g, g ∈ visited ∧ indexed_as ncbi g rank t x)
       ∧ (∀ g rank t x, g ∈ visited → indexed_as ncbi g rank t x →
            is_Some (m0 !! rank) → in_bucket s rank t x))) in H.
  - destruct H as (Hk & Hsound & Hcomplete).
    intros rank t x Hr. split; [apply Hsound|].
    intros (g & Hg & Hx). eapply Hcomplete; [done|done|]. by apply Hk.
  - split; [done|]. split.
    + intros rank t x Hx. by apply Hempty in Hx.
    + intros g rank t x Hg. by apply elem_of_nil in Hg.
  - intros visited g rest s s' Hsplit (Hk & Hsound & Hcomplete) Hstep.
    destruct (index_genome_effect ncbi g s s' Hstep) as (Hk' & Hkeep & Hs' & Hadd).
    split; [|split].
    + intros rank. by rewrite Hk, Hk'.
    + intros rank t x Hx. destruct (Hs' rank t x Hx) as [Hold|Hnew].
      * destruct (Hsound rank t x Hold) as (g' & Hg' & Hi).
        exists g'. split; [apply elem_of_app; by left|done].
      * exists g. split; [apply elem_of_app; right; by left|done].
    + intros g' rank t x Hg' Hi Hr. apply elem_of_app in Hg' as [Hg'|Hg'].
      * apply Hkeep. by eapply Hcomplete.
      * apply list_elem_of_singleton in Hg'. subst g'.
        destruct Hi as (Hid & Hp & Ht & Hrank).
        destruct (Hadd rank t Ht Hrank) as (p & Hp' & Hin); [by apply Hk|].
        rewrite Hp in Hp'. inversion Hp'; subst p.
        destruct x as [x1 x2]. simpl in *. by subst x2.
Qed.

Lemma rank_index_buckets_witness :
  ∃ m, get_genomes_per_rank Toy.ncbi Toy.catalog RANKS "family" = Ok m
       ∧ ∀ rank t x, is_Some (m !! rank) →
           (in_bucket m rank t x
            ↔ ∃ g, g ∈ Toy.catalog ∧ indexed_as Toy.ncbi g rank t x).
Proof.
  eexists. split; [vm_compute; reflexivity|].
  apply (rank_index_buckets Toy.ncbi Toy.catalog RANKS "family").
  vm_compute. reflexivity.
Defined.

Example rank_index_family_bucket :
  (λ m, m !! "family" ≫= (.!! 543%Z)) <$>
    (match get_genomes_per_rank Toy.ncbi Toy.catalog RANKS "family" with
     | Ok m => Some m | Raise _ => None end)
  = Some (Some [("http://a", "562"); ("/data/s", "28901")]).
Proof. vm_compute. reflexivity. Qed.

(** ** [get_genomes_per_rank]: the keys of the index *)

Lemma index_position `{EqDecision A} (l : list A) (x : A) (i : nat) :
  index l x = Ok i → l !! i = Some x ∧ ∀ k, k < i → l !! k ≠ Some x.
Proof.
  revert i. induction l as [|y l IH]; intros i H; simpl in H; [discriminate|].
  destruct (decide (y = x)) as [->|Hne].
  - inversion H; subst. split; [done|]. intros k Hk. lia.
  - apply bind_ok_inv in H as (i' & Hi' & H). inversion H; subst i.
    destruct (IH i' Hi') as [Hl Hbefore]. split; [done|].
    intros [|k] Hk; simpl; [congruence|]. apply Hbefore. lia.
Qed.

Lemma index_at_most `{EqDecision A} (l : list A) (x : A) (k : nat) :
  l !! k = Some x → ∃ i, index l x = Ok i ∧ i ≤ k.
Proof.
  revert k. induction l as [|y l IH]; intros k H; [by rewrite lookup_nil in H|].
  simpl. destruct (decide (y = x)); [exists 0; split; [done|lia]|].
  destruct k as [|k]; simpl in H; [congruence|].
  destruct (IH k H) as (i & -> & Hi). exists (S i). split; [done|lia].
Qed.

Lemma init_per_rank_map_grows (ranks : list string) (max_rank : string)
    (todo : list string) (m m' : rank_index) (r : string) :
  init_per_rank_map ranks max_rank todo m = Ok m' →
  is_Some (m !! r) → is_Some (m' !! r).
Proof.
  revert m. induction todo as [|x todo IH]; intros m H Hr; simpl in H.
  - by inversion H; subst.
  - apply bind_ok_inv in H as (i & _ & H).
    apply bind_ok_inv in H as (j & _ & H).
    destruct (decide (j < i)); [by inversion H; subst|].
    apply (IH _ H). destruct (decide (x = r)) as [->|Hne].
    + rewrite lookup_insert_eq. eauto.
    + by rewrite lookup_insert_ne.
Qed.

(** The first loop reaches every rank that has only ranks up to the maximum
    before it. *)
Lemma init_per_rank_map_reaches (ranks : list string) (max_rank : string)
    (pre post : list string) (r : string) (m m' : rank_index) :
  init_per_rank_map ranks max_rank (pre ++ r :: post) m = Ok m' →
  (∀ x, x ∈ pre → up_to ranks max_rank x) → up_to ranks max_rank r →
  is_Some (m' !! r).
Proof.
  revert m. induction pre as [|x pre IH]; intros m H Hpre Hr; simpl in H.
  - destruct Hr as (i & j & Hi & Hj & Hij). rewrite Hi, Hj in H. simpl in H.
    destruct (decide (j < i)); [lia|].
    apply (init_per_rank_map_grows _ _ _ _ _ _ H). rewrite lookup_insert_eq. eauto.
  - destruct (Hpre x) as (i & j & Hi & Hj & Hij); [by left|].
    rewrite Hi, Hj in H. simpl in H. destruct (decide (j < i)); [lia|].
    apply (IH _ H); [|done]. intros y Hy. apply Hpre. by right.
Qed.

(** X8. The keys of the rank index are exactly the ranks of [ranks] that are
    not past [max_rank]: each of them has a key, also when no genome is
    listed under it, so a lookup of such a rank in the index cannot fail. *)
Theorem rank_index_has_every_rank (ncbi : NCBITaxa)
    (genomes_map : list (string * (string * list string)))
    (ranks : list string) (max_rank : string) (m : rank_index) :
  get_genomes_per_rank ncbi genomes_map ranks max_rank = Ok m →
  ∀ rank, is_Some (m !! rank) ↔ up_to ranks max_rank rank.
Proof.
  intros H. unfold get_genomes_per_rank in H.
  apply bind_ok_inv in H as (m0 & H0 & H).
  assert (∀ rank, is_Some (m0 !! rank) ↔ is_Some (m !! rank)) as Hk.
  { revert H.
    apply (for_each_invariant (λ s, ∀ rank, is_Some (m0 !! rank) ↔ is_Some (s !! rank)));
      [|done].
    intros g s s' _ Hs IH rank. rewrite IH.
    destruct (index_genome_effect ncbi g s s' Hs) as (Hk & _). apply Hk. }
  intros rank. rewrite <- Hk. split.
  - intros Hr. destruct (init_per_rank_map_keys _ _ _ _ _ H0 rank Hr) as [Hs|]; [|done].
    rewrite lookup_empty in Hs. by destruct Hs.
  - intros (i & j & Hi & Hj & Hij).
    destruct (index_position ranks rank i Hi) as [Hl _].
    assert (init_per_rank_map ranks max_rank
              (take i ranks ++ rank :: drop (S i) ranks) ∅ = Ok m0) as H0'
      by (by rewrite take_drop_middle).
    apply (init_per_rank_map_reaches _ _ _ _ _ _ _ H0'); [|by exists i, j].
    intros x Hx. apply list_elem_of_lookup in Hx as [k Hk'].
    pose proof (lookup_lt_Some _ _ _ Hk') as Hlen. rewrite length_take in Hlen.
    rewrite lookup_take_lt in Hk' by lia.
    destruct (index_at_most ranks x k Hk') as (i' & Hi' & Hle).
    exists i', j. split; [done|]. split; [done|]. lia.
Qed.

Lemma rank_index_has_every_rank_witness :
  ∃ m, get_genomes_per_rank Toy.ncbi Toy.catalog RANKS "family" = Ok m
       ∧ ∀ rank, is_Some (m !! rank) ↔ up_to RANKS "family" rank.
Proof.
  eexists. split; [vm_compute; reflexivity|].
  apply (rank_index_has_every_rank Toy.ncbi Toy.catalog RANKS "family").
  vm_compute. reflexivity.
Defined.

Lemma index_not_found `{EqDecision A} (l : list A) (x : A) :
  x ∉ l → index l x = Raise ValueError.
Proof.
  induction l as [|y l IH]; intros H; simpl; [done|].
  destruct (decide (y = x)) as [->|Hne]; [destruct H; by left|].
  rewrite IH; [done|]. intros Hin. apply H. by right.
Qed.

(** X9. With a maximum rank that is not one of the ranks, and at least one
    rank, the builder raises [ValueError] before it looks at a genome. *)
Theorem get_genomes_per_rank_unknown_max_rank (ncbi : NCBITaxa)
    (genomes_map : list (string * (string * list string)))
    (ranks : list string) (max_rank : string) :
  ranks ≠ [] → max_rank ∉ ranks →
  get_genomes_per_rank ncbi genomes_map ranks max_rank = Raise ValueError.
Proof.
  intros Hne Hmax. unfold get_genomes_per_rank.
  destruct ranks as [|r ranks]; [done|].
  cbn [init_per_rank_map].
  assert (index (r :: ranks) r = Ok 0) as ->.
  { simpl. by destruct (decide (r = r)). }
  by rewrite bind_ok, (index_not_found _ _ Hmax).
Qed.

Lemma get_genomes_per_rank_unknown_max_rank_witness :
  get_genomes_per_rank Toy.ncbi Toy.catalog RANKS "strain" = Raise ValueError.
Proof.
  apply (get_genomes_per_rank_unknown_max_rank Toy.ncbi Toy.catalog RANKS "strain").
  - discriminate.
  - refine (bool_decide_unpack _ _). vm_compute. exact I.
Defined.

(** The toy catalog, for the two properties of [get_genomes_per_rank] above. *)
Lemma get_genomes_per_rank_buckets_nodup_witness :
  ∃ m, get_genomes_per_rank Toy.ncbi Toy.catalog RANKS "family" = Ok m
       ∧ buckets_nodup m.
Proof.
  eexists. split; [vm_compute; reflexivity|].
  apply (get_genomes_per_rank_buckets_nodup Toy.ncbi Toy.catalog RANKS "family").
  - refine (bool_decide_unpack _ _). vm_compute. exact I.
  - intros g Hg. refine (bool_decide_unpack _ _).
    repeat (apply elem_of_cons in Hg as [->|Hg]; [vm_compute; exact I|]).
    by apply elem_of_nil in Hg.
  - vm_compute. reflexivity.
Defined.

Lemma get_genomes_per_rank_returns_witness :
  ∃ m, get_genomes_per_rank Toy.ncbi Toy.catalog RANKS "family" = Ok m.
Proof.
  apply (get_genomes_per_rank_returns Toy.ncbi Toy.catalog RANKS "family").
  - refine (bool_decide_unpack _ _). vm_compute. exact I.
  - intros g Hg.
    repeat (apply elem_of_cons in Hg as [->|Hg];
            [split; [discriminate|];
             intros t Ht;
             repeat (apply elem_of_cons in Ht as [->|Ht]; [vm_compute; eauto|]);
             by apply elem_of_nil in Ht|]).
    by apply elem_of_nil in Hg.
Defined.

(** ** [transform_lineage]: order, origin of the ids, blank names *)

Lemma for_each_app {A S : Type} (body : A → S → result S) (l1 l2 : list A) (s : S) :
  for_each body (l1 ++ l2) s = let! s1 := for_each body l1 s in for_each body l2 s1.
Proof.
  revert s. induction l1 as [|x l1 IH]; intros s; simpl; [done|].
  destruct (body x s) as [t|e]; simpl; [apply IH|done].
Qed.

Lemma append_if_mapped_acc (ncbi : NCBITaxa) (ranks : list string)
    (mapping : gmap string (list Z)) (name : string) (acc : list Z) :
  append_if_mapped ncbi ranks mapping name acc
  = let! r := append_if_mapped ncbi ranks mapping name [] in Ok (acc ++ r).
Proof.
  unfold append_if_mapped. destruct (mapping !! name) as [ids|];
    [|simpl; by rewrite app_nil_r].
  destruct (item ids 0) as [t|e]; simpl; [|done].
  destruct (subscript (get_rank ncbi [t]) t) as [r|e]; simpl; [|done].
  destruct (decide (r ∈ ranks)); simpl; by rewrite ?app_nil_r.
Qed.

(** A token adds to the lineage so far what it adds to an empty one. *)
Lemma transform_member_acc (ncbi : NCBITaxa) (ranks : list string)
    (member : string) (acc : list Z) :
  transform_member ncbi ranks member acc
  = let! r := transform_member ncbi ranks member [] in Ok (acc ++ r).
Proof.
  unfold transform_member.
  destruct (last_item (Str.split "__" member)) as [name|e]; simpl; [|done].
  destruct (decide (String.length name = 0)); [simpl; by rewrite app_nil_r|].
  destruct (decide (is_Some (get_name_translator ncbi [name] !! name))).
  - apply append_if_mapped_acc.
  - destruct (item (Str.split_ws name) 0) as [name'|e]; simpl; [|done].
    apply append_if_mapped_acc.
Qed.

Lemma transform_members_acc (ncbi : NCBITaxa) (ranks : list string)
    (lin : list string) (acc : list Z) :
  for_each (transform_member ncbi ranks) lin acc
  = let! r := for_each (transform_member ncbi ranks) lin [] in Ok (acc ++ r).
Proof.
  revert acc. induction lin as [|member lin IH]; intros acc; simpl.
  - by rewrite app_nil_r.
  - rewrite (transform_member_acc ncbi ranks member acc).
    destruct (transform_member ncbi ranks member []) as [r|e]; simpl; [|done].
    rewrite (IH (acc ++ r)), (IH r).
    destruct (for_each (transform_member ncbi ranks) lin []) as [r'|e]; simpl; [|done].
    by rewrite app_assoc.
Qed.

Lemma transform_lineage_app_eq (ncbi : NCBITaxa) (lin1 lin2 : list string)
    (ranks : list string) (max_rank : string) :
  transform_lineage ncbi (lin1 ++ lin2) ranks max_rank
  = let! lineage1 := transform_lineage ncbi lin1 ranks max_rank in
    let! lineage2 := transform_lineage ncbi lin2 ranks max_rank in
    Ok (lineage2 ++ lineage1).
Proof.
  unfold transform_lineage. rewrite for_each_app.
  destruct (for_each (transform_member ncbi ranks) lin1 []) as [r1|e]; simpl; [|done].
  rewrite (transform_members_acc ncbi ranks lin2 r1).
  destruct (for_each (transform_member ncbi ranks) lin2 []) as [r2|e]; simpl; [|done].
  by rewrite reverse_app.
Qed.

(** X12. Normalization goes token by token and turns the order round: the
    lineage of two lists of tokens one after the other is the lineage of the
    second list followed by the lineage of the first, and it raises what the
    first list raises, or else what the second list raises. *)
Theorem transform_lineage_app (ncbi : NCBITaxa) (lin1 lin2 : list string)
    (ranks : list string) (max_rank : string) :
  transform_lineage ncbi (lin1 ++ lin2) ranks max_rank
  = let! lineage1 := transform_lineage ncbi lin1 ranks max_rank in
    let! lineage2 := transform_lineage ncbi lin2 ranks max_rank in
    Ok (lineage2 ++ lineage1).
Proof.
  unfold transform_lineage. rewrite for_each_app.
  destruct (for_each (transform_member ncbi ranks) lin1 []) as [r1|e]; simpl; [|done].
  rewrite (transform_members_acc ncbi ranks lin2 r1).
  destruct (for_each (transform_member ncbi ranks) lin2 []) as [r2|e]; simpl; [|done].
  by rewrite reverse_app.
Qed.

Example transform_lineage_app_toy :
  transform_lineage Toy.ncbi
    (["superkingdom__Bacteria"; "phylum__Proteobacteria"]
       ++ ["genus__Escherichia"; "species__Escherichia coli"]) RANKS MAX_RANK
  = Ok ([562; 561] ++ [1224; 2])%Z.
Proof. vm_compute. reflexivity. Qed.

(** What one token does to the lineage so far, for a taxonomy that answers
    for the names it is asked. *)
Lemma transform_member_step (ncbi : NCBITaxa) (ranks : list string)
    (member : string) (acc acc' : list Z) :
  translator_answers_query ncbi →
  transform_member ncbi ranks member acc = Ok acc' →
  acc' = acc
  ∨ ∃ name ids t r,
      acc' = acc ++ [t]
      ∧ last_item (Str.split "__" member) = Ok name
      ∧ get_name_translator ncbi [name] !! name = Some ids
      ∧ head ids = Some t
      ∧ get_rank ncbi [t] !! t = Some r ∧ r ∈ ranks.
Proof.
  intros Hkeys H. unfold transform_member in H.
  apply bind_ok_inv in H as (name & Hname & H).
  destruct (decide (String.length name = 0)); [left; by inversion H|].
  destruct (decide (is_Some (get_name_translator ncbi [name] !! name))) as [[ids Hs]|Hn].
  - unfold append_if_mapped in H. rewrite Hs in H.
    apply bind_ok_inv in H as (t & Ht & H).
    apply bind_ok_inv in H as (r & Hr & H).
    destruct (decide (r ∈ ranks)); [|left; by inversion H].
    right. exists name, ids, t, r. inversion H; subst acc'.
    split; [done|]. split; [done|]. split; [done|]. split.
    + unfold item in Ht. by destruct ids; inversion Ht.
    + unfold subscript in Hr. by destruct (get_rank ncbi [t] !! t); inversion Hr.
  - apply bind_ok_inv in H as (name' & Hname' & H). left.
    unfold append_if_mapped in H.
    destruct (get_name_translator ncbi [name] !! name') as [ids|] eqn:Hm;
      [|by inversion H].
    assert (name' ∈ [name]) as Hin by (apply Hkeys; eauto).
    apply list_elem_of_singleton in Hin. subst name'. destruct Hn. eauto.
Qed.

(** X13. For a taxonomy that answers for the names it is asked: the
    normalized lineage is no longer than the list of tokens, and each of its
    ids is the first id the taxonomy gives for the whole name of a token (the
    text after the last "__"), with a rank, asked for that id alone, that is
    one of the ranks. *)
Theorem transform_lineage_ids (ncbi : NCBITaxa) (lin : list string)
    (ranks : list string) (max_rank : string) (lineage : list Z) :
  translator_answers_query ncbi →
  transform_lineage ncbi lin ranks max_rank = Ok lineage →
  length lineage ≤ length lin
  ∧ ∀ t, t ∈ lineage →
      ∃ member name ids r,
        member ∈ lin
        ∧ last_item (Str.split "__" member) = Ok name
        ∧ get_name_translator ncbi [name] !! name = Some ids
        ∧ head ids = Some t
        ∧ get_rank ncbi [t] !! t = Some r ∧ r ∈ ranks.
Proof.
  intros Hkeys H. unfold transform_lineage in H.
  apply bind_ok_inv in H as (acc & Hacc & H). inversion H; subst lineage.
  rewrite length_reverse.
  apply (for_each_visited
    (λ visited acc,
       length acc ≤ length visited
       ∧ ∀ t, t ∈ acc →
           ∃ member name ids r,
             member ∈ visited
             ∧ last_item (Str.split "__" member) = Ok name
             ∧ get_name_translator ncbi [name] !! name = Some ids
             ∧ head ids = Some t
             ∧ get_rank ncbi [t] !! t = Some r ∧ r ∈ ranks)) in Hacc.
  - destruct Hacc as [Hlen Hin]. split; [done|].
    intros t Ht. apply Hin. by rewrite elem_of_reverse in Ht.
  - split; [done|]. intros t Ht. by apply elem_of_nil in Ht.
  - intros visited member rest s s' _ [Hlen Hin] Hstep.
    assert (∀ t, t ∈ s →
              ∃ member' name ids r,
                member' ∈ visited ++ [member]
                ∧ last_item (Str.split "__" member') = Ok name
                ∧ get_name_translator ncbi [name] !! name = Some ids
                ∧ head ids = Some t
                ∧ get_rank ncbi [t] !! t = Some r ∧ r ∈ ranks) as Hold.
    { intros t Ht. destruct (Hin t Ht) as (m' & name & ids & r & Hm' & Hrest).
      exists m', name, ids, r. split; [apply elem_of_app; by left|done]. }
    destruct (transform_member_step ncbi ranks member s s' Hkeys Hstep)
      as [->|(name & ids & t & r & -> & Hname & Hids & Hhead & Hr & Hranks)].
    + split; [rewrite length_app; simpl; lia|done].
    + split; [rewrite !length_app; simpl; lia|].
      intros t' Ht'. apply elem_of_app in Ht' as [Ht'|Ht']; [by apply Hold|].
      apply list_elem_of_singleton in Ht'. subst t'.
      exists member, name, ids, r. split; [apply elem_of_app; right; by left|done].
Qed.

Lemma transform_lineage_ids_witness :
  length [562; 561; 1224; 2]%Z
  ≤ length ["superkingdom__Bacteria"; "phylum__Proteobacteria"; "genus__Escherichia";
            "species__Escherichia coli"]
  ∧ ∀ t, t ∈ [562; 561; 1224; 2]%Z →
      ∃ member name ids r,
        member ∈ ["superkingdom__Bacteria"; "phylum__Proteobacteria";
                  "genus__Escherichia"; "species__Escherichia coli"]
        ∧ last_item (Str.split "__" member) = Ok name
        ∧ get_name_translator Toy.ncbi [name] !! name = Some ids
        ∧ head ids = Some t
        ∧ get_rank Toy.ncbi [t] !! t = Some r ∧ r ∈ RANKS.
Proof.
  apply (transform_lineage_ids Toy.ncbi
           ["superkingdom__Bacteria"; "phylum__Proteobacteria"; "genus__Escherichia";
            "species__Escherichia coli"] RANKS MAX_RANK).
  - exact toy_translator_answers_query.
  - vm_compute. reflexivity.
Defined.

(** X14. A token whose name is not empty, is not resolved and has no word
    (it is white space only) stops the normalization with [IndexError], when
    the tokens before it are normalized without an exception; the tokens
    after it are not looked at. *)
Theorem transform_lineage_blank_name (ncbi : NCBITaxa) (pre post : list string)
    (member name : string) (ranks : list string) (max_rank : string)
    (lineage : list Z) :
  transform_lineage ncbi pre ranks max_rank = Ok lineage →
  last_item (Str.split "__" member) = Ok name →
  String.length name ≠ 0 →
  Str.split_ws name = [] →
  get_name_translator ncbi [name] !! name = None →
  transform_lineage ncbi (pre ++ member :: post) ranks max_rank = Raise IndexError.
Proof.
  intros Hpre Hname Hlen Hws Hnone.
  rewrite transform_lineage_app_eq, Hpre, bind_ok.
  unfold transform_lineage. cbn [for_each].
  unfold transform_member at 1. rewrite Hname, bind_ok.
  destruct (decide (String.length name = 0)); [done|].
  destruct (decide (is_Some (get_name_translator ncbi [name] !! name))) as [Hs|_].
  { rewrite Hnone in Hs. by destruct Hs. }
  by rewrite Hws.
Qed.

Lemma transform_lineage_blank_name_witness :
  transform_lineage Toy.ncbi
    (["family__Enterobacteriaceae"] ++ "genus__ " :: ["species__Escherichia coli"])
    RANKS MAX_RANK
  = Raise IndexError.
Proof.
  apply (transform_lineage_blank_name Toy.ncbi ["family__Enterobacteriaceae"]
           ["species__Escherichia coli"] "genus__ " " " RANKS MAX_RANK [543%Z]).
  - vm_compute. reflexivity.
  - reflexivity.
  - simpl. lia.
  - reflexivity.
  - reflexivity.
Defined.

(** ** [map_otus_to_genomes]: what a run does to the rank index *)

Lemma remove_first_sublist (x : string * string) (bucket : list (string * string)) :
  sublist (remove_first x bucket) bucket.
Proof.
  induction bucket as [|y bucket IH]; simpl; [done|].
  destruct (decide (y = x)); [by apply sublist_cons|by apply sublist_skip].
Qed.

Lemma bucket_of_remove_genome (x : string * string) (m : rank_index)
    (rank : string) (t : Z) :
  bucket_of (remove_genome x m) rank t = remove_first x <$> bucket_of m rank t.
Proof.
  unfold bucket_of, remove_genome. rewrite lookup_fmap.
  destruct (m !! rank) as [rank_map|]; simpl; [|done]. by rewrite lookup_fmap.
Qed.

Lemma index_within_refl (m : rank_index) : index_within m m.
Proof.
  split; [done|]. intros rank t. destruct (bucket_of m rank t); by constructor.
Qed.

Lemma index_within_remove_genome (x : string * string) (m' m : rank_index) :
  index_within m' m → index_within (remove_genome x m') m.
Proof.
  intros [Hk Hb]. split.
  - intros rank. rewrite <- Hk. unfold remove_genome. rewrite lookup_fmap.
    by rewrite fmap_is_Some.
  - intros rank t. rewrite bucket_of_remove_genome.
    destruct (Hb rank t) as [b' b Hs|]; simpl; constructor.
    etrans; [apply remove_first_sublist|done].
Qed.

Lemma index_within_removals (used : list (string * string)) (m' m : rank_index) :
  index_within m' m → index_within (foldl (λ prm x, remove_genome x prm) m' used) m.
Proof.
  revert m'. induction used as [|x used IH]; intros m' H; simpl; [done|].
  apply IH. by apply index_within_remove_genome.
Qed.

(** The index after [assign_genomes], whenever it returns. *)
Lemma assign_genomes_index (R : Runtime) (otu : string) (taxid : Z) (ab : list Q)
    (available : list (string * string)) (mu sigma max_strains : Z)
    (replace : bool) (st st' : state R) :
  assign_genomes R otu taxid ab available mu sigma max_strains replace st = Ok st' →
  ∃ used,
    st_index st'
    = if replace then st_index st
      else foldl (λ prm x, remove_genome x prm) (st_index st) used.
Proof.
  intros H. unfold assign_genomes in H.
  apply bind_ok_inv in H as ([n g] & _ & H).
  apply bind_ok_inv in H as ([used g1] & _ & H).
  apply bind_ok_inv in H as ([ws g2] & _ & H).
  apply bind_ok_inv in H as ([prm' m'] & Hassign & H).
  inversion H; subst st'; clear H. simpl. exists used.
  by eapply assign_strains_index.
Qed.

(** A property of the index that the warnings do not touch and the
    assignment of genomes keeps is kept by the loop over the profile. *)
Lemma map_otus_index_invariant (ncbi : NCBITaxa) (R : Runtime)
    (ranks : list string) (max_rank : string) (mu sigma max_strains : Z)
    (replace : bool) (P : rank_index → Prop)
    (profile : list (string * (list string * list Q))) (st st' : state R) :
  (∀ s s' otu taxid ab available,
     assign_genomes R otu taxid ab available mu sigma max_strains replace s = Ok s' →
     P (st_index s) → P (st_index s')) →
  P (st_index st) →
  for_each (map_otu ncbi R ranks max_rank mu sigma max_strains replace) profile st
  = Ok st' →
  P (st_index st').
Proof.
  intros Hassign.
  apply (for_each_invariant (λ s, P (st_index s))).
  intros entry s s' _ Hs Hinv. unfold map_otu in Hs.
  apply bind_ok_inv in Hs as (lineage & _ & Hs).
  apply bind_ok_inv in Hs as (s1 & Hs1 & Hs).
  assert (P (st_index s1)) as Hinv1.
  { destruct (decide (length lineage = 0)).
    - apply bind_ok_inv in Hs1 as (member & _ & Hs1).
      apply bind_ok_inv in Hs1 as (name & _ & Hs1). by inversion Hs1; subst.
    - by inversion Hs1; subst. }
  clear Hs1 Hinv. revert s1 Hinv1 Hs.
  generalize lineage at 3. intros todo.
  induction todo as [|taxid todo IH]; intros s1 Hinv1 Hs; simpl in Hs.
  - by inversion Hs; subst.
  - apply bind_ok_inv in Hs as (rank & _ & Hs).
    apply bind_ok_inv in Hs as (i & _ & Hs).
    apply bind_ok_inv in Hs as (j & _ & Hs).
    destruct (decide (j < i)) as [|_]; [by inversion Hs; subst|].
    apply bind_ok_inv in Hs as (genomes & _ & Hs).
    destruct (genomes !! taxid) as [available|].
    + by eapply Hassign.
    + eapply IH; [|exact Hs]. exact Hinv1.
Qed.

(** X15. With replacement ([replace] is true) a run leaves the rank index as
    it was: the index that is returned is the index that was given. *)
Theorem with_replacement_index_unchanged (ncbi : NCBITaxa) (R : Runtime)
    (profile : list (string * (list string * list Q)))
    (per_rank_map : rank_index) (ranks : list string) (max_rank : string)
    (mu sigma max_strains : Z) (debug fillup : bool) (g g' : rng R)
    (otu_genome_map : gmap string assignment) (per_rank_map' : rank_index)
    (logged : list log_record) :
  map_otus_to_genomes ncbi R profile per_rank_map ranks max_rank mu sigma
    max_strains debug true fillup g
  = Ok (otu_genome_map, per_rank_map', g', logged) →
  per_rank_map' = per_rank_map.
Proof.
  intros H. unfold map_otus_to_genomes in H.
  apply bind_ok_inv in H as (st & Hst & H). inversion H; subst; clear H.
  revert Hst. apply (map_otus_index_invariant _ _ _ _ _ _ _ _ (λ m, m = per_rank_map));
    [|done].
  intros s s' otu taxid ab available Ha Hs.
  destruct (assign_genomes_index _ _ _ _ _ _ _ _ _ _ _ Ha) as [used ->]. done.
Qed.

Lemma with_replacement_index_unchanged_witness :
  ∃ otu_genome_map per_rank_map' g' logged,
    map_otus_to_genomes Toy.ncbi Toy.runtime [Toy.otu1; Toy.otu2] Toy.index
      RANKS "family" 1 2 3 false true false (0 : rng Toy.runtime)
    = Ok (otu_genome_map, per_rank_map', g', logged)
    ∧ per_rank_map' = Toy.index.
Proof.
  eexists _, _, _, _. split; [vm_compute; reflexivity|].
  eapply (with_replacement_index_unchanged Toy.ncbi Toy.runtime
            [Toy.otu1; Toy.otu2] Toy.index RANKS "family" 1 2 3 false false
            (0 : rng Toy.runtime)).
  vm_compute. reflexivity.
Defined.

(** X16. With or without replacement, a run adds nothing to the rank index
    and drops no key: the index that is returned has the ranks of the index
    that was given, a bucket for the same ids under each rank, and each
    bucket is the given bucket with some genomes taken out, possibly all. *)
Theorem run_only_takes_genomes_out (ncbi : NCBITaxa) (R : Runtime)
    (profile : list (string * (list string * list Q)))
    (per_rank_map : rank_index) (ranks : list string) (max_rank : string)
    (mu sigma max_strains : Z) (debug replace fillup : bool) (g g' : rng R)
    (otu_genome_map : gmap string assignment) (per_rank_map' : rank_index)
    (logged : list log_record) :
  map_otus_to_genomes ncbi R profile per_rank_map ranks max_rank mu sigma
    max_strains debug replace fillup g
  = Ok (otu_genome_map, per_rank_map', g', logged) →
  index_within per_rank_map' per_rank_map.
Proof.
  intros H. unfold map_otus_to_genomes in H.
  apply bind_ok_inv in H as (st & Hst & H). inversion H; subst; clear H.
  revert Hst.
  apply (map_otus_index_invariant _ _ _ _ _ _ _ _ (λ m, index_within m per_rank_map));
    [|apply index_within_refl].
  intros s s' otu taxid ab available Ha Hs.
  destruct (assign_genomes_index _ _ _ _ _ _ _ _ _ _ _ Ha) as [used ->].
  destruct replace; [done|]. by apply index_within_removals.
Qed.

Lemma run_only_takes_genomes_out_witness :
  ∃ otu_genome_map per_rank_map' g' logged,
    map_otus_to_genomes Toy.ncbi Toy.runtime [Toy.otu1; Toy.otu2] Toy.index
      RANKS "family" 1 2 3 false false false (0 : rng Toy.runtime)
    = Ok (otu_genome_map, per_rank_map', g', logged)
    ∧ index_within per_rank_map' Toy.index.
Proof.
  eexists _, _, _, _. split; [vm_compute; reflexivity|].
  eapply (run_only_takes_genomes_out Toy.ncbi Toy.runtime
            [Toy.otu1; Toy.otu2] Toy.index RANKS "family" 1 2 3 false false false
            (0 : rng Toy.runtime)).
  vm_compute. reflexivity.
Defined.

(** ** [map_otus_to_genomes]: where the records come from *)

(** A property of the state that the warnings do not touch and that the
    assignment of the genomes of a bucket of the index keeps is kept by the
    loop over the profile. *)
Lemma map_otus_state_invariant (ncbi : NCBITaxa) (R : Runtime)
    (ranks : list string) (max_rank : string) (mu sigma max_strains : Z)
    (replace : bool) (P : state R → Prop)
    (profile : list (string * (list string * list Q))) (st st' : state R) :
  (∀ s ws, P s → P (warn ws s)) →
  (∀ s s' otu taxid ab rank rank_map available,
     st_index s !! rank = Some rank_map → rank_map !! taxid = Some available →
     assign_genomes R otu taxid ab available mu sigma max_strains replace s = Ok s' →
     P s → P s') →
  P st →
  for_each (map_otu ncbi R ranks max_rank mu sigma max_strains replace) profile st
  = Ok st' →
  P st'.
Proof.
  intros Hwarn Hassign.
  apply (for_each_invariant P).
  intros entry s s' _ Hs Hinv. unfold map_otu in Hs.
  apply bind_ok_inv in Hs as (lineage & _ & Hs).
  apply bind_ok_inv in Hs as (s1 & Hs1 & Hs).
  assert (P s1) as Hinv1.
  { destruct (decide (length lineage = 0)).
    - apply bind_ok_inv in Hs1 as (member & _ & Hs1).
      apply bind_ok_inv in Hs1 as (name & _ & Hs1). inversion Hs1; subst.
      by apply Hwarn.
    - by inversion Hs1; subst. }
  clear Hs1 Hinv. revert s1 Hinv1 Hs.
  generalize lineage at 3. intros todo.
  induction todo as [|taxid todo IH]; intros s1 Hinv1 Hs; simpl in Hs.
  - by inversion Hs; subst.
  - apply bind_ok_inv in Hs as (rank & _ & Hs).
    apply bind_ok_inv in Hs as (i & _ & Hs).
    apply bind_ok_inv in Hs as (j & _ & Hs).
    destruct (decide (j < i)) as [|_]; [inversion Hs; subst; by apply Hwarn|].
    apply bind_ok_inv in Hs as (genomes & Hgenomes & Hs).
    unfold subscript in Hgenomes.
    destruct (st_index s1 !! rank) as [rank_map|] eqn:Hrm; inversion Hgenomes; subst.
    destruct (genomes !! taxid) as [available|] eqn:Hav.
    + by eapply Hassign.
    + eapply IH; [|exact Hs]. by apply Hwarn.
Qed.

(** A record after [assign_genomes] was there before, or is a strain of the
    OTU with a genome of the bucket. *)
Lemma assign_genomes_records (R : Runtime) (otu : string) (taxid : Z) (ab : list Q)
    (available : list (string * string)) (mu sigma max_strains : Z)
    (replace : bool) (st st' : state R) (key : string) (r : assignment) :
  runtime_contract R →
  assign_genomes R otu taxid ab available mu sigma max_strains replace st = Ok st' →
  st_map st' !! key = Some r →
  st_map st !! key = Some r
  ∨ ∃ i n g, key = strain_id otu i ∧ tax_id r = taxid ∧ genome_of r ∈ available
             ∧ strains_to_draw R max_strains (st_rng st) = Ok (n, g)
             ∧ (Z.of_nat i < n)%Z.
Proof.
  intros HR H Hr.
  destruct (assign_genomes_spec R _ _ _ _ _ _ _ _ _ _ HR H)
    as (n & g & used & ws & Hn & _ & Hsub & Hlen & _ & _ & Ha & _).
  destruct Ha as (_ & _ & Hrec & Hother).
  destruct (decide (key ∈ strain_id otu <$> seq 0 (length used))) as [Hin|Hout].
  - right. apply list_elem_of_fmap in Hin as (i & -> & Hi).
    apply elem_of_seq in Hi.
    destruct (lookup_lt_is_Some_2 used i) as [x Hx]; [lia|].
    destruct (Hrec i x Hx) as (w & _ & Hm). rewrite Hm in Hr. inversion Hr; subst r.
    exists i, n, g. split; [done|]. split; [done|]. split.
    + unfold genome_of, strain_record. simpl. destruct x. simpl.
      apply Hsub. by eapply list_elem_of_lookup_2.
    + split; [done|]. lia.
  - left. rewrite <- Hother; [done|]. intros j Hj ->. apply Hout.
    apply list_elem_of_fmap_2, elem_of_seq. lia.
Qed.

Lemma in_bucket_of (m : rank_index) (rank : string) (t : Z) (x : string * string) :
  in_bucket m rank t x ↔ ∃ b, bucket_of m rank t = Some b ∧ x ∈ b.
Proof.
  unfold in_bucket, bucket_of. split.
  - intros (rm & b & H1 & H2 & Hx). exists b. by rewrite H1.
  - intros (b & Hb & Hx). destruct (m !! rank) as [rm|]; simpl in Hb; [|discriminate].
    by exists rm, b.
Qed.

(** X17. Every record of the assignment holds a genome that the rank index
    that was given lists in the bucket of the taxonomic id of the record,
    under some rank. *)
Theorem records_come_from_the_index (ncbi : NCBITaxa) (R : Runtime)
    (profile : list (string * (list string * list Q)))
    (per_rank_map : rank_index) (ranks : list string) (max_rank : string)
    (mu sigma max_strains : Z) (debug replace fillup : bool) (g g' : rng R)
    (otu_genome_map : gmap string assignment) (per_rank_map' : rank_index)
    (logged : list log_record) :
  runtime_contract R →
  map_otus_to_genomes ncbi R profile per_rank_map ranks max_rank mu sigma
    max_strains debug replace fillup g
  = Ok (otu_genome_map, per_rank_map', g', logged) →
  ∀ key r, otu_genome_map !! key = Some r →
    ∃ rank, in_bucket per_rank_map rank (tax_id r) (path r, genome_id r).
Proof.
  intros HR H. unfold map_otus_to_genomes in H.
  apply bind_ok_inv in H as (st & Hst & H). inversion H; subst; clear H.
  apply (map_otus_state_invariant _ _ _ _ _ _ _ _
    (λ s, index_within (st_index s) per_rank_map
          ∧ ∀ key r, st_map s !! key = Some r →
              ∃ rank, in_bucket per_rank_map rank (tax_id r) (genome_of r)))
    in Hst.
  - by destruct Hst.
  - by intros s ws.
  - intros s s' otu taxid ab rank rank_map available Hrm Hav Ha [Hw Hrec]. split.
    + destruct (assign_genomes_index _ _ _ _ _ _ _ _ _ _ _ Ha) as [used ->].
      destruct replace; [done|]. by apply index_within_removals.
    + intros key r Hr.
      destruct (assign_genomes_records _ _ _ _ _ _ _ _ _ _ _ _ _ HR Ha Hr)
        as [Hold|(i & n & g0 & _ & <- & Hin & _)]; [by eapply Hrec|].
      exists rank. apply in_bucket_of.
      destruct Hw as [_ Hb]. specialize (Hb rank (tax_id r)).
      unfold bucket_of at 1 in Hb. rewrite Hrm in Hb. simpl in Hb. rewrite Hav in Hb.
      inversion Hb as [b' b Hsub Hb1 Hb2|]; subst.
      exists b. split; [done|]. by eapply elem_of_sublist.
  - simpl. split; [apply index_within_refl|]. intros key r. by rewrite lookup_empty.
Qed.

Lemma records_come_from_the_index_witness :
  ∃ otu_genome_map per_rank_map' g' logged,
    map_otus_to_genomes Toy.ncbi Toy.runtime [Toy.otu1; Toy.otu2] Toy.index
      RANKS "family" 1 2 3 false false false (0 : rng Toy.runtime)
    = Ok (otu_genome_map, per_rank_map', g', logged)
    ∧ ∀ key r, otu_genome_map !! key = Some r →
        ∃ rank, in_bucket Toy.index rank (tax_id r) (path r, genome_id r).
Proof.
  eexists _, _, _, _. split; [vm_compute; reflexivity|].
  eapply (records_come_from_the_index Toy.ncbi Toy.runtime
            [Toy.otu1; Toy.otu2] Toy.index RANKS "family" 1 2 3 false false false
            (0 : rng Toy.runtime)).
  - exact toy_runtime_contract.
  - vm_compute. reflexivity.
Defined.

(** ** [map_otus_to_genomes]: the number of strains of an OTU *)

Lemma strains_to_draw_bound (R : Runtime) (max_strains n : Z) (g g' : rng R) :
  strains_to_draw R max_strains g = Ok (n, g') →
  (1 ≤ n ≤ Z.max 1 (max_strains - 1))%Z.
Proof.
  unfold strains_to_draw. destruct (decide (max_strains = 0)%Z); [discriminate|].
  intros H. apply bind_ok_inv in H as ([k g0] & _ & H). inversion H; subst.
  destruct (Z_lt_le_dec 0 max_strains).
  - pose proof (Z.mod_pos_bound k max_strains). lia.
  - pose proof (Z.mod_neg_bound k max_strains). lia.
Qed.

(** X18. No OTU gets as many strains as [max_strains] allows: in the
    assignment of a run every key is [otu.i] with [i] below
    [max(1, max_strains - 1)], so an OTU has at most that many records (two,
    for the default of three). *)
Theorem strains_per_otu_below_max (ncbi : NCBITaxa) (R : Runtime)
    (profile : list (string * (list string * list Q)))
    (per_rank_map : rank_index) (ranks : list string) (max_rank : string)
    (mu sigma max_strains : Z) (debug replace fillup : bool) (g g' : rng R)
    (otu_genome_map : gmap string assignment) (per_rank_map' : rank_index)
    (logged : list log_record) :
  runtime_contract R →
  map_otus_to_genomes ncbi R profile per_rank_map ranks max_rank mu sigma
    max_strains debug replace fillup g
  = Ok (otu_genome_map, per_rank_map', g', logged) →
  ∀ key, is_Some (otu_genome_map !! key) →
    ∃ otu i, key = strain_id otu i ∧ (Z.of_nat i < Z.max 1 (max_strains - 1))%Z.
Proof.
  intros HR H. unfold map_otus_to_genomes in H.
  apply bind_ok_inv in H as (st & Hst & H). inversion H; subst; clear H.
  refine (map_otus_state_invariant _ _ _ _ _ _ _ _
    (λ s, ∀ key, is_Some (st_map s !! key) →
            ∃ otu i, key = strain_id otu i
                     ∧ (Z.of_nat i < Z.max 1 (max_strains - 1))%Z) _ _ _ _ _ _ Hst).
  - by intros s ws.
  - intros s s' otu taxid ab rank rank_map available _ _ Ha Hinv key [r Hr].
    destruct (assign_genomes_records _ _ _ _ _ _ _ _ _ _ _ _ _ HR Ha Hr)
      as [Hold|(i & n & g0 & -> & _ & _ & Hn & Hi)]; [apply Hinv; eauto|].
    exists otu, i. split; [done|]. apply strains_to_draw_bound in Hn. lia.
  - simpl. intros key [r Hr]. by rewrite lookup_empty in Hr.
Qed.

Lemma strains_per_otu_below_max_witness :
  ∃ otu_genome_map per_rank_map' g' logged,
    map_otus_to_genomes Toy.ncbi Toy.runtime [Toy.otu1; Toy.otu2] Toy.index
      RANKS "family" 1 2 3 false false false (0 : rng Toy.runtime)
    = Ok (otu_genome_map, per_rank_map', g', logged)
    ∧ ∀ key, is_Some (otu_genome_map !! key) →
        ∃ otu i, key = strain_id otu i ∧ (Z.of_nat i < Z.max 1 (3 - 1))%Z.
Proof.
  eexists _, _, _, _. split; [vm_compute; reflexivity|].
  eapply (strains_per_otu_below_max Toy.ncbi Toy.runtime
            [Toy.otu1; Toy.otu2] Toy.index RANKS "family" 1 2 3 false false false
            (0 : rng Toy.runtime)).
  - exact toy_runtime_contract.
  - vm_compute. reflexivity.
Defined.

(** ** [map_otus_to_genomes]: the records are shares of the OTUs of the profile *)

Lemma weight_le_sum (ws : list Q) (i : nat) (w : Q) :
  Forall (λ w, (0 < w)%Q) ws → ws !! i = Some w → (w <= sum ws)%Q.
Proof.
  intros Hpos. revert i. induction Hpos as [|x l Hx Hl IH]; intros i Hi.
  - by rewrite lookup_nil in Hi.
  - rewrite sum_cons. destruct i as [|i]; simpl in Hi.
    + inversion Hi; subst x. apply sum_nonneg in Hl.
      apply Qle_trans with (w + 0)%Q; [rewrite Qplus_0_r; apply Qle_refl|].
      apply Qplus_le_compat; [apply Qle_refl|done].
    + specialize (IH i Hi). apply Qlt_le_weak in Hx.
      apply Qle_trans with (0 + sum l)%Q; [by rewrite Qplus_0_l|].
      apply Qplus_le_compat; [done|apply Qle_refl].
Qed.

(** The share [w / total] of an abundance that is not negative lies between
    0 and the abundance. *)
Lemma share_bounds (w total a : Q) :
  (0 < w)%Q → (w <= total)%Q → (0 <= a)%Q →
  (0 <= w / total * a)%Q ∧ (w / total * a <= a)%Q.
Proof.
  intros Hw Hle Ha.
  assert (0 < total)%Q as Ht by (by eapply Qlt_le_trans).
  assert (0 <= w / total)%Q as H0.
  { apply Qle_shift_div_l; [done|]. rewrite Qmult_0_l. by apply Qlt_le_weak. }
  assert (w / total <= 1)%Q as H1.
  { apply Qle_shift_div_r; [done|]. by rewrite Qmult_1_l. }
  split.
  - by apply Qmult_le_0_compat.
  - apply Qle_trans with (1 * a)%Q; [|rewrite Qmult_1_l; apply Qle_refl].
    by apply Qmult_le_compat_r.
Qed.

(** X19. Every record of the assignment of a run over a profile (a dict: no
    OTU twice) is a strain [otu.i] of an OTU of the profile, it has one
    abundance per sample of that OTU, and where the abundance of the OTU at a
    sample is not negative, the abundance of the strain there lies between 0
    and the abundance of the OTU. *)
Theorem records_are_shares_of_profile_otus (ncbi : NCBITaxa) (R : Runtime)
    (profile : list (string * (list string * list Q)))
    (per_rank_map : rank_index) (ranks : list string) (max_rank : string)
    (mu sigma max_strains : Z) (debug replace fillup : bool) (g g' : rng R)
    (otu_genome_map : gmap string assignment) (per_rank_map' : rank_index)
    (logged : list log_record) :
  runtime_contract R → NoDup profile.*1 →
  map_otus_to_genomes ncbi R profile per_rank_map ranks max_rank mu sigma
    max_strains debug replace fillup g
  = Ok (otu_genome_map, per_rank_map', g', logged) →
  ∀ key r, otu_genome_map !! key = Some r →
    ∃ otu lin ab i,
      (otu, (lin, ab)) ∈ profile ∧ key = strain_id otu i
      ∧ length (abundances r) = length ab
      ∧ ∀ sample a, ab !! sample = Some a →
          ∃ v, abundances r !! sample = Some v
               ∧ ((0 <= a)%Q → (0 <= v)%Q ∧ (v <= a)%Q).
Proof.
  intros HR Hnd H key r Hr. unfold map_otus_to_genomes in H.
  apply bind_ok_inv in H as (st & Hst & H). inversion H; subst; clear H.
  apply map_otus_visited_done in Hst as [Hdone Hkeys]; [|done|done|done].
  destruct (Hkeys key) as ([otu [lin ab]] & i & He & ->); [by rewrite Hr|].
  destruct (Hdone _ He) as (used & ws & Hlen & Hpos & Hrec & Hnone).
  simpl in *.
  destruct (decide (i < length used)) as [Hi|Hi];
    [|rewrite Hnone in Hr by lia; discriminate].
  destruct (lookup_lt_is_Some_2 used i Hi) as [x Hx].
  destruct (Hrec i x Hx) as (taxid & w & Hw & Hm).
  rewrite Hm in Hr. inversion Hr; subst r; clear Hr.
  exists otu, lin, ab, i. split; [done|]. split; [done|].
  unfold strain_record. cbn [abundances]. split; [by rewrite length_fmap|].
  intros sample a Ha. exists (w / sum ws * a)%Q. split.
  - by rewrite list_lookup_fmap, Ha.
  - intros Hpos_a. apply share_bounds; [|by eapply weight_le_sum|done].
    rewrite Forall_forall in Hpos. apply Hpos. by eapply list_elem_of_lookup_2.
Qed.

Lemma records_are_shares_of_profile_otus_witness :
  ∃ otu_genome_map per_rank_map' g' logged,
    map_otus_to_genomes Toy.ncbi Toy.runtime [Toy.otu1; Toy.otu2] Toy.index
      RANKS "family" 1 2 3 false false false (0 : rng Toy.runtime)
    = Ok (otu_genome_map, per_rank_map', g', logged)
    ∧ ∀ key r, otu_genome_map !! key = Some r →
        ∃ otu lin ab i,
          (otu, (lin, ab)) ∈ [Toy.otu1; Toy.otu2] ∧ key = strain_id otu i
          ∧ length (abundances r) = length ab
          ∧ ∀ sample a, ab !! sample = Some a →
              ∃ v, abundances r !! sample = Some v
                   ∧ ((0 <= a)%Q → (0 <= v)%Q ∧ (v <= a)%Q).
Proof.
  eexists _, _, _, _. split; [vm_compute; reflexivity|].
  eapply (records_are_shares_of_profile_otus Toy.ncbi Toy.runtime
            [Toy.otu1; Toy.otu2] Toy.index RANKS "family" 1 2 3 false false false
            (0 : rng Toy.runtime)).
  - exact toy_runtime_contract.
  - refine (bool_decide_unpack _ _). vm_compute. exact I.
  - vm_compute. reflexivity.
Defined.

(** ** [map_otus_to_genomes]: an OTU whose bucket was emptied *)

(** The walk up to the first id with a bucket, with the warnings it leaves:
    one for every id that was passed. *)
Lemma walk_lineage_found_warnings (R : Runtime) (ranks : list string)
    (max_rank : string) (mu sigma max_strains : Z) (replace : bool) (otu : string)
    (lin : list string) (ab : list Q) (lineage : list Z)
    (lineage_ranks : gmap Z string) (pre post : list Z) (taxid : Z) (rank : string)
    (genomes : gmap Z (list (string * string)))
    (available : list (string * string)) (st : state R) :
  (∀ t, t ∈ pre →
     ∃ r rank_map, lineage_ranks !! t = Some r ∧ up_to ranks max_rank r
                   ∧ st_index st !! r = Some rank_map ∧ rank_map !! t = None) →
  lineage_ranks !! taxid = Some rank → up_to ranks max_rank rank →
  st_index st !! rank = Some genomes → genomes !! taxid = Some available →
  ∃ st0 new,
    st_rng st0 = st_rng st ∧ st_index st0 = st_index st ∧ st_map st0 = st_map st
    ∧ st_warnings st0 = st_warnings st ++ new
    ∧ Forall2 (λ t w, ∃ r, w = NoGenomesOnRank otu r t) pre new
    ∧ walk_lineage R ranks max_rank mu sigma max_strains replace otu lin ab
        lineage lineage_ranks (pre ++ taxid :: post) st
      = assign_genomes R otu taxid ab available mu sigma max_strains replace st0.
Proof.
  intros Hpre Hrank (i & j & Hi & Hj & Hij) Hgenomes Havailable.
  revert st Hpre Hgenomes. induction pre as [|t pre IH]; intros st Hpre Hgenomes; simpl.
  - exists st, []. rewrite app_nil_r. repeat (split; [done|]).
    unfold subscript. rewrite Hrank, bind_ok, Hi, bind_ok, Hj, bind_ok.
    destruct (decide (j < i)); [lia|].
    by rewrite Hgenomes, bind_ok, Havailable.
  - destruct (Hpre t) as (r & rank_map & Hr & (i' & j' & Hi' & Hj' & Hij') & Hrm & Ht);
      [by left|].
    unfold subscript at 1. rewrite Hr, bind_ok, Hi', bind_ok, Hj', bind_ok.
    destruct (decide (j' < i')); [lia|].
    unfold subscript at 1. rewrite Hrm, bind_ok, Ht.
    destruct (IH (warn [NoGenomesOnRank otu r t] st))
      as (st0 & new & Hg0 & Hi0 & Hm0 & Hw0 & Hnew & ->).
    + intros t' Ht'. apply Hpre. by right.
    + done.
    + exists st0, (NoGenomesOnRank otu r t :: new).
      split; [done|]. split; [done|]. split; [done|]. split.
      * rewrite Hw0. simpl. by rewrite <- app_assoc.
      * split; [|done]. constructor; [by exists r|done].
Qed.

(** X20. An OTU whose lineage walk comes to an id with a bucket that holds
    no genome any more (the genomes were taken out for other OTUs) gets no
    record, and no warning says so: the walk stops there, the assignment and
    the rank index are as they were, and the only new warnings are those for
    the ids without a bucket that were passed before. *)
Theorem emptied_bucket_gives_nothing (ncbi : NCBITaxa) (R : Runtime)
    (ranks : list string) (max_rank : string) (mu sigma max_strains : Z)
    (replace : bool) (entry : string * (list string * list Q)) (st : state R)
    (pre post : list Z) (taxid : Z) (rank : string)
    (genomes : gmap Z (list (string * string))) :
  runtime_contract R → (2 ≤ max_strains)%Z → (0 < sigma)%Z →
  transform_lineage ncbi entry.2.1 ranks max_rank = Ok (pre ++ taxid :: post) →
  (∀ t, t ∈ pre →
     ∃ r rank_map, get_rank ncbi (pre ++ taxid :: post) !! t = Some r
                   ∧ up_to ranks max_rank r
                   ∧ st_index st !! r = Some rank_map ∧ rank_map !! t = None) →
  get_rank ncbi (pre ++ taxid :: post) !! taxid = Some rank →
  up_to ranks max_rank rank →
  st_index st !! rank = Some genomes → genomes !! taxid = Some [] →
  ∃ st' new,
    map_otu ncbi R ranks max_rank mu sigma max_strains replace entry st = Ok st'
    ∧ st_map st' = st_map st
    ∧ st_index st' = st_index st
    ∧ st_warnings st' = st_warnings st ++ new
    ∧ Forall2 (λ t w, ∃ r, w = NoGenomesOnRank entry.1 r t) pre new.
Proof.
  intros HR Hmax Hsigma Hlin Hpre Hrank Hup Hgenomes Havailable.
  destruct (walk_lineage_found_warnings R ranks max_rank mu sigma max_strains replace
              entry.1 entry.2.1 entry.2.2 (pre ++ taxid :: post)
              (get_rank ncbi (pre ++ taxid :: post)) pre post taxid rank genomes
              [] st Hpre Hrank Hup Hgenomes Havailable)
    as (st0 & new & Hg0 & Hi0 & Hm0 & Hw0 & Hnew & Hwalk).
  destruct (assign_genomes_returns R entry.1 taxid entry.2.2 [] mu sigma
              max_strains replace st0 HR Hmax Hsigma) as [st' Hst'].
  destruct (assign_genomes_spec R _ _ _ _ _ _ _ _ _ _ HR Hst')
    as (n & g1 & used & ws & _ & _ & Hsub & _ & _ & _ & Hassigned & Hindex & Hwarn).
  assert (used = []) as ->.
  { destruct used as [|x used]; [done|].
    specialize (Hsub x (list_elem_of_here _ _)). by apply elem_of_nil in Hsub. }
  exists st', new. split.
  - unfold map_otu. rewrite Hlin, bind_ok.
    destruct (decide (length (pre ++ taxid :: post) = 0)) as [Hlen|_].
    { rewrite length_app in Hlen. simpl in Hlen. lia. }
    by rewrite bind_ok, Hwalk.
  - destruct Hassigned as (_ & _ & _ & Hother). split.
    + rewrite <- Hm0. apply map_eq. intros key. apply Hother. simpl. lia.
    + split; [rewrite Hindex; simpl; by destruct replace|].
      split; [by rewrite Hwarn|done].
Qed.

Lemma emptied_bucket_gives_nothing_witness :
  let st : state Toy.runtime :=
    {| st_rng := (0 : rng Toy.runtime);
       st_index := <["species" := ∅]> (<["genus" := <[561%Z := []]> ∅]> ∅);
       st_map := ∅; st_warnings := [] |} in
  ∃ st' new,
    map_otu Toy.ncbi Toy.runtime RANKS "family" 1 2 3 false Toy.otu1 st = Ok st'
    ∧ st_map st' = st_map st
    ∧ st_index st' = st_index st
    ∧ st_warnings st' = st_warnings st ++ new
    ∧ Forall2 (λ t w, ∃ r, w = NoGenomesOnRank (Toy.otu1).1 r t) [562%Z] new.
Proof.
  intros st.
  apply (emptied_bucket_gives_nothing Toy.ncbi Toy.runtime RANKS "family" 1 2 3 false
           Toy.otu1 st [562%Z] [] 561 "genus" (<[561%Z := []]> ∅)).
  - exact toy_runtime_contract.
  - lia.
  - lia.
  - vm_compute. reflexivity.
  - intros t Ht. apply list_elem_of_singleton in Ht. subst t.
    exists "species", ∅. split; [vm_compute; reflexivity|].
    split; [exists 0, 2; vm_compute; auto|].
    split; [vm_compute; reflexivity|reflexivity].
  - vm_compute. reflexivity.
  - exists 1, 2. vm_compute. auto.
  - vm_compute. reflexivity.
  - vm_compute. reflexivity.
Defined.

(** ** [map_otus_to_genomes]: an OTU without an id *)

Lemma split_go_nonempty (sep : string) (skip : nat) (cur s : string) :
  Str.split_go sep skip cur s ≠ [].
Proof.
  revert skip cur. induction s as [|c s IH]; intros skip cur; simpl; [done|].
  destruct skip as [|k]; [|apply IH].
  destruct (Str.startswith sep (String c s)); [done|apply IH].
Qed.

(** [s.split(sep)] has a last field. *)
Lemma last_split (sep s : string) : is_Some (last (Str.split sep s)).
Proof.
  destruct (last (Str.split sep s)) as [name|] eqn:H; [eauto|].
  apply last_None in H. by apply split_go_nonempty in H.
Qed.

(** X21. An OTU none of whose tokens gives an id is not walked: with at
    least one token it gets the one warning [NoMatchingId], with the text
    after the last "__" of its last token, and nothing else changes; with an
    empty list of tokens the warning itself raises [IndexError], at
    [lin[-1]]. *)
Theorem otu_without_id (ncbi : NCBITaxa) (R : Runtime) (ranks : list string)
    (max_rank : string) (mu sigma max_strains : Z) (replace : bool)
    (entry : string * (list string * list Q)) (st : state R) :
  transform_lineage ncbi entry.2.1 ranks max_rank = Ok [] →
  match last entry.2.1 with
  | Some member =>
      ∃ name, last (Str.split "__" member) = Some name
              ∧ map_otu ncbi R ranks max_rank mu sigma max_strains replace entry st
                = Ok (warn [NoMatchingId entry.1 name] st)
  | None =>
      map_otu ncbi R ranks max_rank mu sigma max_strains replace entry st
      = Raise IndexError
  end.
Proof.
  intros Hlin. unfold map_otu. rewrite Hlin, bind_ok.
  destruct (decide (length ([] : list Z) = 0)) as [_|Hne]; [|done].
  unfold last_item. destruct (last entry.2.1) as [member|]; [|done].
  destruct (last_split "__" member) as [name Hname].
  exists name. split; [done|]. by rewrite bind_ok, Hname.
Qed.

Lemma otu_without_id_witness :
  match last (("otu9", (["genus__Unknown"], [1%Q])) : string * (list string * list Q)).2.1 with
  | Some member =>
      ∃ name, last (Str.split "__" member) = Some name
              ∧ map_otu Toy.ncbi Toy.runtime RANKS "family" 1 2 3 false
                  ("otu9", (["genus__Unknown"], [1%Q])) Toy.start
                = Ok (warn [NoMatchingId "otu9" name] Toy.start)
  | None =>
      map_otu Toy.ncbi Toy.runtime RANKS "family" 1 2 3 false
        ("otu9", (["genus__Unknown"], [1%Q])) Toy.start
      = Raise IndexError
  end.
Proof.
  apply (otu_without_id Toy.ncbi Toy.runtime RANKS "family" 1 2 3 false
           ("otu9", (["genus__Unknown"], [1%Q])) Toy.start).
  vm_compute. reflexivity.
Defined.

(** ** [map_otus_to_genomes] returns *)








(** ** [write_config]: what is written when it returns, and how it fails *)

(** A pass through the [try] that does not raise has bound [genome_path]. *)
Lemma attempt_ok_binds (IO : Retrieval) (p out_path create_path : string)
    (gp gp' : option string) (w w' : world IO) (u : ()) :
  attempt IO p out_path create_path gp w = (Ok u, gp', w') → is_Some gp'.
Proof.
  unfold attempt.
  destruct (Str.startswith "http" p || Str.startswith "ftp" p).
  - destruct (download_genome IO p out_path w) as [[g|x] w1]; intros H; inversion H; eauto.
  - destruct (last_item (Str.split "/" (Str.rstrip p))) as [out_name|x].
    + destruct (copy2 IO p (path_join create_path out_name) w) as [r w1].
      intros H; inversion H; eauto.
    + intros H; inversion H.
Qed.

(** The loop ends with [counter] at its bound, or with [genome_path] bound. *)
Lemma retry_counted_or_bound (IO : Retrieval) (p out_path create_path : string)
    (remaining counter c : nat) (gp gp' : option string) (e e' : option exn)
    (w w' : world IO) :
  retry IO p out_path create_path remaining counter gp e w = (c, gp', e', w') →
  c = counter + remaining ∨ is_Some gp'.
Proof.
  revert counter gp e w. induction remaining as [|r IH]; intros counter gp e w; simpl.
  - intros H. inversion H. left. lia.
  - destruct (attempt IO p out_path create_path gp w) as [[[u|x] gp1] w1] eqn:Ha.
    + intros H. inversion H; subst. right. by eapply attempt_ok_binds.
    + intros H. apply IH in H as [->|H]; [left; lia|by right].
Qed.

(** The body of the loop over the records, when the genome was retrieved. *)
Lemma write_record_retrieved (IO : Retrieval) (out_path create_path : string)
    (no_samples c : nat) (entry : string * assignment) (gp gp' : option string)
    (e' : option exn) (w' : world IO) (s : written IO) :
  retry IO (path entry.2) out_path create_path 10 0 gp None (w_world s)
  = (c, gp', e', w') →
  c ≠ 10 →
  ∃ g, gp' = Some g
    ∧ write_record IO out_path create_path no_samples entry gp s
      = (let '(rows, r) :=
           write_abundances entry.1 (abundances entry.2) (seq 0 no_samples)
             (w_abundance s) in
         ({| w_world := w';
             w_genome_to_id := w_genome_to_id s ++ [(entry.1, g)];
             w_metadata := w_metadata s ++ [metadata_row entry];
             w_abundance := rows;
             w_log := w_log s |},
          let! _ := r in Ok (Some g))).
Proof.
  intros Hr Hc.
  destruct (retry_counted_or_bound _ _ _ _ _ _ _ _ _ _ _ _ _ Hr) as [->|[g ->]]; [done|].
  exists g. split; [done|]. unfold write_record. rewrite Hr. cbv beta iota zeta.
  destruct (decide (c = 10)) as [|_]; [done|]. reflexivity.
Qed.

(** The loop over the samples writes the rows of the record, or stops with
    [IndexError] at a sample the record has no abundance for. *)
Lemma write_abundances_spec (otu : string) (ab : list Q) (samples : list nat)
    (rows : list (nat * string * Q)) :
  (Forall (λ i, i < length ab) samples
   ∧ write_abundances otu ab samples rows
     = (rows ++ omap (λ i, (λ a, (i, otu, a)) <$> ab !! i) samples, Ok ()))
  ∨ (∃ i rows', i ∈ samples ∧ length ab ≤ i
       ∧ write_abundances otu ab samples rows = (rows', Raise IndexError)).
Proof.
  revert rows. induction samples as [|i samples IH]; intros rows; simpl.
  - left. split; [constructor|]. by rewrite app_nil_r.
  - destruct (ab !! i) as [a|] eqn:Ha.
    + destruct (IH (rows ++ [(i, otu, a)])) as [[Hall ->]|(j & rows' & Hj & Hle & ->)].
      * left. split.
        -- constructor; [by eapply lookup_lt_Some|done].
        -- simpl. by rewrite <- app_assoc.
      * right. exists j, rows'. split; [by right|done].
    + right. exists i, rows. split; [by left|]. split; [|done].
      by apply lookup_ge_None.
Qed.

Lemma seq_all_below (n len : nat) : Forall (λ i, i < len) (seq 0 n) → n ≤ len.
Proof.
  intros H. destruct n as [|n]; [lia|].
  rewrite Forall_forall in H. specialize (H n). rewrite elem_of_seq in H. lia.
Qed.

(** The loop over the records when it returns: the rows of every record were
    appended, in the order of the records, and nothing was logged. *)
Lemma write_records_returns_rows (IO : Retrieval) (out_path create_path : string)
    (no_samples : nat) (entries : list (string * assignment))
    (gp : option string) (s s' : written IO) (u : ()) :
  write_records IO out_path create_path no_samples entries gp s = (s', Ok u) →
  w_metadata s' = w_metadata s ++ (metadata_row <$> entries)
  ∧ (w_genome_to_id s').*1 = (w_genome_to_id s).*1 ++ entries.*1
  ∧ w_abundance s' = w_abundance s ++ (entries ≫= abundance_rows no_samples)
  ∧ Forall (λ e, no_samples ≤ length (abundances e.2)) entries
  ∧ w_log s' = w_log s.
Proof.
  revert gp s. induction entries as [|entry entries IH]; intros gp s.
  - simpl. intros H. inversion H; subst. rewrite !app_nil_r. by repeat split.
  - rewrite write_records_cons.
    destruct (retry IO (path entry.2) out_path create_path 10 0 gp None (w_world s))
      as [[[c gp1] e1] w1] eqn:Hr.
    destruct (decide (c = 10)) as [->|Hc].
    { rewrite (write_record_counter_10 IO _ _ _ _ _ _ _ _ _ Hr). intros H. inversion H. }
    destruct (write_record_retrieved IO out_path create_path no_samples c entry gp
                gp1 e1 w1 s Hr Hc) as (g & -> & ->).
    destruct (write_abundances_spec entry.1 (abundances entry.2) (seq 0 no_samples)
                (w_abundance s)) as [[Hall ->]|(i & rows' & _ & _ & ->)];
      cbv beta iota zeta; [|intros H; inversion H].
    rewrite bind_ok. intros H. apply IH in H as (Hm & Hg & Ha & Hlen & Hl).
    cbn [w_metadata w_genome_to_id w_abundance w_log] in Hm, Hg, Ha, Hl.
    split; [rewrite Hm, fmap_cons; by rewrite <- app_assoc|].
    split; [rewrite Hg, fmap_app, fmap_cons; simpl; by rewrite <- app_assoc|].
    split; [rewrite Ha; simpl; unfold abundance_rows at 2; by rewrite <- app_assoc|].
    split; [|done]. constructor; [by apply seq_all_below|done].
Qed.

(** The loop over the records when it raises. *)
Lemma write_records_raises (IO : Retrieval) (out_path create_path : string)
    (no_samples : nat) (entries : list (string * assignment))
    (gp : option string) (s s' : written IO) (x : exn) :
  write_records IO out_path create_path no_samples entries gp s = (s', Raise x) →
  x = NameError "genome" ∨ (x = IndexError ∧ 0 < no_samples).
Proof.
  revert gp s. induction entries as [|entry entries IH]; intros gp s.
  - simpl. intros H. inversion H.
  - rewrite write_records_cons.
    destruct (retry IO (path entry.2) out_path create_path 10 0 gp None (w_world s))
      as [[[c gp1] e1] w1] eqn:Hr.
    destruct (decide (c = 10)) as [->|Hc].
    { rewrite (write_record_counter_10 IO _ _ _ _ _ _ _ _ _ Hr).
      intros H. inversion H. by left. }
    destruct (write_record_retrieved IO out_path create_path no_samples c entry gp
                gp1 e1 w1 s Hr Hc) as (g & -> & ->).
    destruct (write_abundances_spec entry.1 (abundances entry.2) (seq 0 no_samples)
                (w_abundance s)) as [[Hall ->]|(i & rows' & Hi & _ & ->)];
      cbv beta iota zeta.
    + rewrite bind_ok. apply IH.
    + intros H. inversion H. right. split; [done|].
      apply elem_of_seq in Hi. lia.
Qed.

Lemma config_get_other_section (s1 s2 option : string) (opts : gmap string string)
    (cfg : config) :
  s1 ≠ s2 → config_get s2 option (<[s1 := opts]> cfg) = config_get s2 option cfg.
Proof. intros Hne. unfold config_get. by rewrite lookup_insert_ne. Qed.

(** [write_config] from its loop on, when the two options were set and the
    number of samples was read. *)
Lemma write_config_loop (IO : Retrieval) (otu_genome_map : list (string * assignment))
    (out_path : string) (cfg : config) (w : world IO) (n : string) (z : Z) :
  is_Some (cfg !! "community0") →
  config_get "Main" "number_of_samples" cfg = Ok n → int_of_str n = Ok z →
  ∃ cfg2,
    is_Some (cfg2 !! "Main") ∧ is_Some (cfg2 !! "community0")
    ∧ write_config IO otu_genome_map out_path cfg w
      = match write_records IO out_path (path_join out_path "genomes")
                (Z.to_nat z) otu_genome_map None
                {| w_world := w; w_genome_to_id := []; w_metadata := [];
                   w_abundance := [];
                   w_log := [LogInfo ("Downloading "
                               +:+ pretty (length otu_genome_map) +:+ " genomes")] |}
        with
        | (s, Raise x) => (s, Raise x)
        | (s, Ok _) =>
            (s,
             let! abundance_files :=
               join_commas
                 ((λ i : nat, path_join out_path ("abundance" +:+ pretty i +:+ ".tsv"))
                    <$> seq 0 (Z.to_nat z)) in
             let! cfg := config_set "Main" "distribution_file_paths"
                           abundance_files cfg2 in
             let! cfg := config_set "community0" "num_real_genomes"
                           (pretty (length otu_genome_map)) cfg in
             let! cfg := config_set "community0" "genomes_total"
                           (pretty (length otu_genome_map)) cfg in
             Ok (path_join out_path "config.ini", cfg))
        end.
Proof.
  intros [opts Hc] Hn Hz. eexists. split; [|split]; cycle 2.
  - unfold write_config.
    unfold config_set at 1. rewrite Hc, bind_ok.
    unfold config_set at 1. rewrite lookup_insert_eq, bind_ok.
    rewrite !config_get_other_section by done. rewrite Hn, bind_ok, Hz, bind_ok.
    reflexivity.
  - rewrite !lookup_insert_ne by done. unfold config_get in Hn.
    destruct (cfg !! "Main"); [eauto|discriminate].
  - rewrite lookup_insert_eq. eauto.
Qed.

(** Before the loop [write_config] raises when the configuration lacks a
    section or the option, or the option is no integer. *)
Lemma write_config_start (IO : Retrieval) (otu_genome_map : list (string * assignment))
    (out_path : string) (cfg : config) (w : world IO) :
  (∃ x, (write_config IO otu_genome_map out_path cfg w).2 = Raise x
        ∧ (x = NoSectionError ∨ x = NoOptionError ∨ x = ValueError))
  ∨ ∃ n z, is_Some (cfg !! "community0")
           ∧ config_get "Main" "number_of_samples" cfg = Ok n ∧ int_of_str n = Ok z.
Proof.
  destruct (cfg !! "community0") as [opts|] eqn:Hc.
  2: { left. exists NoSectionError. unfold write_config.
       unfold config_set at 1. rewrite Hc. simpl. auto. }
  destruct (config_get "Main" "number_of_samples" cfg) as [n|x] eqn:Hn.
  2: { left. exists x. split.
       - unfold write_config.
         unfold config_set at 1. rewrite Hc, bind_ok.
         unfold config_set at 1. rewrite lookup_insert_eq, bind_ok.
         rewrite !config_get_other_section by done. by rewrite Hn.
       - unfold config_get in Hn.
         destruct (cfg !! "Main") as [mo|]; [|inversion Hn; auto].
         destruct (mo !! "number_of_samples"); inversion Hn; auto. }
  destruct (int_of_str n) as [z|x] eqn:Hz.
  2: { left. exists x. split.
       - unfold write_config.
         unfold config_set at 1. rewrite Hc, bind_ok.
         unfold config_set at 1. rewrite lookup_insert_eq, bind_ok.
         rewrite !config_get_other_section by done. by rewrite Hn, bind_ok, Hz.
       - unfold int_of_str in Hz.
         destruct (match Str.strip n with
                   | String "-" ds => Z.opp <$> parse_digits ds
                   | String "+" ds => parse_digits ds
                   | ds => parse_digits ds
                   end); inversion Hz; auto. }
  right. exists n, z. eauto.
Qed.

(** X23. [write_config] never raises [UnboundLocalError]: line 243 reads
    [genome_path], which only the [try] block binds, but it is reached only
    when a pass through the [try] went through, and that pass has bound it;
    after ten failed passes the error message of line 241 raises first. *)
Theorem write_config_genome_path_bound (IO : Retrieval)
    (otu_genome_map : list (string * assignment)) (out_path : string)
    (cfg : config) (w : world IO) (name : string) :
  (write_config IO otu_genome_map out_path cfg w).2 ≠ Raise (UnboundLocalError name).
Proof.
  destruct (write_config_start IO otu_genome_map out_path cfg w)
    as [(x & -> & [-> | [-> | ->]]) | (n & z & Hc & Hn & Hz)]; try discriminate.
  destruct (write_config_loop IO otu_genome_map out_path cfg w n z Hc Hn Hz)
    as (cfg2 & [o1 H1] & [o2 H2] & ->).
  destruct (write_records _ _ _ _ _ _ _) as [s [u|x]] eqn:Hw.
  - simpl.
    destruct (join_commas _) as [files|x] eqn:Hj.
    + rewrite bind_ok. unfold config_set at 1. rewrite H1, bind_ok.
      unfold config_set at 1. rewrite lookup_insert_ne, H2, bind_ok by done.
      unfold config_set at 1. rewrite lookup_insert_eq, bind_ok. discriminate.
    + unfold join_commas, last_item in Hj. destruct (last _); inversion Hj.
      discriminate.
  - simpl. apply write_records_raises in Hw as [->|[-> _]]; discriminate.
Qed.

(** X24. When [write_config] returns, it has gone through every record of
    the assignment: the metadata table has the row of every record, in the
    order of the records, the genome table has a row for every record, each
    abundance file [i] below the number of samples has the abundance [i] of
    every record, and every record has at least that many abundances; the
    number of samples of the configuration is positive, the path returned is
    [config.ini] under the output path, and the configuration that is
    written counts the records. Nothing but the first message is logged. *)
Theorem write_config_rows (IO : Retrieval)
    (otu_genome_map : list (string * assignment)) (out_path : string)
    (cfg cfg' : config) (w : world IO) (s : written IO) (cfg_path : string) :
  write_config IO otu_genome_map out_path cfg w = (s, Ok (cfg_path, cfg')) →
  ∃ n z,
    config_get "Main" "number_of_samples" cfg = Ok n ∧ int_of_str n = Ok z
    ∧ (0 < z)%Z
    ∧ cfg_path = path_join out_path "config.ini"
    ∧ w_metadata s = metadata_row <$> otu_genome_map
    ∧ (w_genome_to_id s).*1 = otu_genome_map.*1
    ∧ w_abundance s = otu_genome_map ≫= abundance_rows (Z.to_nat z)
    ∧ Forall (λ e, Z.to_nat z ≤ length (abundances e.2)) otu_genome_map
    ∧ w_log s = [LogInfo ("Downloading " +:+ pretty (length otu_genome_map)
                            +:+ " genomes")]
    ∧ config_get "community0" "num_real_genomes" cfg'
      = Ok (pretty (length otu_genome_map))
    ∧ config_get "community0" "genomes_total" cfg'
      = Ok (pretty (length otu_genome_map)).
Proof.
  intros H.
  destruct (write_config_start IO otu_genome_map out_path cfg w)
    as [(x & Hx & _)|(n & z & Hc & Hn & Hz)].
  { rewrite H in Hx. discriminate. }
  destruct (write_config_loop IO otu_genome_map out_path cfg w n z Hc Hn Hz)
    as (cfg2 & [o1 H1] & [o2 H2] & Heq).
  rewrite Heq in H. clear Heq.
  destruct (write_records _ _ _ _ _ _ _) as [s1 [u|x]] eqn:Hw; [|inversion H].
  apply write_records_returns_rows in Hw as (Hm & Hg & Ha & Hlen & Hl).
  cbn [w_metadata w_genome_to_id w_abundance w_log] in Hm, Hg, Ha, Hl.
  destruct (join_commas _) as [files|x] eqn:Hj; [|inversion H].
  rewrite bind_ok in H. unfold config_set at 1 in H. rewrite H1, bind_ok in H.
  unfold config_set at 1 in H. rewrite lookup_insert_ne, H2, bind_ok in H by done.
  unfold config_set at 1 in H. rewrite lookup_insert_eq, bind_ok in H.
  inversion H; subst s1 cfg_path cfg'; clear H.
  exists n, z. split; [done|]. split; [done|]. split.
  { destruct (Z.to_nat z) as [|k] eqn:Hk; [|lia].
    unfold join_commas, last_item in Hj. simpl in Hj. discriminate. }
  split; [done|]. split; [done|]. split; [done|]. split; [done|].
  split; [done|]. split; [done|]. split.
  - unfold config_get. rewrite lookup_insert_eq, lookup_insert_ne by done.
    by rewrite lookup_insert_eq.
  - apply config_get_set.
Qed.

Lemma write_config_rows_witness :
  ∃ s cfg_path cfg',
    write_config Toy.retrieval
      [("otu2.0", {| tax_id := 590; genome_id := "28901"; path := "/data/s";
                     abundances := [2%Q; 5%Q] |})]
      "out"
      (<["Main" := <["number_of_samples" := "2"]> ∅]> (<["community0" := ∅]> ∅))
      ([] : world Toy.retrieval)
    = (s, Ok (cfg_path, cfg'))
    ∧ ∃ n z,
        config_get "Main" "number_of_samples"
          (<["Main" := <["number_of_samples" := "2"]> ∅]> (<["community0" := ∅]> ∅))
        = Ok n
        ∧ int_of_str n = Ok z
        ∧ (0 < z)%Z
        ∧ cfg_path = path_join "out" "config.ini"
        ∧ w_metadata s
          = metadata_row
              <$> [("otu2.0", {| tax_id := 590; genome_id := "28901";
                                 path := "/data/s"; abundances := [2%Q; 5%Q] |})]
        ∧ (w_genome_to_id s).*1 = ["otu2.0"]
        ∧ w_abundance s
          = [("otu2.0", {| tax_id := 590; genome_id := "28901"; path := "/data/s";
                           abundances := [2%Q; 5%Q] |})]
              ≫= abundance_rows (Z.to_nat z)
        ∧ Forall (λ e : string * assignment, Z.to_nat z ≤ length (abundances e.2))
            [("otu2.0", {| tax_id := 590; genome_id := "28901"; path := "/data/s";
                           abundances := [2%Q; 5%Q] |})]
        ∧ w_log s = [LogInfo ("Downloading " +:+ pretty 1 +:+ " genomes")]
        ∧ config_get "community0" "num_real_genomes" cfg' = Ok (pretty 1)
        ∧ config_get "community0" "genomes_total" cfg' = Ok (pretty 1).
Proof.
  eexists _, _, _. split; [vm_compute; reflexivity|].
  eapply (write_config_rows Toy.retrieval
            [("otu2.0", {| tax_id := 590; genome_id := "28901"; path := "/data/s";
                           abundances := [2%Q; 5%Q] |})]
            "out"
            (<["Main" := <["number_of_samples" := "2"]> ∅]> (<["community0" := ∅]> ∅))
            _ ([] : world Toy.retrieval)).
  vm_compute. reflexivity.
Defined.


